(** * Code Transformation (Gumby): job polling, packaging and project validation

    A shallow embedding of the parts of
    [codewhisperer/service/transformByQ/transformApiHandler.ts], of the
    project validation handler and of [amazonqGumby/errors.ts] that carry the
    job-lifecycle logic, together with the properties the specification
    states about them.

    Conventions.
    - An [async] function is a computation [M A]: it threads the fields of
      [transformByQState] the orchestrator writes, records the calls it makes
      to collaborators as a list of [Event]s, and completes by returning or
      by throwing.
    - What a collaborator answers (the backend, the file system, the user) is
      an argument of the function that awaits it.
    - Two flags of [transformByQState] are written by other tasks while the
      orchestrator is suspended: the cancellation flag and the
      build-authorization flag.  They are not part of the threaded state.
      The value the k-th call of [isCancelled()] sees is [cancelledAt k];
      the value [getWaitingForClientSideBuildAuthorization()] sees is given
      with the other answers of the environment; a write to either flag is
      an [Event]. *)

From Stdlib Require Import String List ZArith Bool Lia.
Import ListNotations.

Local Set Warnings "-register-all".

Local Open Scope string_scope.
Local Open Scope Z_scope.

(** ** JavaScript strings and arrays *)

(** [s.includes(sub)] *)
Fixpoint includes (s sub : string) : bool :=
  if String.prefix sub s then true
  else match s with
       | EmptyString => false
       | String _ rest => includes rest sub
       end.

(** [s.endsWith(suffix)] *)
Definition endsWith (s suffix : string) : bool :=
  (String.length suffix <=? String.length s)%nat
  && String.eqb
       (String.substring (String.length s - String.length suffix)
          (String.length suffix) s)
       suffix.

(** [s.indexOf(sub)]: where [sub] first occurs in [s], or -1. *)
Fixpoint firstOccurrence (s sub : string) : option nat :=
  if String.prefix sub s then Some 0%nat
  else match s with
       | EmptyString => None
       | String _ rest => option_map S (firstOccurrence rest sub)
       end.

Definition indexOf (s sub : string) : Z :=
  match firstOccurrence s sub with
  | Some position => Z.of_nat position
  | None => -1
  end.

(** An argument of [slice] as a position in a string of length [len]: a
    negative one counts from the end, and both ways it is kept within the
    string. *)
Definition slicePosition (len i : Z) : Z :=
  if i <? 0 then Z.max (len + i) 0 else Z.min i len.

(** [s.slice(from, to)] *)
Definition slice (s : string) (from to : Z) : string :=
  let len := Z.of_nat (String.length s) in
  let first := slicePosition len from in
  let last := slicePosition len to in
  String.substring (Z.to_nat first) (Z.to_nat (last - first)) s.

(** White space and line terminators, among the characters below 256: tab,
    line feed, vertical tab, form feed, carriage return, space and no-break
    space. *)
Definition isWhiteSpace (c : Ascii.ascii) : bool :=
  let n := Ascii.nat_of_ascii c in
  ((9 <=? n) && (n <=? 13) || (n =? 32) || (n =? 160))%nat.

Fixpoint trimStart (s : string) : string :=
  match s with
  | EmptyString => EmptyString
  | String c rest => if isWhiteSpace c then trimStart rest else s
  end.

Fixpoint trimEnd (s : string) : string :=
  match s with
  | EmptyString => EmptyString
  | String c rest =>
      match trimEnd rest with
      | EmptyString => if isWhiteSpace c then EmptyString else String c EmptyString
      | kept => String c kept
      end
  end.

(** [s.trim()] *)
Definition trim (s : string) : string := trimEnd (trimStart s).

(** [array.includes(s)] on an array of strings (strict equality). *)
Definition arrayIncludes (l : list string) (s : string) : bool :=
  existsb (String.eqb s) l.

(** Truthiness of a string: every string but the empty one. *)
Definition truthy (s : string) : bool := negb (String.eqb s "").

(** Truthiness of a possibly undefined string. *)
Definition truthyOpt (s : option string) : bool :=
  match s with
  | Some v => truthy v
  | None => false
  end.

(** ** Errors ([amazonqGumby/errors.ts]) *)

Inductive Err : Type :=
| Error (message : string)
| TransformByQStoppedError
| JobStoppedError (requestId : string)
| NoOpenProjectsError
| NoJavaProjectsFoundError
| NoMavenOrGradleJavaProjectsFoundError
| ZipExceedsSizeLimitError
(* raised by the engine, not by the handlers: a property read off null *)
| TypeError (message : string).

(** How a computation completes.  [Blocked] is the model's own: the answers
    supplied for the backend ran out while the code was still waiting. *)
Inductive Completion (A : Type) : Type :=
| Returned (a : A)
| Threw (e : Err)
| Blocked.
Arguments Returned {A} a.
Arguments Threw {A} e.
Arguments Blocked {A}.

(** What an awaited collaborator does. *)
Inductive Answer (A : Type) : Type :=
| Resolves (a : A)
| Rejects (e : Err).
Arguments Resolves {A} a.
Arguments Rejects {A} e.

(** ** Declarations the handlers import

    [models/constants.ts], [models/model.ts], [shared/localizedText.ts] and
    Node's [os] and [path] are not part of the sources at hand: their values
    are taken as given. *)

Record Constants : Type := {
  validStatesForBuildSucceeded : list string;
  validStatesForPlanGenerated : list string;
  pausedStates : list string;
  failureStates : list string;
  transformationJobPollingIntervalSeconds : Z;
  transformationJobTimeoutSeconds : Z;
  uploadZipSizeLimitInBytes : Z;
  failedToStartJobMonthlyLimitNotification : string;
  failedToStartJobMonthlyLimitChatMessage : string;
  failedToStartJobLinesLimitNotification : string;
  failedToStartJobLinesLimitChatMessage : string;
  failedToCompleteJobGenericChatMessage : string;
  failedToCompleteJobGenericNotification : string;
  projectSizeTooLargeNotification : string;
  projectSizeTooLargeChatMessage : string;
  noPomXmlOrBuildGradleFoundNotification : string;
  JDK8VersionNumber : string;
  JDK11VersionNumber : string;
  (* TransformByQStatus.WaitingUserInput *)
  waitingUserInput : string;
  (* the message of TransformByQStoppedError, and ToolkitError's name *)
  stoppedErrorMessage : string;
  toolkitErrorName : string;
  (* localizedText.yes / localizedText.no *)
  localizedYes : string;
  localizedNo : string;
  (* os.tmpdir(), path.join, path.relative, path.dirname, path.resolve *)
  tmpdir : string;
  pathJoin : string -> string -> string;
  pathRelative : string -> string -> string;
  pathDirname : string -> string;
  pathResolve : string -> string -> string;
  (* transformFileHandler.shouldIncludeDirectoryInZip *)
  shouldIncludeDirectoryInZip : string -> bool
}.

Inductive BuildSystem : Type := Maven | Gradle | Unknown.

Inductive StepProgress : Type := NotStarted | StepPending | Succeeded | Failed.

(** ** Shared job state ([transformByQState], [jobPlanProgress])

    [Settings] holds the fields the handlers below only read, [JobState]
    the fields they write. *)

Record Settings : Type := {
  jobId : string;
  buildSystem : BuildSystem;
  buildSystemCommand : string;
  javaTargetPath : string;
  clientSideBuildSelection : string;
  projectPath : string;
  projectCopyFilePath : string
}.

Record JobState : Type := {
  polledJobStatus : string;
  jobFailureErrorNotification : option string;
  jobFailureErrorChatMessage : option string;
  jobFailureMetadata : string;
  buildCodeProgress : StepProgress
}.

Definition withPolledJobStatus (s : string) (j : JobState) : JobState :=
  {| polledJobStatus := s;
     jobFailureErrorNotification := jobFailureErrorNotification j;
     jobFailureErrorChatMessage := jobFailureErrorChatMessage j;
     jobFailureMetadata := jobFailureMetadata j;
     buildCodeProgress := buildCodeProgress j |}.

Definition withJobFailureErrorNotification (s : string) (j : JobState)
  : JobState :=
  {| polledJobStatus := polledJobStatus j;
     jobFailureErrorNotification := Some s;
     jobFailureErrorChatMessage := jobFailureErrorChatMessage j;
     jobFailureMetadata := jobFailureMetadata j;
     buildCodeProgress := buildCodeProgress j |}.

Definition withJobFailureErrorChatMessage (s : string) (j : JobState)
  : JobState :=
  {| polledJobStatus := polledJobStatus j;
     jobFailureErrorNotification := jobFailureErrorNotification j;
     jobFailureErrorChatMessage := Some s;
     jobFailureMetadata := jobFailureMetadata j;
     buildCodeProgress := buildCodeProgress j |}.

Definition withJobFailureMetadata (s : string) (j : JobState) : JobState :=
  {| polledJobStatus := polledJobStatus j;
     jobFailureErrorNotification := jobFailureErrorNotification j;
     jobFailureErrorChatMessage := jobFailureErrorChatMessage j;
     jobFailureMetadata := s;
     buildCodeProgress := buildCodeProgress j |}.

Definition withBuildCodeProgress (p : StepProgress) (j : JobState) : JobState :=
  {| polledJobStatus := polledJobStatus j;
     jobFailureErrorNotification := jobFailureErrorNotification j;
     jobFailureErrorChatMessage := jobFailureErrorChatMessage j;
     jobFailureMetadata := jobFailureMetadata j;
     buildCodeProgress := p |}.

(** The state a computation threads: the job fields and the number of reads
    of the cancellation flag made so far. *)
Record World : Type := {
  job : JobState;
  cancelReads : nat
}.

Definition onJob (f : JobState -> JobState) (w : World) : World :=
  {| job := f (job w); cancelReads := cancelReads w |}.

(** ** Manifests ([models/model.ts])

    A [ZipManifest] as the specification's data model gives it; the
    parameters of a [HilZipManifest] are not inspected by the packager. *)

Record ZipManifest : Type := {
  buildTool : option BuildSystem;
  dependenciesRoot : option string;
  hilCapabilities : option (list string)
}.

Inductive Manifest : Type :=
| PlainManifest (m : ZipManifest)
| HilManifest (hilZipParams : string).

(** ** Calls to collaborators *)

Inductive Event : Type :=
(* reads and writes of the flags shared with other tasks *)
| EIsCancelled (seen : bool)
| ESetWaitingForClientSideBuildAuthorization (b : bool)
(* backend *)
| EGetTransformation (job_id : string)
| EStatus (status : string)          (* the status read off the response *)
| EGetTransformationPlan (job_id : string)
| EStopTransformation (job_id : string)
| EResumeTransformation (job_id userActionStatus : string)
| EUploadPayload (file uploadArtifactType : string)
(* telemetry and timers *)
| EStatusChanged (job_id status previous : string)
| ESleep (ms : Z)
| ELogError (message : string)
(* client-side build round *)
| EProcessAwaitingClientAction (job_id : string)
| EExtractClientInstructions (job_id artifactId : string)
| EProcessClientInstructions (job_id artifactId : string)
| ERunClientSideBuild (artifactId : string)
| EAuthorizationPrompt
| EStopTransformByQ (job_id : string)
| ESpawn (command : string) (args : list string) (cwd javaHome : string)
| EAppendToLocalBuildErrorLog (message : string)
| EWriteBuildLogs (artifactId : string)
| EUpdateManifestFile (exitCode : Z) (commandLogFileName file : string)
(* packaging *)
| EAddLocalFile (file zipDirectory : string)
| EAddManifest (manifest : Manifest)
| EAddBuildLog (file : string)
| EWriteLogs
| EWriteZip (file : string)
| ERemove (file : string)
| EShowErrorMessage (message : string)
| EValidateProjectFailed (reason : string)
| ETransformationFinished (message : string)
(* project validation *)
(* spawnSync(command, args, { shell: false, encoding: 'utf-8' }) *)
| ESpawnSync (command : string) (args : list string)
| EConsoleLog (text : string).

(** ** The monad of handlers *)

Record Run (A : Type) : Type := {
  outcome : Completion A;
  final : World;
  events : list Event
}.
Arguments outcome {A} r.
Arguments final {A} r.
Arguments events {A} r.

Definition M (A : Type) : Type := World -> Run A.

Definition ret {A} (a : A) : M A :=
  fun w => {| outcome := Returned a; final := w; events := [] |}.

Definition throw {A} (e : Err) : M A :=
  fun w => {| outcome := Threw e; final := w; events := [] |}.

Definition blocked {A} : M A :=
  fun w => {| outcome := Blocked; final := w; events := [] |}.

Definition bind {A B} (m : M A) (k : A -> M B) : M B :=
  fun w =>
    let r := m w in
    match outcome r with
    | Returned a =>
        let r' := k a (final r) in
        {| outcome := outcome r';
           final := final r';
           events := events r ++ events r' |}
    | Threw e => {| outcome := Threw e; final := final r; events := events r |}
    | Blocked => {| outcome := Blocked; final := final r; events := events r |}
    end.

Notation "x <- m ;; k" := (bind m (fun x => k))
  (at level 61, m at next level, right associativity).
Notation "m ;; k" := (bind m (fun _ => k))
  (at level 61, right associativity).

(** [try { m } catch (e) { handler e }] *)
Definition tryCatch {A} (m : M A) (handler : Err -> M A) : M A :=
  fun w =>
    let r := m w in
    match outcome r with
    | Threw e =>
        let r' := handler e (final r) in
        {| outcome := outcome r';
           final := final r';
           events := events r ++ events r' |}
    | _ => r
    end.

(** [try { m } finally { cleanup }], for a cleanup that does not throw. *)
Definition tryFinally {A} (m : M A) (cleanup : M unit) : M A :=
  fun w =>
    let r := m w in
    let r' := cleanup (final r) in
    {| outcome := outcome r;
       final := final r';
       events := events r ++ events r' |}.

Definition emit (e : Event) : M unit :=
  fun w => {| outcome := Returned tt; final := w; events := [e] |}.

Definition modify (f : JobState -> JobState) : M unit :=
  fun w => {| outcome := Returned tt; final := onJob f w; events := [] |}.

Definition getJob : M JobState :=
  fun w => {| outcome := Returned (job w); final := w; events := [] |}.

(** [await] of a collaborator whose answer is [a]. *)
Definition await {A} (a : Answer A) : M A :=
  match a with
  | Resolves v => ret v
  | Rejects e => throw e
  end.

Definition when (b : bool) (m : M unit) : M unit :=
  if b then m else ret tt.

(** ** Backend data ([codewhispereruserclient]) *)

Record TransformationResponse : Type := {
  status : string;                 (* response.transformationJob.status *)
  reason : option string;          (* response.transformationJob.reason *)
  requestId : string               (* response.$response.requestId *)
}.

Record DownloadArtifact : Type := {
  downloadArtifactType : option string;
  downloadArtifactId : option string
}.

Record TransformationProgressUpdate : Type := {
  updateName : string;
  updateStatus : string;
  downloadArtifacts : option (list DownloadArtifact)
}.

Record TransformationStep : Type := {
  stepId : string;
  stepName : string;
  progressUpdates : option (list TransformationProgressUpdate)
}.

Record PlanResponse : Type := {
  planRequestId : string;
  transformationSteps : list TransformationStep
}.

Record ClientInstructions : Type := {
  capability : string;
  buildCommand : string;
  patchFilePath : string
}.

(** The result of [getClientInstructionArtifactId]. *)
Record ClientActionStatus : Type := {
  IsTransformationCompleted : bool;
  IsWaitingForClientAction : bool;
  ClientInstructionArtifactId : option string
}.

(** What the environment does during one client-side build round. *)
Record ClientActionRound : Type := {
  (* codeModernizerGetCodeTransformationPlan *)
  planAnswer : Answer PlanResponse;
  (* download and extraction of the client instructions, manifest read *)
  extractAnswer : Answer ClientInstructions;
  (* snapshot of the project, patch applied, patch shown *)
  patchAnswer : Answer unit
}.

(** What the environment does during one iteration of the poll loop. *)
Record PollRound : Type := {
  (* codeModernizerGetCodeTransformation *)
  getTransformation : Answer TransformationResponse;
  (* getWaitingForClientSideBuildAuthorization(), as read by the iteration *)
  waitingForAuthorization : bool;
  clientAction : ClientActionRound
}.

(** The two ways an iteration of [while (true)] ends without throwing. *)
Inductive LoopStep : Type :=
| Break (status : string)
| Continue (timer : Z).

(** [progressUpdate.downloadArtifacts?.[0]] *)
Definition firstArtifact (u : TransformationProgressUpdate)
  : option DownloadArtifact :=
  match downloadArtifacts u with
  | Some (a :: _) => Some a
  | _ => None
  end.

Definition artifactType (a : option DownloadArtifact) : option string :=
  match a with
  | Some d => downloadArtifactType d
  | None => None
  end.

Definition artifactId (a : option DownloadArtifact) : option string :=
  match a with
  | Some d => downloadArtifactId d
  | None => None
  end.

(** The test of the inner loop of [findDownloadArtifactStep]. *)
Definition hasDownloadArtifact (u : TransformationProgressUpdate) : bool :=
  truthyOpt (artifactType (firstArtifact u))
  || (truthyOpt (artifactId (firstArtifact u))
      && String.eqb (updateStatus u) "AWAITING_CLIENT_ACTION").

Fixpoint findDownloadArtifactStep (steps : list TransformationStep)
  : option TransformationStep * option TransformationProgressUpdate :=
  match steps with
  | [] => (None, None)
  | step :: rest =>
      match progressUpdates step with
      | Some updates =>
          match find hasDownloadArtifact updates with
          | Some u => (Some step, Some u)
          | None => findDownloadArtifactStep rest
          end
      | None => findDownloadArtifactStep rest
      end
  end.

(** A value inside a template literal or after [+]: [undefined] prints as
    such. *)
Definition showOpt (s : option string) : string :=
  match s with
  | Some v => v
  | None => "undefined"
  end.

Definition requestIdMetadata (rid : string) : string :=
  " (request ID: " ++ rid ++ ")".

(** ** Processes ([spawnSync]) *)

(** [spawnResult.error]: its JSON form and its code. *)
Record ProcessError : Type := {
  errorJson : string;
  errorCode : option string
}.

(** What [spawnSync] returns; the outputs are [null] when the process could
    not be started. *)
Record ProcessResult : Type := {
  exitStatus : option Z;
  processError : option ProcessError;
  processStderr : option string;
  processStdout : option string
}.

Definition newline : string := String (Ascii.ascii_of_nat 10) EmptyString.

(** An output inside a template literal. *)
Definition renderOutput (output : option string) : string :=
  match output with
  | Some text => text
  | None => "null"
  end.

(** [spawnResult.status !== 0] *)
Definition exitedWithError (r : ProcessResult) : bool :=
  match exitStatus r with
  | Some code => negb (code =? 0)
  | None => true
  end.

(** The text both logs receive for a process that failed. *)
Definition processErrorLog (r : ProcessResult) : string :=
  match processError r with
  | Some e => errorJson e
  | None => ""
  end ++ renderOutput (processStderr r) ++ newline ++ renderOutput (processStdout r).

(** The suffix of the failure reason for [spawnResult.error]. *)
Definition errorCodeSuffix (r : ProcessResult) : string :=
  match processError r with
  | Some e => "-" ++ match errorCode e with Some code => code | None => "UNKNOWN" end
  | None => ""
  end.

Section Handlers.

Variable C : Constants.
Variable cancelledAt : nat -> bool.

(** [e.message] *)
Definition message (e : Err) : string :=
  match e with
  | Error m => m
  | TransformByQStoppedError => stoppedErrorMessage C
  | JobStoppedError _ => "Job was rejected, stopped, or failed"
  | NoOpenProjectsError => "No Java projects found since no projects are open"
  | NoJavaProjectsFoundError => "No Java projects found"
  | NoMavenOrGradleJavaProjectsFoundError =>
      "No valid Maven or Gradle build file found"
  | ZipExceedsSizeLimitError => "Zip file exceeds size limit"
  | TypeError m => m
  end.

(** [e.name] *)
Definition errorName (e : Err) : string :=
  match e with
  | Error _ | JobStoppedError _ => "Error"
  | TypeError _ => "TypeError"
  | _ => toolkitErrorName C
  end.

(** ['' + e], that is [Error.prototype.toString]. *)
Definition render (e : Err) : string :=
  if String.eqb (message e) "" then errorName e
  else errorName e ++ ": " ++ message e.

Definition throwIfCancelled : M unit :=
  fun w =>
    let seen := cancelledAt (cancelReads w) in
    {| outcome := if seen then Threw TransformByQStoppedError else Returned tt;
       final := {| job := job w; cancelReads := S (cancelReads w) |};
       events := [EIsCancelled seen] |}.

(** [sleep(transformationJobPollingIntervalSeconds * 1000)] *)
Definition pollingIntervalMs : Z :=
  transformationJobPollingIntervalSeconds C * 1000.

Definition sleep (ms : Z) : M unit := emit (ESleep ms).

(** *** stopJob *)

(** [answer] is what [codeModernizerStopCodeTransformation] does: it resolves
    with a response (possibly [undefined]) carrying a request id, or
    rejects. *)
Definition stopJob (job_id : string) (answer : Answer (option string)) : M unit :=
  if negb (truthy job_id) then ret tt
  else
    tryCatch
      (emit (EStopTransformation job_id) ;;
       response <- await answer ;;
       match response with
       | Some rid =>
           when (truthy rid) (modify (withJobFailureMetadata (requestIdMetadata rid)))
       | None => ret tt
       end)
      (fun e =>
         emit (ELogError ("CodeTransformation: StopTransformation error = " ++ message e)) ;;
         throw (Error "Stop job failed")).

(** *** The client-side build round *)

Definition getTransformationSteps (job_id : string) (handleThrottleFlag : bool)
  (answer : Answer PlanResponse) : M (list TransformationStep) :=
  tryCatch
    (when handleThrottleFlag (sleep 2000) ;;
     emit (EGetTransformationPlan job_id) ;;
     response <- await answer ;;
     when (truthy (planRequestId response))
       (modify (withJobFailureMetadata (requestIdMetadata (planRequestId response)))) ;;
     ret (transformationSteps response))
    (fun e =>
       emit (ELogError ("CodeTransformation: GetTransformationPlan error = " ++ message e)) ;;
       throw e).

Definition getClientInstructionArtifactId (job_id : string)
  (answer : Answer PlanResponse) : M (option ClientActionStatus) :=
  sleep pollingIntervalMs ;;
  plan_status <- getTransformationSteps job_id false answer ;;
  match snd (findDownloadArtifactStep plan_status) with
  | Some progressUpdate =>
      if String.eqb (updateStatus progressUpdate) "AWAITING_CLIENT_ACTION" then
        let artifact := firstArtifact progressUpdate in
        let download_artifact_type := artifactType artifact in
        match download_artifact_type with
        | Some "CLIENT_INSTRUCTIONS" =>
            ret (Some {| IsTransformationCompleted := false;
                         IsWaitingForClientAction := true;
                         ClientInstructionArtifactId := artifactId artifact |})
        | _ =>
            throw (Error ("Received unexpected downloadArtifactType: "
                          ++ showOpt download_artifact_type
                          ++ "for jobId: " ++ job_id))
        end
      else ret None
  | None => ret None
  end.

Definition extractClientInstructions (job_id clientInstructionsArtifactId : string)
  (answer : Answer ClientInstructions) : M ClientInstructions :=
  emit (EExtractClientInstructions job_id clientInstructionsArtifactId) ;;
  await answer.

(** [answer] is what copying the project, applying the patch to the copy and
    showing the patch do.  [runClientSideBuild] hands its whole body to
    [telemetry.codeTransform_localBuildProject.run] as an [async] callback
    and does not await it: the call returns once the callback is started,
    and the steps of the callback (see [clientSideBuildSpan] below) interleave
    with the caller's.  Here only the start is recorded. *)
Definition processClientInstructions (job_id : string)
  (clientInstructions : ClientInstructions) (clientInstructionArtifactId : string)
  (answer : Answer unit) : M unit :=
  emit (EProcessClientInstructions job_id clientInstructionArtifactId) ;;
  await answer ;;
  tryCatch
    (emit (ERunClientSideBuild clientInstructionArtifactId))
    (fun err => throw (Error ("Client-side build failed: " ++ render err))).

Definition processAwaitingClientActionStatus (job_id : string)
  (round : ClientActionRound) : M unit :=
  emit (EProcessAwaitingClientAction job_id) ;;
  throwIfCancelled ;;
  sleep pollingIntervalMs ;;
  transformationStatus <- getClientInstructionArtifactId job_id (planAnswer round) ;;
  match transformationStatus with
  | None => emit (ELogError "Client Instruction Artifact ID is undefined")
  | Some ts =>
      if IsWaitingForClientAction ts then
        match ClientInstructionArtifactId ts with
        | Some artifact =>
            if truthy artifact then
              sleep pollingIntervalMs ;;
              clientInstructions <-
                extractClientInstructions job_id artifact (extractAnswer round) ;;
              tryCatch
                (sleep pollingIntervalMs ;;
                 processClientInstructions job_id clientInstructions artifact
                   (patchAnswer round))
                (fun err =>
                   throw (Error ("process client instructions failed: " ++ render err)))
            else throw (Error "Failed to get client instruction artifact ID")
        | None => throw (Error "Failed to get client instruction artifact ID")
        end
      else ret tt
  end.

(** *** pollTransformationJob *)

(** Lines 618-643: the failure reason, when the response has one, selects the
    notification and the chat message kept for the user. *)
Definition recordFailureReason (response : TransformationResponse) : M unit :=
  match reason response with
  | Some errorMessage =>
      (if includes errorMessage "Monthly aggregated Lines of Code limit breached" then
         modify (withJobFailureErrorNotification
                   (failedToStartJobMonthlyLimitNotification C)) ;;
         modify (withJobFailureErrorChatMessage
                   (failedToStartJobMonthlyLimitChatMessage C))
       else if includes errorMessage "Lines of Code limit breached for job" then
         modify (withJobFailureErrorNotification
                   (failedToStartJobLinesLimitNotification C)) ;;
         modify (withJobFailureErrorChatMessage
                   (failedToStartJobLinesLimitChatMessage C))
       else
         modify (withJobFailureErrorChatMessage
                   (failedToCompleteJobGenericChatMessage C ++ " " ++ errorMessage)) ;;
         modify (withJobFailureErrorNotification
                   (failedToCompleteJobGenericNotification C ++ " " ++ errorMessage))) ;;
      modify (withJobFailureMetadata (requestIdMetadata (requestId response)))
  | None => ret tt
  end.

(** Lines 599-643: the status is fetched and recorded. *)
Definition observeStatus (job_id : string) (round : PollRound)
  : M TransformationResponse :=
  emit (EGetTransformation job_id) ;;
  response <- await (getTransformation round) ;;
  let status := status response in
  emit (EStatus status) ;;
  when (arrayIncludes (validStatesForBuildSucceeded C) status)
    (modify (withBuildCodeProgress Succeeded)) ;;
  j <- getJob ;;
  when (negb (String.eqb status (polledJobStatus j)))
    (emit (EStatusChanged job_id status (polledJobStatus j))) ;;
  modify (withPolledJobStatus status) ;;
  recordFailureReason response ;;
  ret response.

(** Lines 644-676: what the iteration does with the status. *)
Definition actOnStatus (job_id : string) (validStates : list string)
  (round : PollRound) (response : TransformationResponse) (timer : Z)
  : M LoopStep :=
  let status := status response in
  if arrayIncludes validStates status then ret (Break status)
  else
    when (arrayIncludes (validStatesForPlanGenerated C) status
          && negb (waitingForAuthorization round))
      (sleep pollingIntervalMs ;;
       processAwaitingClientActionStatus job_id (clientAction round)) ;;
    if arrayIncludes (pausedStates C) status then
      modify (withPolledJobStatus (waitingUserInput C)) ;;
      ret (Break status)
    else if arrayIncludes (failureStates C) status then
      modify (withJobFailureMetadata (requestIdMetadata (requestId response))) ;;
      throw (JobStoppedError (requestId response))
    else
      sleep pollingIntervalMs ;;
      let timer := timer + transformationJobPollingIntervalSeconds C in
      if timer >? transformationJobTimeoutSeconds C then
        throw (Error "Job timed out")
      else ret (Continue timer).

(** The body of the [try] block of one iteration. *)
Definition pollIterationBody (job_id : string) (validStates : list string)
  (round : PollRound) (timer : Z) : M LoopStep :=
  response <- observeStatus job_id round ;;
  actOnStatus job_id validStates round response timer.

(** The message logged by the [catch] clause of an iteration. *)
Definition pollErrorLog (e : Err) (j : JobState) : Event :=
  ELogError ("CodeTransformation: GetTransformation error = "
             ++ message e ++ " -- " ++ jobFailureMetadata j).

Definition pollIteration (job_id : string) (validStates : list string)
  (round : PollRound) (timer : Z) : M LoopStep :=
  tryCatch (pollIterationBody job_id validStates round timer)
    (fun e =>
       j <- getJob ;;
       emit (pollErrorLog e j) ;;
       throw e).

(** [while (true)]: one round of answers per iteration. *)
Fixpoint pollLoop (job_id : string) (validStates : list string)
  (rounds : list PollRound) (timer : Z) : M string :=
  match rounds with
  | [] => blocked
  | round :: rest =>
      throwIfCancelled ;;
      step <- pollIteration job_id validStates round timer ;;
      match step with
      | Break status => ret status
      | Continue timer => pollLoop job_id validStates rest timer
      end
  end.

Definition pollTransformationJob (job_id : string) (validStates : list string)
  (rounds : list PollRound) : M string :=
  pollLoop job_id validStates rounds 0.

(** *** The client-side build ([runClientSideBuild]) *)

Record SpawnResult : Type := {
  spawnStatus : option Z;          (* null when the process did not exit *)
  spawnError : option string;      (* JSON.stringify(spawnResult.error) *)
  spawnStderr : string;
  spawnStdout : string
}.

(** What the environment does while the build callback runs. *)
Record BuildEnv : Type := {
  (* getWaitingForClientSideBuildAuthorization(), as read by the callback *)
  waitingSeen : bool;
  (* the button picked in the modal prompt; None when it is dismissed *)
  promptAnswer : option string;
  (* stopTransformByQ(jobId, CancelActionPositions.Chat) *)
  stopAnswer : Answer unit;
  spawned : SpawnResult;
  (* writeAndShowBuildLogs: the directory holding build-output.log *)
  buildLogsAnswer : Answer string;
  (* uploadPayload of the zipped build result *)
  uploadAnswer : Answer string;
  (* codeModernizerResumeTransformation *)
  resumeAnswer : Answer (option string)
}.

Definition resumeTransformationJob (job_id userActionStatus : string)
  (answer : Answer (option string)) : M (option string) :=
  tryCatch
    (emit (EResumeTransformation job_id userActionStatus) ;;
     await answer)
    (fun e =>
       let errorMessage := "Resuming the job failed due to: " ++ message e in
       emit (ELogError ("CodeTransformation: ResumeTransformation error = " ++ errorMessage)) ;;
       throw (Error errorMessage)).

Definition buildArgs (s : Settings) : list string :=
  match buildSystem s with
  | Maven => ["test"]
  | _ => ["TO-DO:something-for-gradle"]
  end.

(** [args.join(' ')] *)
Definition joinArgs (args : list string) : string := String.concat " " args.

(** The part of the callback that follows the authorization step: the build
    itself and the report of its result. *)
Definition performClientSideBuild (s : Settings)
  (modulePath clientInstructionArtifactId : string) (env : BuildEnv) : M unit :=
  let baseCommand := buildSystemCommand s in
  let args := buildArgs s in
  emit (ESetWaitingForClientSideBuildAuthorization false) ;;
  let argString := joinArgs args in
  emit (ESpawn baseCommand args modulePath (javaTargetPath s)) ;;
  let spawnResult := spawned env in
  when (negb (match spawnStatus spawnResult with
              | Some code => code =? 0
              | None => false
              end))
    (let errorLog :=
       match spawnError spawnResult with Some e => e | None => "" end
       ++ spawnStderr spawnResult ++ String (Ascii.ascii_of_nat 10) ""
       ++ spawnStdout spawnResult in
     emit (EAppendToLocalBuildErrorLog
             (baseCommand ++ " " ++ argString ++ " failed: "
              ++ String (Ascii.ascii_of_nat 10) "" ++ " " ++ errorLog)) ;;
     emit (ELogError ("Maven " ++ argString ++ " error"))) ;;
  emit (EWriteBuildLogs clientInstructionArtifactId) ;;
  buildLogsDir <- await (buildLogsAnswer env) ;;
  match spawnStatus spawnResult with
  | Some exitCode =>
      let buildLogFileName := "build-output.log" in
      let manifestFilePath := pathJoin C buildLogsDir "manifest.json" in
      emit (EUpdateManifestFile exitCode buildLogFileName manifestFilePath) ;;
      emit (EAddLocalFile (buildLogsDir ++ "/build-output.log") "") ;;
      emit (EAddLocalFile (buildLogsDir ++ "/manifest.json") "") ;;
      emit (EWriteZip (buildLogsDir ++ ".zip")) ;;
      emit (EUploadPayload (buildLogsDir ++ ".zip") "ClientBuildResult") ;;
      _ <- await (uploadAnswer env) ;;
      _ <- resumeTransformationJob (jobId s) "COMPLETED" (resumeAnswer env) ;;
      ret tt
  | None =>
      throw (Error (baseCommand ++ " " ++ argString ++ "  exit code is null"))
  end.

(** The [async] callback [runClientSideBuild] hands to
    [telemetry.codeTransform_localBuildProject.run]. *)
Definition clientSideBuildSpan (s : Settings)
  (modulePath clientInstructionArtifactId : string) (env : BuildEnv) : M unit :=
  emit (EAppendToLocalBuildErrorLog
          ("Running local build with " ++ buildSystemCommand s)) ;;
  if String.eqb (clientSideBuildSelection s) "Verify Each Iteration"
     && negb (waitingSeen env)
  then
    emit (ESetWaitingForClientSideBuildAuthorization true) ;;
    emit EAuthorizationPrompt ;;
    match promptAnswer env with
    | Some userChoice =>
        if String.eqb userChoice (localizedNo C) then
          emit (ESetWaitingForClientSideBuildAuthorization false) ;;
          emit (EStopTransformByQ (jobId s)) ;;
          await (stopAnswer env) ;;
          throw (Error "Cannot perform intermediate client-side build since intermediate verification prompt was rejected")
        else performClientSideBuild s modulePath clientInstructionArtifactId env
    | None =>
        (* dialog dismissed or closed *)
        emit (ESetWaitingForClientSideBuildAuthorization true)
    end
  else performClientSideBuild s modulePath clientInstructionArtifactId env.

(** [runClientSideBuild]: the callback is started and not awaited.  The call
    itself returns; how the callback completes is the value handed back for
    inspection, it is seen by no [catch] of the caller. *)
Definition runClientSideBuild (s : Settings)
  (modulePath clientInstructionArtifactId : string) (env : BuildEnv)
  : M (Completion unit) :=
  fun w =>
    let r := clientSideBuildSpan s modulePath clientInstructionArtifactId env w in
    {| outcome := Returned (outcome r); final := final r; events := events r |}.

(** *** Packaging ([zipCode]) *)

(** A directory as [fs.readdirSync(dir, { withFileTypes: true })] lists it.
    A file carries what [fs.stat] answers for it: its size, and whether the
    path resolves to a directory after all (a symbolic link). *)
Inductive Entry : Type :=
| FileEntry (name : string) (size : Z) (statIsDirectory : bool)
| DirectoryEntry (name : string) (children : list Entry).

Record FileInfo : Type := {
  filePath : string;
  fileSize : Z;
  fileStatIsDirectory : bool
}.

Record FolderInfo : Type := {
  folderName : string;
  folderPath : string
}.

Record ZipCodeParams : Type := {
  dependenciesFolder : option FolderInfo;
  humanInTheLoopFlag : bool;
  modulePath : option string;
  zipManifest : Manifest
}.

(** What the file system and the log writer do during one packaging. *)
Record ZipEnv : Type := {
  sourceEntries : list Entry;        (* the tree under modulePath *)
  dependenciesExist : bool;          (* fs.existsSync(dependenciesFolder.path) *)
  dependencyEntries : list Entry;    (* the tree under dependenciesFolder.path *)
  writeLogsAnswer : Answer string;   (* writeLogs() *)
  writeZipAnswer : Answer unit;      (* fs.writeFileSync(tempFilePath, zip.toBuffer()) *)
  zipSize : Z;                       (* fs.promises.stat(tempFilePath).size *)
  chatControllers : bool             (* getChatControllers() is defined *)
}.

Definition excludedFiles : list string :=
  [".repositories"; ".sha1"; ".lock"; "gc.properties"; ".dll"].

Definition isExcludedFile (path : string) : bool :=
  existsb (fun extension => endsWith path extension) excludedFiles.

Fixpoint filesOfEntry (dir : string) (isDependenciesFolder : bool) (entry : Entry)
  : list FileInfo :=
  match entry with
  | FileEntry name size d =>
      [{| filePath := pathResolve C dir name;
          fileSize := size;
          fileStatIsDirectory := d |}]
  | DirectoryEntry name children =>
      if isDependenciesFolder || shouldIncludeDirectoryInZip C name then
        flat_map (filesOfEntry (pathResolve C dir name) isDependenciesFolder)
          children
      else []
  end.

Definition getFilesRecursively (dir : string) (isDependenciesFolder : bool)
  (entries : list Entry) : list FileInfo :=
  flat_map (filesOfEntry dir isDependenciesFolder) entries.

(** The loop over the source files: directories reached through links and
    excluded files are skipped, the others are added under [sources]. *)
Fixpoint addSourceFiles (module_path : string) (files : list FileInfo) : M unit :=
  match files with
  | [] => ret tt
  | file :: rest =>
      (if fileStatIsDirectory file then ret tt
       else if isExcludedFile (filePath file) then ret tt
       else
         let relativePath := pathRelative C module_path (filePath file) in
         let paddedPath := pathJoin C "sources" relativePath in
         emit (EAddLocalFile (filePath file) (pathDirname C paddedPath))) ;;
      addSourceFiles module_path rest
  end.

Fixpoint addDependencyFiles (dependencies_path : string) (files : list FileInfo)
  : M unit :=
  match files with
  | [] => ret tt
  | file :: rest =>
      (if isExcludedFile (filePath file) then ret tt
       else
         let relativePath := pathRelative C dependencies_path (filePath file) in
         let paddedPath := pathJoin C "dependencies/" relativePath in
         emit (EAddLocalFile (filePath file) (pathDirname C paddedPath))) ;;
      addDependencyFiles dependencies_path rest
  end.

(** [zipManifest.dependenciesRoot = undefined], when it is a [ZipManifest]. *)
Definition clearDependenciesRoot (m : Manifest) : Manifest :=
  match m with
  | PlainManifest z =>
      PlainManifest {| buildTool := buildTool z;
                       dependenciesRoot := None;
                       hilCapabilities := hilCapabilities z |}
  | HilManifest _ => m
  end.

(** Lines 325-334. *)
Definition finishManifest (s : Settings) (m : Manifest) : Manifest :=
  match m with
  | PlainManifest z =>
      match buildSystem s with
      | Gradle =>
          PlainManifest {| buildTool := Some Gradle;
                           dependenciesRoot := None;
                           hilCapabilities := None |}
      | b =>
          PlainManifest {| buildTool := Some b;
                           dependenciesRoot := dependenciesRoot z;
                           hilCapabilities := hilCapabilities z |}
      end
  | HilManifest _ => m
  end.

Definition tempFilePath : string := pathJoin C (tmpdir C) "zipped-code.zip".

(** Lines 277-295: the source files are added, if a module path is given. *)
Definition zipSources (params : ZipCodeParams) (env : ZipEnv) : M unit :=
  match modulePath params with
  | Some module_path =>
      when (truthy module_path)
        (addSourceFiles module_path
           (getFilesRecursively module_path false (sourceEntries env)))
  | None => ret tt
  end.

(** Lines 299-323: the dependencies are added, if a folder is given; with no
    dependency file the manifest loses its dependencies root. *)
Definition zipDependencies (params : ZipCodeParams) (env : ZipEnv) : M Manifest :=
  match dependenciesFolder params with
  | Some folder =>
      let dependencyFiles :=
        if dependenciesExist env then
          getFilesRecursively (folderPath folder) true (dependencyEntries env)
        else [] in
      match dependencyFiles with
      | _ :: _ =>
          addDependencyFiles (folderPath folder) dependencyFiles ;;
          ret (zipManifest params)
      | [] => ret (clearDependenciesRoot (zipManifest params))
      end
  | None => ret (zipManifest params)
  end.

(** The [try] block up to the third cancellation check: nothing of it
    assigns [logFilePath]. *)
Definition zipEntries (s : Settings) (params : ZipCodeParams) (env : ZipEnv)
  : M unit :=
  throwIfCancelled ;;
  zipSources params env ;;
  throwIfCancelled ;;
  manifest <- zipDependencies params env ;;
  emit (EAddManifest (finishManifest s manifest)) ;;
  throwIfCancelled.

(** The rest of the [try] block, once [writeLogs] has given [logFilePath]. *)
Definition zipWrite (params : ZipCodeParams) (env : ZipEnv) (logFilePath : string)
  : M unit :=
  when (negb (humanInTheLoopFlag params)) (emit (EAddBuildLog logFilePath)) ;;
  emit (EWriteZip tempFilePath) ;;
  await (writeZipAnswer env) ;;
  match dependenciesFolder params with
  | Some folder => when (dependenciesExist env) (emit (ERemove (folderPath folder)))
  | None => ret tt
  end.

(** [zipCode].  The [finally] clause removes the log file when [logFilePath]
    has been assigned, that is when the block failed after [writeLogs]
    returned or did not fail; the [catch] clause makes no call of its own, so
    running it after the removal gives the same events. *)
Definition zipCode (s : Settings) (params : ZipCodeParams) (env : ZipEnv)
  : M string :=
  tryCatch
    (zipEntries s params env ;;
     emit EWriteLogs ;;
     logFilePath <- await (writeLogsAnswer env) ;;
     tryFinally (zipWrite params env logFilePath)
       (when (truthy logFilePath) (emit (ERemove logFilePath))))
    (fun e => throw (Error ("Failed to zip project due to: " ++ message e))) ;;
  let exceedsLimit := zipSize env >? uploadZipSizeLimitInBytes C in
  if exceedsLimit then
    emit (EShowErrorMessage (projectSizeTooLargeNotification C)) ;;
    when (chatControllers env)
      (emit (ETransformationFinished (projectSizeTooLargeChatMessage C))) ;;
    throw ZipExceedsSizeLimitError
  else ret tempFilePath.

(** What a cancelled packaging throws: the [catch] clause of [zipCode] wraps
    the stopped error like any other. *)
Definition zipStopped : Completion string :=
  Threw (Error ("Failed to zip project due to: " ++ stoppedErrorMessage C)).

(** *** Project validation ([getOpenProjects], [validateOpenProjects]) *)

Inductive JDKVersion : Type := JDK8 | JDK11 | JDK17 | UNSUPPORTED.

Record TransformationCandidateProject : Type := {
  projectName : string;
  projectDir : string;
  projectJDKVersion : option JDKVersion
}.

Record WorkspaceFolder : Type := {
  workspaceFolderName : string;
  workspaceFolderFsPath : string
}.

(** What the workspace answers about a project path. *)
Record WorkspaceEnv : Type := {
  (* findFiles('**/*.java', '**/node_modules/**', 1) *)
  javaFiles : string -> list string;
  (* checkBuildSystem *)
  buildSystems : string -> list BuildSystem;
  (* findFiles('**/*.class', '**/node_modules/**', 1) *)
  compiledJavaFiles : string -> list string;
  (* spawnSync('javap', ['-v', classFilePath], ...) *)
  javapResult : string -> ProcessResult
}.

(** [folders] is [vscode.workspace.workspaceFolders]. *)
Definition getOpenProjects (folders : option (list WorkspaceFolder))
  : M (list TransformationCandidateProject) :=
  match folders with
  | None => throw NoOpenProjectsError
  | Some folders =>
      ret (map (fun folder =>
                  {| projectName := workspaceFolderName folder;
                     projectDir := workspaceFolderFsPath folder;
                     projectJDKVersion := None |})
               folders)
  end.

Definition getJavaProjects (env : WorkspaceEnv)
  (projects : list TransformationCandidateProject)
  : list TransformationCandidateProject :=
  filter (fun project => (0 <? length (javaFiles env (projectDir project)))%nat)
    projects.

Definition isMavenOrGradle (b : BuildSystem) : bool :=
  match b with
  | Maven | Gradle => true
  | Unknown => false
  end.

Definition getMavenOrGradleJavaProjects (env : WorkspaceEnv)
  (javaProjects : list TransformationCandidateProject)
  : list TransformationCandidateProject :=
  filter (fun project => existsb isMavenOrGradle (buildSystems env (projectDir project)))
    javaProjects.

(** The version [getProjectsValidToTransform] reads off what [javap -v]
    prints. *)
Definition detectedVersion (stdout : string) : JDKVersion :=
  let majorVersionIndex := indexOf stdout "major version: " in
  let javaVersion :=
    trim (slice stdout (majorVersionIndex + 15) (majorVersionIndex + 17)) in
  if String.eqb javaVersion (JDK8VersionNumber C) then JDK8
  else if String.eqb javaVersion (JDK11VersionNumber C) then JDK11
  else UNSUPPORTED.

(** One turn of the loop of [getProjectsValidToTransform], up to the
    assignment of [project.JDKVersion]: the value of [detectedJavaVersion]. *)
Definition detectJavaVersion (env : WorkspaceEnv)
  (project : TransformationCandidateProject) : M (option JDKVersion) :=
  match compiledJavaFiles env (projectDir project) with
  | classFilePath :: _ =>
      let baseCommand := "javap" in
      let args := ["-v"; classFilePath] in
      emit (ESpawnSync baseCommand args) ;;
      let spawnResult := javapResult env classFilePath in
      if exitedWithError spawnResult then
        let errorLog := processErrorLog spawnResult in
        emit (ELogError ("CodeTransformation: Error in running javap command = "
                         ++ errorLog)) ;;
        let errorReason :=
          (if truthyOpt (processStdout spawnResult)
           then "JavapExecutionError" else "JavapSpawnError")
          ++ errorCodeSuffix spawnResult in
        emit (EConsoleLog errorReason) ;;
        ret None
      else
        match processStdout spawnResult with
        | Some stdout => ret (Some (detectedVersion stdout))
        | None =>
            (* spawnResult.stdout.indexOf on null *)
            throw (TypeError "Cannot read properties of null (reading 'indexOf')")
        end
  | [] => ret None
  end.

(** The projects are taken in order; each is pushed with the version
    detected for it. *)
Fixpoint getProjectsValidToTransform (env : WorkspaceEnv)
  (mavenOrGradleJavaProjects : list TransformationCandidateProject)
  : M (list TransformationCandidateProject) :=
  match mavenOrGradleJavaProjects with
  | [] => ret []
  | project :: rest =>
      detectedJavaVersion <- detectJavaVersion env project ;;
      projectsValidToTransform <- getProjectsValidToTransform env rest ;;
      ret ({| projectName := projectName project;
              projectDir := projectDir project;
              projectJDKVersion := detectedJavaVersion |}
           :: projectsValidToTransform)
  end.

Definition validateOpenProjects (env : WorkspaceEnv)
  (projects : list TransformationCandidateProject) (onProjectFirstOpen : bool)
  : M (list TransformationCandidateProject) :=
  let javaProjects := getJavaProjects env projects in
  match javaProjects with
  | [] => throw NoJavaProjectsFoundError
  | _ :: _ =>
      let mavenOrGradleJavaProjects := getMavenOrGradleJavaProjects env javaProjects in
      match mavenOrGradleJavaProjects with
      | [] =>
          when (negb onProjectFirstOpen)
            (emit (EShowErrorMessage (noPomXmlOrBuildGradleFoundNotification C)) ;;
             emit (EValidateProjectFailed "NoMavenOrGradleBuildFileFound")) ;;
          throw NoMavenOrGradleJavaProjectsFoundError
      | _ :: _ => getProjectsValidToTransform env mavenOrGradleJavaProjects
      end
  end.

End Handlers.

(** ** Reading a run *)

Definition isObservation (e : Event) : bool :=
  match e with EStatus _ => true | _ => false end.

Definition isFetch (e : Event) : bool :=
  match e with EGetTransformation _ => true | _ => false end.

Definition isStatusChange (e : Event) : bool :=
  match e with EStatusChanged _ _ _ => true | _ => false end.

(** The events of the poll loop proper: the fetch, the status read, the
    status-change metric. *)
Definition isPollEvent (e : Event) : bool :=
  isFetch e || isObservation e || isStatusChange e.

Definition isClientActionRound (e : Event) : bool :=
  match e with EProcessAwaitingClientAction _ => true | _ => false end.

Definition isCancelCheck (e : Event) : bool :=
  match e with EIsCancelled _ => true | _ => false end.

Definition isStopCall (e : Event) : bool :=
  match e with EStopTransformation _ => true | _ => false end.

Definition isSpawn (e : Event) : bool :=
  match e with ESpawn _ _ _ _ => true | _ => false end.

Definition count (p : Event -> bool) (evs : list Event) : nat :=
  length (filter p evs).

(** The statuses observed, in order. *)
Definition observedStatuses (evs : list Event) : list string :=
  flat_map (fun e => match e with EStatus s => [s] | _ => [] end) evs.

(** The status-change events emitted, as pairs (new status, previous). *)
Definition statusChanges (evs : list Event) : list (string * string) :=
  flat_map (fun e => match e with
                     | EStatusChanged _ s p => [(s, p)]
                     | _ => []
                     end) evs.

(** The changes in a sequence of statuses that starts after [previous]. *)
Fixpoint changes (previous : string) (statuses : list string)
  : list (string * string) :=
  match statuses with
  | [] => []
  | s :: rest =>
      if String.eqb s previous then changes s rest
      else (s, previous) :: changes s rest
  end.

(** [paced ms slept evs]: every observation in [evs] is preceded, since the
    observation before it, by a sleep of [ms] milliseconds; [slept] tells
    whether such a sleep has already been seen. *)
Fixpoint paced (ms : Z) (slept : bool) (evs : list Event) : bool :=
  match evs with
  | [] => true
  | EStatus _ :: rest => slept && paced ms false rest
  | ESleep d :: rest => paced ms (slept || (d =? ms)) rest
  | _ :: rest => paced ms slept rest
  end.

(** Whether a sleep of [ms] has been seen since the last observation. *)
Fixpoint sleptAfter (ms : Z) (slept : bool) (evs : list Event) : bool :=
  match evs with
  | [] => slept
  | EStatus _ :: rest => sleptAfter ms false rest
  | ESleep d :: rest => sleptAfter ms (slept || (d =? ms)) rest
  | _ :: rest => sleptAfter ms slept rest
  end.

(** [silent p m]: no run of [m] makes a call of the kind [p]. *)
Definition silent {A} (p : Event -> bool) (m : M A) : Prop :=
  forall w, filter p (events (m w)) = [].

(** [keeps f m]: no run of [m] changes what [f] reads in the job state. *)
Definition keeps {A X} (f : JobState -> X) (m : M A) : Prop :=
  forall w, f (job (final (m w))) = f (job w).

(** [unblocked m]: [m] never waits for an answer that was not supplied. *)
Definition unblocked {A} (m : M A) : Prop :=
  forall w, outcome (m w) <> Blocked.

(** [yields m w o w' evs]: run from [w], [m] completes as [o] in the state
    [w'] after the calls [evs]. *)
Definition yields {A} (m : M A) (w : World) (o : Completion A) (w' : World)
  (evs : list Event) : Prop :=
  m w = {| outcome := o; final := w'; events := evs |}.

(** The state after one more read of the cancellation flag. *)
Definition afterCancelRead (w : World) : World :=
  {| job := job w; cancelReads := S (cancelReads w) |}.

(** The test of lines 648-651 for a status that is not valid. *)
Definition clientActionDue (C : Constants) (validStates : list string)
  (waiting : bool) (s : string) : bool :=
  negb (arrayIncludes validStates s)
  && arrayIncludes (validStatesForPlanGenerated C) s
  && negb waiting.

(** Consecutive repetitions of a status count once. *)
Fixpoint distinctRuns (statuses : list string) : list string :=
  match statuses with
  | [] => []
  | s :: rest =>
      match rest with
      | s' :: _ => if String.eqb s s' then distinctRuns rest
                   else s :: distinctRuns rest
      | [] => [s]
      end
  end.

(** The status a round answers, when the fetch resolves. *)
Definition roundStatus (round : PollRound) : option string :=
  match getTransformation round with
  | Resolves response => Some (status response)
  | Rejects _ => None
  end.

(** Whether the iteration fed with [round] enters the client-side build
    round. *)
Definition entersClientAction (C : Constants) (validStates : list string)
  (round : PollRound) : bool :=
  match roundStatus round with
  | Some s => clientActionDue C validStates (waitingForAuthorization round) s
  | None => false
  end.

(** A round whose status keeps the loop polling: it is not valid for the
    caller, not paused and not a failure. *)
Definition keepsPolling (C : Constants) (validStates : list string)
  (round : PollRound) : Prop :=
  exists s,
    roundStatus round = Some s
    /\ arrayIncludes validStates s = false
    /\ arrayIncludes (pausedStates C) s = false
    /\ arrayIncludes (failureStates C) s = false.

(** A round in which the client-side build round, if entered, goes through:
    the plan is fetched and what it asks for is carried out. *)
Definition clientActionCompletes (C : Constants) (cancelledAt : nat -> bool)
  (job_id : string) (validStates : list string) (round : PollRound) : Prop :=
  entersClientAction C validStates round = true ->
  forall w,
    outcome (processAwaitingClientActionStatus C cancelledAt job_id
               (clientAction round) w) = Returned tt.

(** ** Further readings of a run *)

(** [step.progressUpdates], an absent list read as an empty one. *)
Definition updatesOf (step : TransformationStep) : list TransformationProgressUpdate :=
  match progressUpdates step with
  | Some updates => updates
  | None => []
  end.

(** A step none of whose progress updates passes the test of
    [findDownloadArtifactStep]. *)
Definition offersNoArtifact (step : TransformationStep) : bool :=
  forallb (fun u => negb (hasDownloadArtifact u)) (updatesOf step).

(** [download_artifact_type === 'CLIENT_INSTRUCTIONS'] *)
Definition isClientInstructions (t : option string) : bool :=
  match t with
  | Some s => String.eqb s "CLIENT_INSTRUCTIONS"
  | None => false
  end.

Definition isErrorLog (e : Event) : bool :=
  match e with ELogError _ => true | _ => false end.

(** The notification and the telemetry of a validation that fails. *)
Definition isValidationNotice (e : Event) : bool :=
  match e with
  | EShowErrorMessage _ | EValidateProjectFailed _ => true
  | _ => false
  end.

Definition isSpawnSync (e : Event) : bool :=
  match e with ESpawnSync _ _ => true | _ => false end.

(** The version [javap] gives for the first compiled class of a project:
    none when the project has no compiled class or [javap] exits with an
    error. *)
Definition versionReadByJavap (C : Constants) (env : WorkspaceEnv)
  (projectPath : string) : option JDKVersion :=
  match compiledJavaFiles env projectPath with
  | classFilePath :: _ =>
      let spawnResult := javapResult env classFilePath in
      if exitedWithError spawnResult then None
      else option_map (detectedVersion C) (processStdout spawnResult)
  | [] => None
  end.

(** The run of [javap] on the first compiled class of a project. *)
Definition javapCalls (env : WorkspaceEnv) (projectPath : string) : list Event :=
  match compiledJavaFiles env projectPath with
  | classFilePath :: _ => [ESpawnSync "javap" ["-v"; classFilePath]]
  | [] => []
  end.

(** [stopsWhenCancelled m]: in every run of [m], a read of the cancellation
    flag that sees it set ends the run with the stopped error, and nothing
    follows the read but error logs. *)
Definition stopsWhenCancelled {A} (m : M A) : Prop :=
  forall w before after,
    events (m w) = (before ++ EIsCancelled true :: after)%list ->
    outcome (m w) = Threw TransformByQStoppedError
    /\ forallb isErrorLog after = true.


Definition isManifestEntry (e : Event) : bool :=
  match e with EAddManifest _ => true | _ => false end.

Definition isBuildLogEntry (e : Event) : bool :=
  match e with EAddBuildLog _ => true | _ => false end.

Definition isArchiveWrite (e : Event) : bool :=
  match e with EWriteZip _ => true | _ => false end.

(** An excluded file handed to the archive. *)
Definition addsExcludedFile (e : Event) : bool :=
  match e with
  | EAddLocalFile file _ => isExcludedFile file
  | _ => false
  end.

(** Whether the dependencies folder of [params] lists at least one file. *)
Definition listsDependencies (C : Constants) (params : ZipCodeParams) (env : ZipEnv)
  : bool :=
  match dependenciesFolder params with
  | Some folder =>
      dependenciesExist env
      && (0 <? length (getFilesRecursively C (folderPath folder) true
                         (dependencyEntries env)))%nat
  | None => false
  end.

Definition isResume (e : Event) : bool :=
  match e with EResumeTransformation _ _ => true | _ => false end.

Definition isUpload (e : Event) : bool :=
  match e with EUploadPayload _ _ => true | _ => false end.

Definition isManifestUpdate (e : Event) : bool :=
  match e with EUpdateManifestFile _ _ _ => true | _ => false end.

Definition isPrompt (e : Event) : bool :=
  match e with EAuthorizationPrompt => true | _ => false end.

Definition isStopRequest (e : Event) : bool :=
  match e with EStopTransformByQ _ => true | _ => false end.

Definition isAuthorizationWrite (e : Event) : bool :=
  match e with ESetWaitingForClientSideBuildAuthorization _ => true | _ => false end.

(** Whether the callback of [runClientSideBuild] asks for an authorization. *)
Definition asksAuthorization (s : Settings) (env : BuildEnv) : bool :=
  String.eqb (clientSideBuildSelection s) "Verify Each Iteration"
  && negb (waitingSeen env).

(** ** Handlers over a state and calls of their own

    The handlers below work on other parts of the session and call other
    collaborators than the ones above.  They are written in a monad of the
    same shape, over any state [S], any type of calls [E] and any type of
    errors [X]; none of them waits in a loop, so a run always completes. *)

Inductive Result (X A : Type) : Type :=
| Ok (a : A)
| Fails (x : X).
Arguments Ok {X A} a.
Arguments Fails {X A} x.

Record Trace (S E X A : Type) : Type := {
  result : Result X A;
  state : S;
  calls : list E
}.
Arguments result {S E X A} t.
Arguments state {S E X A} t.
Arguments calls {S E X A} t.

Definition Program (S E X A : Type) : Type := S -> Trace S E X A.

Section Programs.

Context {S E X : Type}.

Definition pure {A} (a : A) : Program S E X A :=
  fun s => {| result := Ok a; state := s; calls := [] |}.

Definition raise {A} (x : X) : Program S E X A :=
  fun s => {| result := Fails x; state := s; calls := [] |}.

Definition andThen {A B} (m : Program S E X A) (k : A -> Program S E X B)
  : Program S E X B :=
  fun s =>
    match m s with
    | {| result := Ok a; state := s1; calls := c1 |} =>
        match k a s1 with
        | {| result := r; state := s2; calls := c2 |} =>
            {| result := r; state := s2; calls := c1 ++ c2 |}
        end
    | {| result := Fails x; state := s1; calls := c1 |} =>
        {| result := Fails x; state := s1; calls := c1 |}
    end.

(** [try { m } catch (e) { handler e }] *)
Definition catch {A} (m : Program S E X A) (handler : X -> Program S E X A)
  : Program S E X A :=
  fun s =>
    match m s with
    | {| result := Fails x; state := s1; calls := c1 |} =>
        match handler x s1 with
        | {| result := r; state := s2; calls := c2 |} =>
            {| result := r; state := s2; calls := c1 ++ c2 |}
        end
    | t => t
    end.

(** [try { m } finally { cleanup }]: an error of the cleanup replaces the
    completion of [m]. *)
Definition finally {A} (m : Program S E X A) (cleanup : Program S E X unit)
  : Program S E X A :=
  fun s =>
    match m s with
    | {| result := r; state := s1; calls := c1 |} =>
        match cleanup s1 with
        | {| result := Ok _; state := s2; calls := c2 |} =>
            {| result := r; state := s2; calls := c1 ++ c2 |}
        | {| result := Fails x; state := s2; calls := c2 |} =>
            {| result := Fails x; state := s2; calls := c1 ++ c2 |}
        end
    end.

Definition perform (e : E) : Program S E X unit :=
  fun s => {| result := Ok tt; state := s; calls := [e] |}.

Definition modifyState (f : S -> S) : Program S E X unit :=
  fun s => {| result := Ok tt; state := f s; calls := [] |}.

Definition getState : Program S E X S :=
  fun s => {| result := Ok s; state := s; calls := [] |}.

(** [await] of a collaborator whose answer is [r]. *)
Definition awaiting {A} (r : Result X A) : Program S E X A :=
  match r with
  | Ok a => pure a
  | Fails x => raise x
  end.

Definition whenever (b : bool) (m : Program S E X unit) : Program S E X unit :=
  if b then m else pure tt.

End Programs.

Declare Scope program_scope.
Delimit Scope program_scope with program.
Notation "x <- m ;; k" := (andThen m (fun x => k)) : program_scope.
Notation "m ;; k" := (andThen m (fun _ => k)) : program_scope.

(** *** Upload ([uploadPayload], [uploadArtifactToS3]) *)

(** [UploadContext.transformationUploadContext] *)
Record UploadContext : Type := {
  contextJobId : string;
  contextUploadArtifactType : string
}.

Record CreateUploadUrlResponse : Type := {
  uploadId : string;
  uploadUrl : string;
  kmsKeyArn : option string;
  uploadRequestId : string          (* response.$response.requestId *)
}.

(** An entry of [sessionJobHistory]. *)
Record JobHistoryEntry : Type := {
  historyStartTime : string;
  historyProjectName : string;
  historyStatus : string;
  historyDuration : string
}.

(** The part of the session [uploadPayload] reads and writes:
    [transformByQState], [jobPlanProgress] and [sessionJobHistory]. *)
Record UploadSession : Type := {
  sessionJobId : string;
  sessionStartTime : string;
  sessionProjectName : string;
  sessionPolledJobStatus : string;
  sessionFailureMetadata : string;
  uploadCodeProgress : StepProgress;
  sessionJobHistory : list (string * JobHistoryEntry);
  sessionCancelReads : nat
}.

Inductive UploadCall : Type :=
| UReadFile (file : string)
| UIsCancelled (seen : bool)
| UCreateUploadUrl (contentChecksum checksumType intent : string)
    (context : option UploadContext)
| UStat (file : string)
| UPut (url : string) (headers : list (string * string)) (body : string)
| ULogError (message : string).

(** What the file system, the backend and S3 do during one upload. *)
Record UploadEnv : Type := {
  readFileAnswer : Result Err string;    (* fs.readFileSync(payloadFileName) *)
  createUploadUrlAnswer : Result Err CreateUploadUrlResponse;
  statAnswer : Result Err Z;             (* fs.promises.stat(fileName).size *)
  putAnswer : Result Err Z;              (* the status of the PUT response *)
  (* convertToTimeString(calculateTotalLatency(...)) when the history is written *)
  elapsedTime : string
}.

(** [object[key] = value] on an object kept as the list of its entries. *)
Fixpoint assign {V} (key : string) (value : V) (object : list (string * V))
  : list (string * V) :=
  match object with
  | [] => [(key, value)]
  | (k, v) :: rest =>
      if String.eqb k key then (key, value) :: rest
      else (k, v) :: assign key value rest
  end.

(** [object[key]] *)
Fixpoint lookup {V} (key : string) (object : list (string * V)) : option V :=
  match object with
  | [] => None
  | (k, v) :: rest => if String.eqb k key then Some v else lookup key rest
  end.

Definition getHeadersObj (sha256 : string) (kms : option string)
  : list (string * string) :=
  match kms with
  | Some arn =>
      if (String.length arn =? 0)%nat then
        [("x-amz-checksum-sha256", sha256); ("Content-Type", "application/zip")]
      else
        [("x-amz-checksum-sha256", sha256); ("Content-Type", "application/zip");
         ("x-amz-server-side-encryption", "aws:kms");
         ("x-amz-server-side-encryption-aws-kms-key-id", arn)]
  | None =>
      [("x-amz-checksum-sha256", sha256); ("Content-Type", "application/zip")]
  end.

Definition setSessionJobId (id : string) (s : UploadSession) : UploadSession :=
  {| sessionJobId := id;
     sessionStartTime := sessionStartTime s;
     sessionProjectName := sessionProjectName s;
     sessionPolledJobStatus := sessionPolledJobStatus s;
     sessionFailureMetadata := sessionFailureMetadata s;
     uploadCodeProgress := uploadCodeProgress s;
     sessionJobHistory := sessionJobHistory s;
     sessionCancelReads := sessionCancelReads s |}.

Definition setSessionFailureMetadata (m : string) (s : UploadSession)
  : UploadSession :=
  {| sessionJobId := sessionJobId s;
     sessionStartTime := sessionStartTime s;
     sessionProjectName := sessionProjectName s;
     sessionPolledJobStatus := sessionPolledJobStatus s;
     sessionFailureMetadata := m;
     uploadCodeProgress := uploadCodeProgress s;
     sessionJobHistory := sessionJobHistory s;
     sessionCancelReads := sessionCancelReads s |}.

Definition setUploadCodeProgress (p : StepProgress) (s : UploadSession)
  : UploadSession :=
  {| sessionJobId := sessionJobId s;
     sessionStartTime := sessionStartTime s;
     sessionProjectName := sessionProjectName s;
     sessionPolledJobStatus := sessionPolledJobStatus s;
     sessionFailureMetadata := sessionFailureMetadata s;
     uploadCodeProgress := p;
     sessionJobHistory := sessionJobHistory s;
     sessionCancelReads := sessionCancelReads s |}.

Definition setSessionJobHistory (h : list (string * JobHistoryEntry))
  (s : UploadSession) : UploadSession :=
  {| sessionJobId := sessionJobId s;
     sessionStartTime := sessionStartTime s;
     sessionProjectName := sessionProjectName s;
     sessionPolledJobStatus := sessionPolledJobStatus s;
     sessionFailureMetadata := sessionFailureMetadata s;
     uploadCodeProgress := uploadCodeProgress s;
     sessionJobHistory := h;
     sessionCancelReads := sessionCancelReads s |}.

Definition afterUploadCancelRead (s : UploadSession) : UploadSession :=
  {| sessionJobId := sessionJobId s;
     sessionStartTime := sessionStartTime s;
     sessionProjectName := sessionProjectName s;
     sessionPolledJobStatus := sessionPolledJobStatus s;
     sessionFailureMetadata := sessionFailureMetadata s;
     uploadCodeProgress := uploadCodeProgress s;
     sessionJobHistory := sessionJobHistory s;
     sessionCancelReads := S (sessionCancelReads s) |}.

(** What the upload imports: constants of [models/constants.ts], the digest
    of [getSha256] (SHA-256 in base 64) and [encodeHTML]. *)
Record UploadImports : Type := {
  errorUploadingWithExpiredUrl : string;
  socketConnectionFailed : string;
  selfSignedCertificateError : string;
  contentChecksumType : string;
  uploadIntent : string;
  getSha256 : string -> string;
  encodeHTML : string -> string
}.

Section Upload.

Local Open Scope program_scope.

Variable C : Constants.
Variable U : UploadImports.
Variable cancelledAt : nat -> bool.

Definition UploadProgram := Program UploadSession UploadCall Err.

Definition uploadThrowIfCancelled : UploadProgram unit :=
  fun s =>
    let seen := cancelledAt (sessionCancelReads s) in
    {| result := if seen then Fails TransformByQStoppedError else Ok tt;
       state := afterUploadCancelRead s;
       calls := [UIsCancelled seen] |}.

(** [updateJobHistory] *)
Definition updateJobHistory (elapsed : string)
  : UploadProgram (list (string * JobHistoryEntry)) :=
  s <- getState ;;
  whenever (negb (String.eqb (sessionJobId s) ""))
    (modifyState
       (setSessionJobHistory
          (assign (sessionJobId s)
             {| historyStartTime := sessionStartTime s;
                historyProjectName := sessionProjectName s;
                historyStatus := sessionPolledJobStatus s;
                historyDuration := elapsed |}
             (sessionJobHistory s)))) ;;
  s' <- getState ;;
  pure (sessionJobHistory s').

(** The message [uploadArtifactToS3] throws for a failed upload. *)
Definition uploadErrorMessage (e : Err) : string :=
  let errorMessage := "The upload failed due to: " ++ message C e in
  if includes errorMessage "Request has expired" then errorUploadingWithExpiredUrl U
  else if includes errorMessage "Failed to establish a socket connection"
       then socketConnectionFailed U
  else if includes errorMessage "self signed certificate in certificate chain"
       then selfSignedCertificateError U
  else errorMessage.

Definition uploadArtifactToS3 (fileName : string) (resp : CreateUploadUrlResponse)
  (sha256 buffer : string) (env : UploadEnv) : UploadProgram unit :=
  uploadThrowIfCancelled ;;
  catch
    (perform (UStat fileName) ;;
     _ <- awaiting (statAnswer env) ;;
     perform (UPut (uploadUrl resp) (getHeadersObj sha256 (kmsKeyArn resp)) buffer) ;;
     _ <- awaiting (putAnswer env) ;;
     pure tt)
    (fun e =>
       perform (ULogError ("CodeTransformation: UploadZip error = " ++ render C e)) ;;
       raise (Error (uploadErrorMessage e))).

Definition uploadPayload (payloadFileName : string)
  (uploadContext : option UploadContext) (env : UploadEnv) : UploadProgram string :=
  perform (UReadFile payloadFileName) ;;
  buffer <- awaiting (readFileAnswer env) ;;
  let sha256 := getSha256 U buffer in
  uploadThrowIfCancelled ;;
  response <-
    catch
      (perform (UCreateUploadUrl sha256 (contentChecksumType U) (uploadIntent U)
                  uploadContext) ;;
       response <- awaiting (createUploadUrlAnswer env) ;;
       whenever (truthy (uploadRequestId response))
         (modifyState
            (setSessionFailureMetadata
               (requestIdMetadata (uploadRequestId response)))) ;;
       pure response)
      (fun e =>
         perform (ULogError ("CodeTransformation: CreateUploadUrl error: = "
                             ++ render C e)) ;;
         raise (Error ("The upload failed due to: " ++ message C e))) ;;
  catch
    (uploadArtifactToS3 payloadFileName response sha256 buffer env)
    (fun e =>
       perform (ULogError ("CodeTransformation: UploadArtifactToS3 error: = "
                           ++ message C e)) ;;
       raise (Error (message C e))) ;;
  whenever (match uploadContext with None => true | Some _ => false end)
    (modifyState (setSessionJobId (encodeHTML U (uploadId response)))) ;;
  modifyState (setUploadCodeProgress Succeeded) ;;
  _ <- updateJobHistory (elapsedTime env) ;;
  pure (uploadId response).

End Upload.

Definition isS3Call (c : UploadCall) : bool :=
  match c with UPut _ _ _ | UStat _ => true | _ => false end.

(** *** The copy of the project ([copyDirectory]) *)

(** An entry of a directory, as [fs.statSync] and [fs.readdirSync] answer
    for it: a file, a directory with what it holds, a directory that cannot
    be listed, or an entry for which [fs.statSync] throws (a link that leads
    nowhere). *)
Inductive FsNode : Type :=
| FsFile (name : string)
| FsDirectory (name : string) (children : list FsNode)
| FsUnreadableDirectory (name : string) (e : Err)
| FsBroken (name : string) (e : Err).

Inductive FsCall : Type :=
| Mkdir (path : string)                  (* fs.mkdirSync(path, { recursive: true }) *)
| Readdir (path : string)
| Stat (path : string)
| CopyFile (source destination : string).

(** What creating a directory and copying a file do. *)
Record CopyEnv : Type := {
  mkdirSyncAnswer : string -> Result Err unit;
  copyFileSyncAnswer : string -> string -> Result Err unit
}.

(** [file.startsWith('.')] *)
Definition isHidden (file : string) : bool := String.prefix "." file.

Definition nodeName (entry : FsNode) : string :=
  match entry with
  | FsFile name | FsDirectory name _ | FsUnreadableDirectory name _
  | FsBroken name _ => name
  end.

Section CopyDirectory.

Local Open Scope program_scope.

Variable C : Constants.
Variable env : CopyEnv.

Definition CopyProgram := Program unit FsCall Err.

(** One turn of the loop of [copyDirectory].  The recursive call is written
    out: the creation of the destination, the listing of the source and the
    turns over its entries. *)
Fixpoint copyEntry (sourcePath destinationPath : string) (entry : FsNode)
  : CopyProgram unit :=
  let file := nodeName entry in
  let sourceFilePath := pathJoin C sourcePath file in
  let destinationFilePath := pathJoin C destinationPath file in
  perform (Stat sourceFilePath) ;;
  match entry with
  | FsBroken _ e => raise e
  | FsFile _ =>
      if isHidden file then pure tt
      else
        perform (CopyFile sourceFilePath destinationFilePath) ;;
        awaiting (copyFileSyncAnswer env sourceFilePath destinationFilePath)
  | FsDirectory _ children =>
      if isHidden file then pure tt
      else
        let destinationFilePath :=
          pathJoin C destinationPath (pathRelative C sourcePath sourceFilePath) in
        perform (Mkdir destinationFilePath) ;;
        awaiting (mkdirSyncAnswer env destinationFilePath) ;;
        perform (Readdir sourceFilePath) ;;
        (fix turns (files : list FsNode) : CopyProgram unit :=
           match files with
           | [] => pure tt
           | child :: rest =>
               copyEntry sourceFilePath destinationFilePath child ;; turns rest
           end) children
  | FsUnreadableDirectory _ e =>
      if isHidden file then pure tt
      else
        let destinationFilePath :=
          pathJoin C destinationPath (pathRelative C sourcePath sourceFilePath) in
        perform (Mkdir destinationFilePath) ;;
        awaiting (mkdirSyncAnswer env destinationFilePath) ;;
        perform (Readdir sourceFilePath) ;;
        raise e
  end.

(** The loop of [copyDirectory] over the entries left. *)
Fixpoint copyEntries (sourcePath destinationPath : string) (files : list FsNode)
  : CopyProgram unit :=
  match files with
  | [] => pure tt
  | file :: rest =>
      copyEntry sourcePath destinationPath file ;;
      copyEntries sourcePath destinationPath rest
  end.

(** [copyDirectory]; [listing] is what [fs.readdirSync(sourcePath)]
    answers. *)
Definition copyDirectory (sourcePath destinationPath : string)
  (listing : Result Err (list FsNode)) : CopyProgram unit :=
  perform (Mkdir destinationPath) ;;
  awaiting (mkdirSyncAnswer env destinationPath) ;;
  perform (Readdir sourcePath) ;;
  files <- awaiting listing ;;
  copyEntries sourcePath destinationPath files.

End CopyDirectory.

(** The entries that count for the copy, at every depth: those that are not
    hidden, and those for which [fs.statSync] throws, whatever their
    name. *)
Fixpoint visibleEntry (entry : FsNode) : list FsNode :=
  match entry with
  | FsBroken _ _ => [entry]
  | FsFile name | FsUnreadableDirectory name _ =>
      if isHidden name then [] else [entry]
  | FsDirectory name children =>
      if isHidden name then []
      else [FsDirectory name (flat_map visibleEntry children)]
  end.

Definition visibleEntries (entries : list FsNode) : list FsNode :=
  flat_map visibleEntry entries.

(** The files of a tree, and the directories of a tree. *)
Fixpoint countFiles (entry : FsNode) : nat :=
  match entry with
  | FsFile _ => 1
  | FsDirectory _ children => list_sum (map countFiles children)
  | FsUnreadableDirectory _ _ | FsBroken _ _ => 0
  end.

Fixpoint countDirectories (entry : FsNode) : nat :=
  match entry with
  | FsDirectory _ children => S (list_sum (map countDirectories children))
  | FsUnreadableDirectory _ _ => 1
  | FsFile _ | FsBroken _ _ => 0
  end.

Definition isCopy (c : FsCall) : bool :=
  match c with CopyFile _ _ => true | _ => false end.

Definition isDirectoryCreated (c : FsCall) : bool :=
  match c with Mkdir _ => true | _ => false end.

Definition isStat (c : FsCall) : bool :=
  match c with Stat _ => true | _ => false end.

Definition notStat (c : FsCall) : bool := negb (isStat c).

(** The result of a copy and its calls other than [fs.statSync]. *)
Definition outline (run : Trace unit FsCall Err unit) : Result Err unit * list FsCall :=
  (result run, filter notStat (calls run)).

(** Induction on a tree, with the property at hand for every child. *)
Section FsNodeInduction.

Variable P : FsNode -> Prop.
Hypothesis P_file : forall name, P (FsFile name).
Hypothesis P_directory :
  forall name children, Forall P children -> P (FsDirectory name children).
Hypothesis P_unreadable : forall name e, P (FsUnreadableDirectory name e).
Hypothesis P_broken : forall name e, P (FsBroken name e).

Fixpoint FsNode_induction (entry : FsNode) : P entry :=
  match entry with
  | FsFile name => P_file name
  | FsDirectory name children =>
      P_directory name children
        ((fix all (l : list FsNode) : Forall P l :=
            match l with
            | [] => Forall_nil P
            | e :: rest => Forall_cons e (FsNode_induction e) (all rest)
            end) children)
  | FsUnreadableDirectory name e => P_unreadable name e
  | FsBroken name e => P_broken name e
  end.

End FsNodeInduction.

(** *** Download of a result archive ([shared/utilities/download.ts],
    [downloadResultArchive], [downloadAndExtractResultArchive]) *)

(** What these handlers throw: the errors above, and a [ToolkitError] made
    on the spot. *)
Inductive Raised : Type :=
| Known (e : Err)
| ToolkitError (message : string) (code : option string).

Section RaisedMessage.

Variable C : Constants.

(** [e.message] *)
Definition raisedMessage (r : Raised) : string :=
  match r with
  | Known e => message C e
  | ToolkitError m _ => m
  end.

End RaisedMessage.

(** An event of the response stream: a binary payload, whose bytes may be
    missing, or an event of another kind. *)
Inductive Chunk : Type :=
| BinaryPayloadEvent (bytes : option (list Byte.byte))
| OtherEvent.

(** The body of the response: the chunks it delivers and, when the stream
    breaks, the error that follows them. *)
Record ResponseBody : Type := {
  chunks : list Chunk;
  streamError : option Raised
}.

Record ExportResult : Type := {
  body : option ResponseBody;
  metadataRequestId : string         (* result.$metadata.requestId *)
}.

Record ExportContext : Type := {
  exportDownloadArtifactId : string;
  exportDownloadArtifactType : string
}.

(** [ExportIntent] *)
Inductive ExportIntent : Type := TRANSFORMATION.

Record ExportResultArchiveArgs : Type := {
  exportId : string;
  exportIntent : ExportIntent;
  exportContext : option ExportContext
}.

Inductive MetadataResult : Type := Pass | Fail.

Inductive DownloadCall : Type :=
| DCreateClient
| DExportResultArchive (args : ExportResultArchiveArgs)
| DWriteFile (toPath : string) (content : list Byte.byte)
(* codeTransform_logApiLatency, without the session, the job and the time *)
| DLogApiLatency (totalByteSize : nat) (requestId : string) (result : MetadataResult)
| DDestroyClient
| DLogError (message : string)
| DExistsDir (path : string)
| DMkdir (path : string)
| DExtractAllTo (archive directory : string).

(** The local variables of [downloadExportResultArchive] that its [finally]
    clause reads. *)
Record DownloadLocals : Type := {
  totalDownloadBytes : nat;
  statusMessage : string;
  exportResult : option ExportResult
}.

(** What the streaming client, the file system and the archive library do
    during one download. *)
Record DownloadEnv : Type := {
  clientAnswer : Result Raised unit;          (* createCodeWhispererChatStreamingClient *)
  exportAnswer : Result Raised ExportResult;  (* exportResultArchive *)
  writeFileAnswer : Result Raised unit;       (* fsCommon.writeFile *)
  existsDirAnswer : Result Raised bool;       (* fsCommon.existsDir *)
  mkdirAnswer : Result Raised unit;           (* fsCommon.mkdir *)
  unzipAnswer : Result Raised unit         (* new AdmZip(...).extractAllTo(...) *)
}.

(** Runs a callee that has local variables of its own, starting from
    [locals]. *)
Definition scoped {S S' E X A} (locals : S') (m : Program S' E X A)
  : Program S E X A :=
  fun s =>
    match m locals with
    | {| result := r; state := _; calls := c |} =>
        {| result := r; state := s; calls := c |}
    end.

Section Download.

Local Open Scope program_scope.

Variable C : Constants.

(** [for await (const chunk of result.body)]: the bytes received are pushed
    on [buffer] and counted. *)
Fixpoint receiveChunks (remaining : list Chunk) (buffer : list (list Byte.byte))
  : Program DownloadLocals DownloadCall Raised (list (list Byte.byte)) :=
  match remaining with
  | [] => pure buffer
  | chunk :: rest =>
      match chunk with
      | BinaryPayloadEvent (Some bytes) =>
          modifyState (fun l =>
            {| totalDownloadBytes := totalDownloadBytes l + length bytes;
               statusMessage := statusMessage l;
               exportResult := exportResult l |}) ;;
          receiveChunks rest (buffer ++ [bytes])
      | _ => receiveChunks rest buffer
      end
  end.

Definition downloadExportResultArchive (args : ExportResultArchiveArgs)
  (toPath : string) (env : DownloadEnv)
  : Program DownloadLocals DownloadCall Raised unit :=
  finally
    (catch
       (perform (DExportResultArchive args) ;;
        result <- awaiting (exportAnswer env) ;;
        modifyState (fun l =>
          {| totalDownloadBytes := totalDownloadBytes l;
             statusMessage := statusMessage l;
             exportResult := Some result |}) ;;
        match body result with
        | None =>
            raise (ToolkitError
                     "Empty response from Amazon Q inline suggestions streaming service"
                     None)
        | Some stream =>
            buffer <- receiveChunks (chunks stream) [] ;;
            match streamError stream with
            | Some e => raise e
            | None =>
                perform (DWriteFile toPath (concat buffer)) ;;
                awaiting (writeFileAnswer env)
            end
        end)
       (fun e =>
          modifyState (fun l =>
            {| totalDownloadBytes := totalDownloadBytes l;
               statusMessage := raisedMessage C e;
               exportResult := exportResult l |}) ;;
          raise e))
    (l <- getState ;;
     perform (DLogApiLatency (totalDownloadBytes l)
                (match exportResult l with
                 | Some result => metadataRequestId result
                 | None => ""
                 end)
                (if truthy (statusMessage l) then Fail else Pass))).

(** The locals as [downloadExportResultArchive] declares them. *)
Definition freshDownloadLocals : DownloadLocals :=
  {| totalDownloadBytes := 0;
     statusMessage := "DownloadSucceeded";
     exportResult := None |}.

Definition downloadResultArchive (job_id : string) (downloadArtifactId : option string)
  (pathToArchive downloadArtifactType : string) (env : DownloadEnv)
  : Program unit DownloadCall Raised unit :=
  perform DCreateClient ;;
  awaiting (clientAnswer env) ;;
  finally
    (catch
       (scoped freshDownloadLocals
          (downloadExportResultArchive
             {| exportId := job_id;
                exportIntent := TRANSFORMATION;
                exportContext :=
                  match downloadArtifactId with
                  | Some id =>
                      Some {| exportDownloadArtifactId := id;
                              exportDownloadArtifactType := downloadArtifactType |}
                  | None => None
                  end |}
             pathToArchive env))
       (fun e =>
          perform (DLogError ("CodeTransformation: ExportResultArchive error = "
                              ++ raisedMessage C e)) ;;
          raise e))
    (perform DDestroyClient).

Definition downloadAndExtractResultArchive (job_id : string)
  (downloadArtifactId : option string) (pathToArchiveDir downloadArtifactType : string)
  (env : DownloadEnv) : Program unit DownloadCall Raised unit :=
  perform (DExistsDir pathToArchiveDir) ;;
  archivePathExists <- awaiting (existsDirAnswer env) ;;
  whenever (negb archivePathExists)
    (perform (DMkdir pathToArchiveDir) ;; awaiting (mkdirAnswer env)) ;;
  let pathToArchive := pathJoin C pathToArchiveDir "ExportResultsArchive.zip" in
  catch
    (downloadResultArchive job_id downloadArtifactId pathToArchive
       downloadArtifactType env ;;
     perform (DExtractAllTo pathToArchive pathToArchiveDir) ;;
     awaiting (unzipAnswer env))
    (fun e =>
       let downloadErrorMessage := raisedMessage C e in
       perform (DLogError ("CodeTransformation: ExportResultArchive error = "
                           ++ downloadErrorMessage)) ;;
       raise (Known (Error ("Error downloading transformation result artifacts: "
                            ++ downloadErrorMessage)))).

End Download.

(** The bytes of the binary payloads of a stream, in order. *)
Definition payloads (stream : list Chunk) : list (list Byte.byte) :=
  flat_map (fun chunk => match chunk with
                         | BinaryPayloadEvent (Some bytes) => [bytes]
                         | _ => []
                         end) stream.

Definition isLatencyMetric (c : DownloadCall) : bool :=
  match c with DLogApiLatency _ _ _ => true | _ => false end.

Definition isClientDestroyed (c : DownloadCall) : bool :=
  match c with DDestroyClient => true | _ => false end.

Definition isDirectoryCreation (c : DownloadCall) : bool :=
  match c with DMkdir _ => true | _ => false end.

Definition isExtraction (c : DownloadCall) : bool :=
  match c with DExtractAllTo _ _ => true | _ => false end.

(** *** Dependencies of the project ([prepareMavenProjectDependencies],
    [prepareGradleProjectDependencies]) *)

Inductive DependencyCall : Type :=
| PAppendToLocalBuildErrorLog (message : string)
(* spawnSync(command, args, { cwd, env: { ..., JAVA_HOME }, shell }) *)
| PSpawn (command : string) (args : list string) (cwd javaHome : option string)
    (shell : bool)
| PLogError (message : string)
| PBuildFailed (command reason : string)    (* codeTransform_mvnBuildFailed *)
| PShowErrorMessage (message : string)
| PShowInformationMessage (message : string)
| PWriteLogs
| POpenTextDocument (path : string)
| PShowTextDocument
| PIsCancelled (seen : bool).

(** What the handlers of the dependencies import. *)
Record DependencyImports : Type := {
  maxBufferSize : Z;
  cleanInstallErrorNotification : string;
  gradleBuildErrorNotification : string;
  buildSucceededNotification : string;
  asAbsolutePath : string -> string;      (* globals.context.asAbsolutePath *)
  platformIsWin32 : bool                  (* os.platform() === 'win32' *)
}.

(** What the processes started and the editor do while the dependencies are
    prepared. *)
Record DependencyEnv : Type := {
  copyDependenciesResult : ProcessResult;
  installResult : ProcessResult;
  (* spawnSync(executable, ['--version']), which may throw *)
  pythonVersion : string -> Result Raised ProcessResult;
  wrapperResult : ProcessResult;
  scriptResult : ProcessResult;
  logsAnswer : Result Raised string;      (* writeLogs() *)
  openDocumentAnswer : Result Raised unit;
  showDocumentAnswer : Result Raised unit
}.

Section Dependencies.

Local Open Scope program_scope.

Variable C : Constants.
Variable D : DependencyImports.
Variable cancelledAt : nat -> bool.

(** The state is the number of reads of the cancellation flag made so far. *)
Definition DependencyProgram := Program nat DependencyCall Raised.

Definition dependencyThrowIfCancelled : DependencyProgram unit :=
  fun reads =>
    let seen := cancelledAt reads in
    {| result := if seen then Fails (Known TransformByQStoppedError) else Ok tt;
       state := S reads;
       calls := [PIsCancelled seen] |}.

(** The failure reason sent with [codeTransform_mvnBuildFailed]. *)
Definition failureReason (executionError spawnError : string) (r : ProcessResult)
  : string :=
  match processStdout r with
  | Some stdout =>
      if truthy stdout then
        executionError
        ++ (if Z.of_nat (String.length stdout) >? maxBufferSize D
            then "-BufferOverflow" else "")
      else spawnError
  | None => spawnError
  end
  ++ errorCodeSuffix r.

(** The command name as the telemetry takes it: no slash. *)
Definition mavenTelemetryCommand (command : string) : string :=
  if String.eqb command "./mvnw" then "mvnw"
  else if String.eqb command ".\mvnw.cmd" then "mvnw.cmd"
  else command.

Definition gradleTelemetryCommand (command : string) : string :=
  if String.eqb command "./gradlew" then "gradlew"
  else if String.eqb command ".\gradlew.bat" then "gradlew.bat"
  else command.

Definition installArgs (dependenciesFolder : FolderInfo) : list string :=
  ["-Dmaven.repo.local=" ++ folderPath dependenciesFolder; "clean"; "install"; "-q"].

Definition installMavenProjectDependencies (s : Settings) (javaHome : option string)
  (dependenciesFolder : FolderInfo) (module_path : string) (env : DependencyEnv)
  : DependencyProgram unit :=
  let baseCommand := buildSystemCommand s in
  perform (PAppendToLocalBuildErrorLog
             ("Running command " ++ baseCommand ++ " clean install")) ;;
  let args := installArgs dependenciesFolder in
  let argString := joinArgs args in
  perform (PSpawn baseCommand args (Some module_path) javaHome true) ;;
  let spawnResult := installResult env in
  if exitedWithError spawnResult then
    let errorLog := processErrorLog spawnResult in
    perform (PAppendToLocalBuildErrorLog
               (baseCommand ++ " " ++ argString ++ " failed: " ++ newline ++ " "
                ++ errorLog)) ;;
    perform (PLogError ("CodeTransformation: Error in running Maven " ++ argString
                        ++ " command " ++ baseCommand ++ " = " ++ errorLog)) ;;
    let errorReason :=
      failureReason ("Maven " ++ argString ++ ": InstallationExecutionError")
        ("Maven " ++ argString ++ ": InstallationSpawnError") spawnResult in
    perform (PBuildFailed (mavenTelemetryCommand (buildSystemCommand s)) errorReason) ;;
    raise (ToolkitError ("Maven " ++ argString ++ " error") (Some "MavenExecutionError"))
  else
    perform (PAppendToLocalBuildErrorLog
               (baseCommand ++ " " ++ argString ++ " succeeded")).

Definition copyDependenciesArgs (dependenciesFolder : FolderInfo) : list string :=
  ["dependency:copy-dependencies";
   "-DoutputDirectory=" ++ folderPath dependenciesFolder;
   "-Dmdep.useRepositoryLayout=true";
   "-Dmdep.copyPom=true";
   "-Dmdep.addParentPoms=true";
   "-q"].

Definition copyMavenProjectDependencies (s : Settings) (javaHome : option string)
  (dependenciesFolder : FolderInfo) (module_path : string) (env : DependencyEnv)
  : DependencyProgram unit :=
  let baseCommand := buildSystemCommand s in
  perform (PAppendToLocalBuildErrorLog
             ("Running command " ++ baseCommand ++ " copy-dependencies")) ;;
  let args := copyDependenciesArgs dependenciesFolder in
  perform (PSpawn baseCommand args (Some module_path) javaHome true) ;;
  let spawnResult := copyDependenciesResult env in
  if exitedWithError spawnResult then
    let errorLog := processErrorLog spawnResult in
    perform (PAppendToLocalBuildErrorLog
               (baseCommand ++ " copy-dependencies failed: " ++ newline ++ " "
                ++ errorLog)) ;;
    let errorReason :=
      failureReason "Maven Copy: CopyDependenciesExecutionError"
        "Maven Copy: CopyDependenciesSpawnError" spawnResult in
    perform (PBuildFailed (mavenTelemetryCommand (buildSystemCommand s)) errorReason) ;;
    raise (Known (Error "Maven copy-deps error"))
  else
    perform (PAppendToLocalBuildErrorLog
               (baseCommand ++ " copy-dependencies succeeded")).

(** The [catch] clause shared by both handlers: the notification, then the
    build logs are written and shown, then the error is thrown again. *)
Definition showBuildLogsAndRethrow (notification : string) (env : DependencyEnv)
  (err : Raised) : DependencyProgram unit :=
  perform (PShowErrorMessage notification) ;;
  perform PWriteLogs ;;
  logFilePath <- awaiting (logsAnswer env) ;;
  perform (POpenTextDocument logFilePath) ;;
  awaiting (openDocumentAnswer env) ;;
  perform PShowTextDocument ;;
  awaiting (showDocumentAnswer env) ;;
  raise err.

Definition prepareMavenProjectDependencies (s : Settings) (javaHome : option string)
  (dependenciesFolder : FolderInfo) (project_path : string) (env : DependencyEnv)
  : DependencyProgram unit :=
  catch (copyMavenProjectDependencies s javaHome dependenciesFolder project_path env)
    (fun _ => pure tt) ;;
  catch (installMavenProjectDependencies s javaHome dependenciesFolder project_path env)
    (showBuildLogsAndRethrow (cleanInstallErrorNotification D) env) ;;
  dependencyThrowIfCancelled ;;
  perform (PShowInformationMessage (buildSucceededNotification D)).

(** The loop of [getPythonExecutable] over the executables left to try. *)
Fixpoint tryPythonExecutables (executables : list string) (env : DependencyEnv)
  : DependencyProgram (option string) :=
  match executables with
  | [] => pure None
  | executable :: rest =>
      found <-
        catch
          (perform (PSpawn executable ["--version"] None None false) ;;
           result <- awaiting (pythonVersion env executable) ;;
           pure (negb (exitedWithError result)))
          (fun _ => pure false) ;;
      if found then pure (Some executable)
      else tryPythonExecutables rest env
  end.

Definition pythonExecutables : list string := ["python"; "python3"; "py"; "py3"].

Definition getPythonExecutable (env : DependencyEnv) : DependencyProgram (option string) :=
  tryPythonExecutables pythonExecutables env.

Definition gradleScriptArgs (s : Settings) : list string :=
  [asAbsolutePath D
     (if platformIsWin32 D
      then "scripts/build/transformByQ/windows_gradle_copy_deps.py"
      else "scripts/build/transformByQ/gradle_copy_deps.py");
   projectPath s].

Definition prepareGradleProjectDependencies (s : Settings) (javaHome : option string)
  (env : DependencyEnv) : DependencyProgram unit :=
  catch
    (perform (PAppendToLocalBuildErrorLog
                "Running gradle_copy_deps.py to copy Gradle project dependencies") ;;
     let args := gradleScriptArgs s in
     pythonExecutable <- getPythonExecutable env ;;
     match pythonExecutable with
     | None =>
         let errorMessage :=
           "No Python executable found (checked python, python3, py, and py3). Please install Python and try again." in
         perform (PAppendToLocalBuildErrorLog errorMessage) ;;
         perform (PLogError errorMessage) ;;
         raise (Known (Error errorMessage))
     | Some python =>
         whenever (String.eqb (buildSystemCommand s) "gradle")
           (perform (PSpawn "gradle" ["wrapper"] (Some (projectPath s)) javaHome true) ;;
            let spawnResult := wrapperResult env in
            if exitedWithError spawnResult then
              let errorMessage :=
                "Failed to create Gradle wrapper:" ++ newline ++ newline
                ++ renderOutput (processStderr spawnResult) ++ newline ++ newline
                ++ renderOutput (processStdout spawnResult) ++ newline ++ newline
                ++ "Ensure a Gradle wrapper is present in your project before retrying. You should ensure you have Gradle installed by running gradle -v, then run gradle wrapper to generate the wrapper." in
              perform (PAppendToLocalBuildErrorLog errorMessage) ;;
              perform (PLogError errorMessage) ;;
              raise (Known (Error errorMessage))
            else pure tt) ;;
         perform (PSpawn python args (Some (projectPath s)) javaHome false) ;;
         let spawnResult := scriptResult env in
         let argString := joinArgs args in
         if exitedWithError spawnResult then
           let errorLog := processErrorLog spawnResult in
           perform (PAppendToLocalBuildErrorLog
                      ("gradle_copy_deps.py failed: " ++ newline ++ " " ++ errorLog)) ;;
           perform (PLogError ("CodeTransformation: Error in running gradle_copy_deps.py = "
                               ++ errorLog)) ;;
           let errorReason :=
             failureReason ("Python " ++ argString ++ ": ExecutionError")
               ("Python " ++ argString ++ ": SpawnError") spawnResult in
           perform (PBuildFailed (gradleTelemetryCommand (buildSystemCommand s))
                      errorReason) ;;
           raise (Known (Error "gradle_copy_deps.py failed"))
         else
           perform (PAppendToLocalBuildErrorLog
                      ("gradle_copy_deps.py succeeded: "
                       ++ renderOutput (processStdout spawnResult)))
     end)
    (showBuildLogsAndRethrow (gradleBuildErrorNotification D) env) ;;
  dependencyThrowIfCancelled ;;
  perform (PShowInformationMessage (buildSucceededNotification D)).

End Dependencies.

Definition isProcess (c : DependencyCall) : bool :=
  match c with PSpawn _ _ _ _ _ => true | _ => false end.

Definition isNotification (c : DependencyCall) : bool :=
  match c with
  | PShowErrorMessage _ | PShowInformationMessage _ => true
  | _ => false
  end.

Definition isDependencyCancelRead (c : DependencyCall) : bool :=
  match c with PIsCancelled _ => true | _ => false end.

(** The environment in which copy-dependencies ends as [r]. *)
Definition withCopyDependenciesResult (r : ProcessResult) (env : DependencyEnv)
  : DependencyEnv :=
  {| copyDependenciesResult := r;
     installResult := installResult env;
     pythonVersion := pythonVersion env;
     wrapperResult := wrapperResult env;
     scriptResult := scriptResult env;
     logsAnswer := logsAnswer env;
     openDocumentAnswer := openDocumentAnswer env;
     showDocumentAnswer := showDocumentAnswer env |}.

(** Whether probing [executable] finds a Python that runs. *)
Definition pythonWorks (env : DependencyEnv) (executable : string) : bool :=
  match pythonVersion env executable with
  | Ok r => negb (exitedWithError r)
  | Fails _ => false
  end.

(** The executables of a list up to the first that satisfies [works]. *)
Fixpoint upToFirst (works : string -> bool) (executables : list string) : list string :=
  match executables with
  | [] => []
  | e :: rest => e :: if works e then [] else upToFirst works rest
  end.

(** What the [catch] clause of the handlers throws for [err]: [err] itself,
    unless writing or showing the build logs fails first. *)
Definition rethrownAfterLogs (env : DependencyEnv) (err : Raised) : Raised :=
  match logsAnswer env with
  | Fails e => e
  | Ok _ =>
      match openDocumentAnswer env with
      | Fails e => e
      | Ok _ =>
          match showDocumentAnswer env with
          | Fails e => e
          | Ok _ => err
          end
      end
  end.

(** ** Values to run the handlers on

    Constants in the shape of [models/constants.ts]; the time budget is kept
    short so that a run to the timeout stays small.  The comment at line 652
    places TRANSFORMING among the plan-generated states. *)

(** [path.dirname] on a relative POSIX path with at least one separator. *)
Fixpoint exampleDirname (p : string) : string :=
  match p with
  | EmptyString => EmptyString
  | String c rest =>
      if includes rest "/" then String c (exampleDirname rest) else EmptyString
  end.

Definition exampleConstants : Constants :=
  {| validStatesForBuildSucceeded :=
       ["PREPARED"; "PLANNING"; "PLANNED"; "TRANSFORMING"; "TRANSFORMED"];
     validStatesForPlanGenerated :=
       ["PLANNED"; "TRANSFORMING"; "TRANSFORMED"; "PARTIALLY_COMPLETED"; "COMPLETED"];
     pausedStates := ["PAUSED"];
     failureStates := ["FAILED"; "STOPPING"; "STOPPED"; "REJECTED"];
     transformationJobPollingIntervalSeconds := 5;
     transformationJobTimeoutSeconds := 20;
     uploadZipSizeLimitInBytes := 2000000000;
     failedToStartJobMonthlyLimitNotification := "monthly limit reached";
     failedToStartJobMonthlyLimitChatMessage := "monthly limit reached (chat)";
     failedToStartJobLinesLimitNotification := "project too large";
     failedToStartJobLinesLimitChatMessage := "project too large (chat)";
     failedToCompleteJobGenericChatMessage := "job failed (chat):";
     failedToCompleteJobGenericNotification := "job failed:";
     projectSizeTooLargeNotification := "zip too large";
     projectSizeTooLargeChatMessage := "zip too large (chat)";
     noPomXmlOrBuildGradleFoundNotification := "no build file";
     JDK8VersionNumber := "52";
     JDK11VersionNumber := "55";
     waitingUserInput := "WaitingUserInput";
     stoppedErrorMessage := "Transform by Q stopped by user.";
     toolkitErrorName := "ToolkitError";
     localizedYes := "Yes";
     localizedNo := "No";
     tmpdir := "/tmp";
     pathJoin := fun a b => if endsWith a "/" then a ++ b else a ++ "/" ++ b;
     pathRelative := fun base p =>
       String.substring (String.length base + 1)
         (String.length p - String.length base - 1) p;
     pathDirname := exampleDirname;
     pathResolve := fun a b => a ++ "/" ++ b;
     shouldIncludeDirectoryInZip := fun name => negb (String.eqb name "target") |}.

Definition neverCancelled : nat -> bool := fun _ => false.

Definition exampleJob : JobState :=
  {| polledJobStatus := "";
     jobFailureErrorNotification := None;
     jobFailureErrorChatMessage := None;
     jobFailureMetadata := "";
     buildCodeProgress := NotStarted |}.

Definition exampleWorld : World := {| job := exampleJob; cancelReads := 0 |}.

Definition exampleSettings : Settings :=
  {| jobId := "job-1";
     buildSystem := Maven;
     buildSystemCommand := "mvn";
     javaTargetPath := "/opt/jdk17";
     clientSideBuildSelection := "Verify Each Iteration";
     projectPath := "/work/app";
     projectCopyFilePath := "/tmp/originalCopy" |}.

(** A plan in which no step waits for the client. *)
Definition idleClientAction : ClientActionRound :=
  {| planAnswer := Resolves {| planRequestId := "plan-1"; transformationSteps := [] |};
     extractAnswer := Rejects (Error "no client instructions");
     patchAnswer := Rejects (Error "no patch") |}.

(** A round in which the backend answers [s] with no failure reason. *)
Definition answering (s : string) : PollRound :=
  {| getTransformation :=
       Resolves {| status := s; reason := None; requestId := "req-1" |};
     waitingForAuthorization := false;
     clientAction := idleClientAction |}.

(** A round in which the backend reports a failure with a reason. *)
Definition failing (txt : string) : PollRound :=
  {| getTransformation :=
       Resolves {| status := "FAILED"; reason := Some txt; requestId := "req-2" |};
     waitingForAuthorization := false;
     clientAction := idleClientAction |}.

(** A Maven module with one source file, a lock file and a build directory,
    and a folder of copied dependencies. *)
Definition exampleSources : list Entry :=
  [FileEntry "pom.xml" 900 false;
   DirectoryEntry "src" [FileEntry "App.java" 1200 false];
   FileEntry "deps.lock" 10 false;
   DirectoryEntry "target" [FileEntry "app.jar" 50000 false]].

Definition exampleZipParams : ZipCodeParams :=
  {| dependenciesFolder :=
       Some {| folderName := "deps"; folderPath := "/tmp/deps" |};
     humanInTheLoopFlag := false;
     modulePath := Some "/work/app";
     zipManifest :=
       PlainManifest {| buildTool := None;
                        dependenciesRoot := Some "dependencies/";
                        hilCapabilities := Some ["HIL_1pDependency_VersionUpgrade"] |} |}.

Definition exampleZipEnv (size : Z) : ZipEnv :=
  {| sourceEntries := exampleSources;
     dependenciesExist := true;
     dependencyEntries := [FileEntry "junit.jar" 300000 false];
     writeLogsAnswer := Resolves "/tmp/build-logs.txt";
     writeZipAnswer := Resolves tt;
     zipSize := size;
     chatControllers := true |}.

(** A workspace in which no folder holds a Java file, though one holds a
    Maven descriptor. *)
Definition exampleWorkspace : WorkspaceEnv :=
  {| javaFiles := fun _ => [];
     buildSystems := fun path => if String.eqb path "/work/docs" then [Maven] else [];
     compiledJavaFiles := fun _ => [];
     javapResult := fun _ =>
       {| exitStatus := None; processError := None;
          processStderr := None; processStdout := None |} |}.

Definition exampleProjects : list TransformationCandidateProject :=
  [{| projectName := "docs"; projectDir := "/work/docs"; projectJDKVersion := None |};
   {| projectName := "site"; projectDir := "/work/site"; projectJDKVersion := None |}].

(** A client-side build in which the user answers [choice] to the prompt. *)
Definition exampleBuildEnv (choice : option string) : BuildEnv :=
  {| waitingSeen := false;
     promptAnswer := choice;
     stopAnswer := Resolves tt;
     spawned := {| spawnStatus := Some 0; spawnError := None;
                   spawnStderr := ""; spawnStdout := "BUILD SUCCESS" |};
     buildLogsAnswer := Resolves "/tmp/build_output_a1";
     uploadAnswer := Resolves "upload-1";
     resumeAnswer := Resolves (Some "TRANSFORMING") |}.

(** ** More values to run the handlers on *)

(** The cancellation flag set from the [n]-th read on. *)
Definition cancelledFrom (n : nat) : nat -> bool := fun k => (n <=? k)%nat.

(** A round in which the request for the status fails. *)
Definition rejecting (e : Err) : PollRound :=
  {| getTransformation := Rejects e;
     waitingForAuthorization := false;
     clientAction := idleClientAction |}.

(** A plan whose first step waits for a client-side build. *)
Definition examplePlan : PlanResponse :=
  {| planRequestId := "plan-2";
     transformationSteps :=
       [{| stepId := "1"; stepName := "Build";
           progressUpdates :=
             Some [{| updateName := "Waiting for the build";
                      updateStatus := "AWAITING_CLIENT_ACTION";
                      downloadArtifacts :=
                        Some [{| downloadArtifactType := Some "CLIENT_INSTRUCTIONS";
                                 downloadArtifactId := Some "artifact-7" |}] |}] |}] |}.

(** A client-side build round over this plan, whose patch is applied or
    not. *)
Definition exampleClientRound (patch : Answer unit) : ClientActionRound :=
  {| planAnswer := Resolves examplePlan;
     extractAnswer :=
       Resolves {| capability := "CLIENT_SIDE_BUILD";
                   buildCommand := "mvn test";
                   patchFilePath := "/tmp/client_instructions_artifact-7.zip/diff.patch" |};
     patchAnswer := patch |}.

(** What [javap -v] prints for a class compiled for Java 8. *)
Definition exampleJavapOutput : string :=
  "Classfile /work/app/target/App.class" ++ newline
  ++ "  Compiled from App.java" ++ newline
  ++ "public class App" ++ newline
  ++ "  minor version: 0" ++ newline
  ++ "  major version: 52" ++ newline
  ++ "  flags: (0x0021) ACC_PUBLIC, ACC_SUPER" ++ newline.

(** A workspace with a Maven project compiled for Java 8, a Gradle project
    whose class file [javap] cannot read, a folder of documents, and a folder
    of Java sources with no build file. *)
Definition exampleJavaWorkspace : WorkspaceEnv :=
  {| javaFiles := fun path =>
       if String.eqb path "/work/app" then ["/work/app/src/App.java"]
       else if String.eqb path "/work/lib" then ["/work/lib/src/Lib.java"]
       else if String.eqb path "/work/scratch" then ["/work/scratch/Try.java"]
       else [];
     buildSystems := fun path =>
       if String.eqb path "/work/app" then [Maven]
       else if String.eqb path "/work/lib" then [Gradle]
       else [];
     compiledJavaFiles := fun path =>
       if String.eqb path "/work/app" then ["/work/app/target/App.class"]
       else if String.eqb path "/work/lib" then ["/work/lib/build/Lib.class"]
       else [];
     javapResult := fun classFilePath =>
       if String.eqb classFilePath "/work/app/target/App.class" then
         {| exitStatus := Some 0; processError := None;
            processStderr := Some ""; processStdout := Some exampleJavapOutput |}
       else
         {| exitStatus := Some 1; processError := None;
            processStderr := Some "Error: class not found";
            processStdout := Some "" |} |}.

Definition exampleApp : TransformationCandidateProject :=
  {| projectName := "app"; projectDir := "/work/app"; projectJDKVersion := None |}.

Definition exampleLib : TransformationCandidateProject :=
  {| projectName := "lib"; projectDir := "/work/lib"; projectJDKVersion := None |}.

Definition exampleScratch : TransformationCandidateProject :=
  {| projectName := "scratch"; projectDir := "/work/scratch";
     projectJDKVersion := None |}.

(** The imports of the upload, with a digest and an encoding that are easy
    to read. *)
Definition exampleUploadImports : UploadImports :=
  {| errorUploadingWithExpiredUrl := "the upload URL expired";
     socketConnectionFailed := "no connection";
     selfSignedCertificateError := "self-signed certificate";
     contentChecksumType := "SHA_256";
     uploadIntent := "TRANSFORMATION";
     getSha256 := fun buffer => "sha256(" ++ buffer ++ ")";
     encodeHTML := fun s => s |}.

Definition exampleUploadSession : UploadSession :=
  {| sessionJobId := "";
     sessionStartTime := "10:00:00";
     sessionProjectName := "app";
     sessionPolledJobStatus := "";
     sessionFailureMetadata := "";
     uploadCodeProgress := StepPending;
     sessionJobHistory := [];
     sessionCancelReads := 0 |}.

(** An upload in which S3 answers [put]. *)
Definition exampleUploadEnv (put : Result Err Z) : UploadEnv :=
  {| readFileAnswer := Ok "zipped bytes";
     createUploadUrlAnswer :=
       Ok {| uploadId := "upload-1";
             uploadUrl := "https://bucket.example/upload-1";
             kmsKeyArn := Some "arn:aws:kms:key-1";
             uploadRequestId := "req-3" |};
     statAnswer := Ok 12;
     putAnswer := put;
     elapsedTime := "2 sec" |}.

(** A download whose stream delivers two payloads among other events, and
    whose archive is extracted or not. *)
Definition exampleStream : ResponseBody :=
  {| chunks := [BinaryPayloadEvent (Some [Byte.x50; Byte.x4b]);
                OtherEvent;
                BinaryPayloadEvent None;
                BinaryPayloadEvent (Some [Byte.x03; Byte.x04])];
     streamError := None |}.

Definition exampleDownloadEnv (unzip : Result Raised unit) : DownloadEnv :=
  {| clientAnswer := Ok tt;
     exportAnswer := Ok {| body := Some exampleStream; metadataRequestId := "req-4" |};
     writeFileAnswer := Ok tt;
     existsDirAnswer := Ok true;
     mkdirAnswer := Ok tt;
     unzipAnswer := unzip |}.

(** * Properties *)

Local Open Scope list_scope.

(** ** Runs of the basic computations *)

Section Basics.

Context {A B : Type}.

Lemma bind_events (m : M A) (k : A -> M B) w :
  events (bind m k w) =
  events (m w) ++
  match outcome (m w) with
  | Returned a => events (k a (final (m w)))
  | _ => []
  end.
Proof.
  unfold bind. destruct (outcome (m w)); simpl; auto using app_nil_r.
Qed.

Lemma bind_final (m : M A) (k : A -> M B) w :
  final (bind m k w) =
  match outcome (m w) with
  | Returned a => final (k a (final (m w)))
  | _ => final (m w)
  end.
Proof. unfold bind. destruct (outcome (m w)); reflexivity. Qed.

Lemma bind_outcome (m : M A) (k : A -> M B) w :
  outcome (bind m k w) =
  match outcome (m w) with
  | Returned a => outcome (k a (final (m w)))
  | Threw e => Threw e
  | Blocked => Blocked
  end.
Proof. unfold bind. destruct (outcome (m w)); reflexivity. Qed.

End Basics.

Lemma tryCatch_events {A} (m : M A) (h : Err -> M A) w :
  events (tryCatch m h w) =
  events (m w) ++
  match outcome (m w) with
  | Threw e => events (h e (final (m w)))
  | _ => []
  end.
Proof.
  unfold tryCatch. destruct (outcome (m w)); simpl; auto using app_nil_r.
Qed.

Lemma tryCatch_final {A} (m : M A) (h : Err -> M A) w :
  final (tryCatch m h w) =
  match outcome (m w) with
  | Threw e => final (h e (final (m w)))
  | _ => final (m w)
  end.
Proof. unfold tryCatch. destruct (outcome (m w)); reflexivity. Qed.

Lemma tryCatch_outcome {A} (m : M A) (h : Err -> M A) w :
  outcome (tryCatch m h w) =
  match outcome (m w) with
  | Threw e => outcome (h e (final (m w)))
  | o => o
  end.
Proof. unfold tryCatch. destruct (outcome (m w)) eqn:E; simpl; auto. Qed.

(** ** Calls a computation never makes *)

Section Silent.

Variable p : Event -> bool.

Lemma silent_ret {A} (a : A) : silent p (ret a).
Proof. intro w. reflexivity. Qed.

Lemma silent_throw {A} (e : Err) : silent p (@throw A e).
Proof. intro w. reflexivity. Qed.

Lemma silent_blocked {A} : silent p (@blocked A).
Proof. intro w. reflexivity. Qed.

Lemma silent_modify f : silent p (modify f).
Proof. intro w. reflexivity. Qed.

Lemma silent_getJob : silent p getJob.
Proof. intro w. reflexivity. Qed.

Lemma silent_await {A} (a : Answer A) : silent p (await a).
Proof. destruct a; intro w; reflexivity. Qed.

Lemma silent_emit e : p e = false -> silent p (emit e).
Proof. intros H w. simpl. rewrite H. reflexivity. Qed.

Lemma silent_bind {A B} (m : M A) (k : A -> M B) :
  silent p m -> (forall a, silent p (k a)) -> silent p (bind m k).
Proof.
  intros Hm Hk w. rewrite bind_events, filter_app, Hm.
  destruct (outcome (m w)); simpl; auto. apply Hk.
Qed.

Lemma silent_tryCatch {A} (m : M A) (h : Err -> M A) :
  silent p m -> (forall e, silent p (h e)) -> silent p (tryCatch m h).
Proof.
  intros Hm Hh w. rewrite tryCatch_events, filter_app, Hm.
  destruct (outcome (m w)); simpl; auto. apply Hh.
Qed.

Lemma silent_tryFinally {A} (m : M A) (c : M unit) :
  silent p m -> silent p c -> silent p (tryFinally m c).
Proof.
  intros Hm Hc w. unfold tryFinally. simpl.
  rewrite filter_app, Hm, Hc. reflexivity.
Qed.

Lemma silent_when b (m : M unit) : silent p m -> silent p (when b m).
Proof. destruct b; simpl; auto using silent_ret. Qed.

Lemma silent_throwIfCancelled cancelledAt :
  (forall b, p (EIsCancelled b) = false) -> silent p (throwIfCancelled cancelledAt).
Proof. intros H w. simpl. rewrite H. reflexivity. Qed.

End Silent.

(** ** Fields a computation never writes *)

Section Keeps.

Context {X : Type}.
Variable f : JobState -> X.

Lemma keeps_ret {A} (a : A) : keeps f (ret a).
Proof. intro w. reflexivity. Qed.

Lemma keeps_throw {A} (e : Err) : keeps f (@throw A e).
Proof. intro w. reflexivity. Qed.

Lemma keeps_emit e : keeps f (emit e).
Proof. intro w. reflexivity. Qed.

Lemma keeps_getJob : keeps f getJob.
Proof. intro w. reflexivity. Qed.

Lemma keeps_await {A} (a : Answer A) : keeps f (await a).
Proof. destruct a; intro w; reflexivity. Qed.

Lemma keeps_modify g : (forall j, f (g j) = f j) -> keeps f (modify g).
Proof. intros H w. simpl. apply H. Qed.

Lemma keeps_bind {A B} (m : M A) (k : A -> M B) :
  keeps f m -> (forall a, keeps f (k a)) -> keeps f (bind m k).
Proof.
  intros Hm Hk w. rewrite bind_final.
  destruct (outcome (m w)); auto. rewrite Hk. apply Hm.
Qed.

Lemma keeps_tryCatch {A} (m : M A) (h : Err -> M A) :
  keeps f m -> (forall e, keeps f (h e)) -> keeps f (tryCatch m h).
Proof.
  intros Hm Hh w. rewrite tryCatch_final.
  destruct (outcome (m w)); auto. rewrite Hh. apply Hm.
Qed.

Lemma keeps_when b (m : M unit) : keeps f m -> keeps f (when b m).
Proof. destruct b; simpl; auto using keeps_ret. Qed.

Lemma keeps_throwIfCancelled cancelledAt : keeps f (throwIfCancelled cancelledAt).
Proof. intro w. reflexivity. Qed.

End Keeps.

(** ** Completion of a computation *)

Section Unblocked.

Lemma unblocked_ret {A} (a : A) : unblocked (ret a).
Proof. intros w H. discriminate. Qed.

Lemma unblocked_throw {A} (e : Err) : unblocked (@throw A e).
Proof. intros w H. discriminate. Qed.

Lemma unblocked_emit e : unblocked (emit e).
Proof. intros w H. discriminate. Qed.

Lemma unblocked_modify f : unblocked (modify f).
Proof. intros w H. discriminate. Qed.

Lemma unblocked_getJob : unblocked getJob.
Proof. intros w H. discriminate. Qed.

Lemma unblocked_await {A} (a : Answer A) : unblocked (await a).
Proof. destruct a; intros w H; discriminate. Qed.

Lemma unblocked_throwIfCancelled cancelledAt : unblocked (throwIfCancelled cancelledAt).
Proof. intros w. simpl. destruct (cancelledAt _); discriminate. Qed.

Lemma unblocked_bind {A B} (m : M A) (k : A -> M B) :
  unblocked m -> (forall a, unblocked (k a)) -> unblocked (bind m k).
Proof.
  intros Hm Hk w. rewrite bind_outcome.
  destruct (outcome (m w)) eqn:E; try discriminate.
  - apply Hk.
  - intros _. apply (Hm w E).
Qed.

Lemma unblocked_tryCatch {A} (m : M A) (h : Err -> M A) :
  unblocked m -> (forall e, unblocked (h e)) -> unblocked (tryCatch m h).
Proof.
  intros Hm Hh w. rewrite tryCatch_outcome.
  destruct (outcome (m w)) eqn:E; try discriminate.
  - apply Hh.
  - intros _. apply (Hm w E).
Qed.

Lemma unblocked_when b (m : M unit) : unblocked m -> unblocked (when b m).
Proof. destruct b; simpl; auto using unblocked_ret. Qed.

End Unblocked.

Section Yields.

Context {A B : Type}.

Lemma yields_run (m : M A) w :
  yields m w (outcome (m w)) (final (m w)) (events (m w)).
Proof. unfold yields. destruct (m w); reflexivity. Qed.

Lemma yields_outcome (m : M A) w o :
  outcome (m w) = o -> yields m w o (final (m w)) (events (m w)).
Proof. intros <-. apply yields_run. Qed.

Lemma yields_ret (a : A) w : yields (ret a) w (Returned a) w [].
Proof. reflexivity. Qed.

Lemma yields_throw (e : Err) w : yields (@throw A e) w (Threw e) w [].
Proof. reflexivity. Qed.

Lemma yields_await_resolves (a : A) w :
  yields (await (Resolves a)) w (Returned a) w [].
Proof. reflexivity. Qed.

Lemma yields_await_rejects e w :
  yields (await (@Rejects A e)) w (Threw e) w [].
Proof. reflexivity. Qed.

Lemma yields_bind (m : M A) (k : A -> M B) w a w1 e1 o w2 e2 evs :
  yields m w (Returned a) w1 e1 ->
  yields (k a) w1 o w2 e2 ->
  evs = e1 ++ e2 ->
  yields (bind m k) w o w2 evs.
Proof.
  unfold yields, bind. intros -> H ->. cbn. rewrite H. reflexivity.
Qed.

Lemma yields_bind_threw (m : M A) (k : A -> M B) w e w1 e1 :
  yields m w (Threw e) w1 e1 ->
  yields (bind m k) w (Threw e) w1 e1.
Proof. unfold yields, bind. intros ->. reflexivity. Qed.

Lemma yields_bind_blocked (m : M A) (k : A -> M B) w w1 e1 :
  yields m w Blocked w1 e1 ->
  yields (bind m k) w Blocked w1 e1.
Proof. unfold yields, bind. intros ->. reflexivity. Qed.

Lemma yields_tryCatch_blocked (m : M A) (h : Err -> M A) w w1 e1 :
  yields m w Blocked w1 e1 ->
  yields (tryCatch m h) w Blocked w1 e1.
Proof. unfold yields, tryCatch. intros ->. reflexivity. Qed.

Lemma yields_tryCatch_threw (m : M A) (h : Err -> M A) w e w1 e1 o w2 e2 evs :
  yields m w (Threw e) w1 e1 ->
  yields (h e) w1 o w2 e2 ->
  evs = e1 ++ e2 ->
  yields (tryCatch m h) w o w2 evs.
Proof.
  unfold yields, tryCatch. intros -> H ->. cbn. rewrite H. reflexivity.
Qed.

Lemma yields_tryCatch_returned (m : M A) (h : Err -> M A) w a w1 e1 :
  yields m w (Returned a) w1 e1 ->
  yields (tryCatch m h) w (Returned a) w1 e1.
Proof. unfold yields, tryCatch. intros ->. reflexivity. Qed.

End Yields.

Lemma yields_emit e w : yields (emit e) w (Returned tt) w [e].
Proof. reflexivity. Qed.

Lemma yields_modify f w : yields (modify f) w (Returned tt) (onJob f w) [].
Proof. reflexivity. Qed.

Lemma yields_getJob w : yields getJob w (Returned (job w)) w [].
Proof. reflexivity. Qed.

Lemma yields_when_true m w o w' evs :
  yields m w o w' evs -> yields (when true m) w o w' evs.
Proof. auto. Qed.

Lemma yields_when_false m w : yields (when false m) w (Returned tt) w [].
Proof. reflexivity. Qed.

Lemma yields_throwIfCancelled_false cancelledAt w :
  cancelledAt (cancelReads w) = false ->
  yields (throwIfCancelled cancelledAt) w (Returned tt) (afterCancelRead w)
    [EIsCancelled false].
Proof. intros H. unfold yields, throwIfCancelled. rewrite H. reflexivity. Qed.

Lemma yields_throwIfCancelled_true cancelledAt w :
  cancelledAt (cancelReads w) = true ->
  yields (throwIfCancelled cancelledAt) w (Threw TransformByQStoppedError)
    (afterCancelRead w) [EIsCancelled true].
Proof. intros H. unfold yields, throwIfCancelled. rewrite H. reflexivity. Qed.

Lemma yields_tryFinally {A} (m : M A) (c : M unit) w o w1 e1 w2 e2 evs :
  yields m w o w1 e1 ->
  yields c w1 (Returned tt) w2 e2 ->
  evs = e1 ++ e2 ->
  yields (tryFinally m c) w o w2 evs.
Proof.
  unfold yields, tryFinally. intros -> H ->. cbn. rewrite H. reflexivity.
Qed.

Lemma yields_inj {A} (m : M A) w o w' evs :
  yields m w o w' evs ->
  outcome (m w) = o /\ final (m w) = w' /\ events (m w) = evs.
Proof. unfold yields. intros ->. auto. Qed.

(** Rewrites with the tests already decided. *)
Ltac use_tests :=
  repeat match goal with
         | H : ?b = true |- context [?b] => rewrite H
         | H : ?b = false |- context [?b] => rewrite H
         end.

(** Runs a computation step by step. *)
Ltac exec :=
  lazymatch goal with
  | |- yields (ret _) _ _ _ _ => apply yields_ret
  | |- yields (throw _) _ _ _ _ => apply yields_throw
  | |- yields (emit _) _ _ _ _ => apply yields_emit
  | |- yields (sleep _) _ _ _ _ => apply yields_emit
  | |- yields (modify _) _ _ _ _ => apply yields_modify
  | |- yields getJob _ _ _ _ => apply yields_getJob
  | |- yields (await (Resolves _)) _ _ _ _ => apply yields_await_resolves
  | |- yields (await (Rejects _)) _ _ _ _ => apply yields_await_rejects
  | |- yields (throwIfCancelled _) _ _ _ _ =>
      first [ apply yields_throwIfCancelled_false;
              cbn [cancelReads afterCancelRead]; assumption
            | apply yields_throwIfCancelled_true;
              cbn [cancelReads afterCancelRead]; assumption ]
  | |- yields (tryFinally _ _) _ _ _ _ =>
      eapply yields_tryFinally; [ exec | exec | try reflexivity ]
  | |- yields (when false _) _ _ _ _ => apply yields_when_false
  | |- yields (when true _) _ _ _ _ => apply yields_when_true; exec
  | |- yields (when ?b _) _ _ _ _ =>
      let b' := eval cbn in b in
      change b with b'; use_tests; cbn [negb andb orb];
      lazymatch goal with
      | |- yields (when true _) _ _ _ _ => exec
      | |- yields (when false _) _ _ _ _ => exec
      end
  | |- yields (bind _ _) _ _ _ _ =>
      first [ eapply yields_bind; [ exec | cbv beta zeta; exec | try reflexivity ]
            | eapply yields_bind_threw; exec
            | eapply yields_bind_blocked; exec ]
  | |- yields (tryCatch _ _) _ _ _ _ =>
      first [ eapply yields_tryCatch_returned; exec
            | eapply yields_tryCatch_blocked; exec
            | eapply yields_tryCatch_threw;
              [ exec | cbv beta zeta; exec | try reflexivity ] ]
  | |- yields (if true then _ else _) _ _ _ _ => cbv iota; exec
  | |- yields (if false then _ else _) _ _ _ _ => cbv iota; exec
  | |- yields (if ?b then _ else _) _ _ _ _ =>
      use_tests;
      lazymatch goal with
      | |- yields (if true then _ else _) _ _ _ _ => exec
      | |- yields (if false then _ else _) _ _ _ _ => exec
      end
  | |- _ => first [ eassumption | eapply yields_outcome; eassumption ]
  end.

(** Splits a goal [silent p m], [keeps f m] or [unblocked m] along the
    structure of [m]. *)
Ltac along_structure :=
  repeat first
    [ apply silent_ret | apply silent_throw | apply silent_blocked
    | apply silent_modify | apply silent_getJob | apply silent_await
    | apply silent_emit; reflexivity
    | apply silent_throwIfCancelled; reflexivity
    | apply silent_when
    | apply silent_bind; [ | intros ? ]
    | apply silent_tryCatch; [ | intros ? ]
    | apply silent_tryFinally
    | apply unblocked_ret | apply unblocked_throw | apply unblocked_emit
    | apply unblocked_modify | apply unblocked_getJob | apply unblocked_await
    | apply unblocked_throwIfCancelled
    | apply unblocked_when
    | apply unblocked_bind; [ | intros ? ]
    | apply unblocked_tryCatch; [ | intros ? ]
    | apply keeps_ret | apply keeps_throw | apply keeps_emit
    | apply keeps_getJob | apply keeps_await
    | apply keeps_throwIfCancelled
    | apply keeps_modify; intros ?; reflexivity
    | apply keeps_when
    | apply keeps_bind; [ | intros ? ]
    | apply keeps_tryCatch; [ | intros ? ]
    | match goal with
      | |- silent _ (match ?x with _ => _ end) => destruct x
      | |- keeps _ (match ?x with _ => _ end) => destruct x
      | |- unblocked (match ?x with _ => _ end) => destruct x
      | |- unblocked (let _ := _ in _) => cbv zeta
      | |- silent _ (let _ := _ in _) => cbv zeta
      | |- keeps _ (let _ := _ in _) => cbv zeta
      end ].

(** ** Reading lists of events *)

Lemma observedStatuses_app e1 e2 :
  observedStatuses (e1 ++ e2) = observedStatuses e1 ++ observedStatuses e2.
Proof. apply flat_map_app. Qed.

Lemma statusChanges_app e1 e2 :
  statusChanges (e1 ++ e2) = statusChanges e1 ++ statusChanges e2.
Proof. apply flat_map_app. Qed.

Lemma count_app p e1 e2 : count p (e1 ++ e2) = (count p e1 + count p e2)%nat.
Proof. unfold count. rewrite filter_app, length_app. reflexivity. Qed.

Lemma observedStatuses_silent evs :
  filter isObservation evs = [] -> observedStatuses evs = [].
Proof.
  induction evs as [|e evs IH]; [ reflexivity | ].
  destruct e; simpl; auto; discriminate.
Qed.

Lemma statusChanges_silent evs :
  filter isStatusChange evs = [] -> statusChanges evs = [].
Proof.
  induction evs as [|e evs IH]; [ reflexivity | ].
  destruct e; simpl; auto; discriminate.
Qed.

Lemma count_silent p evs : filter p evs = [] -> count p evs = 0%nat.
Proof. unfold count. intros ->. reflexivity. Qed.

Lemma paced_app ms b e1 e2 :
  paced ms b (e1 ++ e2) = paced ms b e1 && paced ms (sleptAfter ms b e1) e2.
Proof.
  revert b. induction e1 as [|e e1 IH]; intros b; [ reflexivity | ].
  destruct e; simpl; auto.
  rewrite IH. apply andb_assoc.
Qed.

Lemma sleptAfter_app ms b e1 e2 :
  sleptAfter ms b (e1 ++ e2) = sleptAfter ms (sleptAfter ms b e1) e2.
Proof.
  revert b. induction e1 as [|e e1 IH]; intros b; [ reflexivity | ].
  destruct e; simpl; auto.
Qed.

Lemma paced_silent ms b evs :
  filter isObservation evs = [] -> paced ms b evs = true.
Proof.
  revert b. induction evs as [|e evs IH]; intros b; [ reflexivity | ].
  destruct e; simpl; auto; discriminate.
Qed.

Lemma sleptAfter_sleep ms b evs :
  sleptAfter ms b (evs ++ [ESleep ms]) = true.
Proof.
  rewrite sleptAfter_app. simpl. rewrite Z.eqb_refl. apply orb_true_r.
Qed.

Section Properties.

Variable C : Constants.
Variable cancelledAt : nat -> bool.

(** *** The client-side build round, seen from the poll loop *)

Lemma clientActionRound_counted job_id round w :
  filter isClientActionRound
    (events (processAwaitingClientActionStatus C cancelledAt job_id round w))
  = [EProcessAwaitingClientAction job_id].
Proof.
  unfold processAwaitingClientActionStatus.
  rewrite bind_events. simpl.
  match goal with
  | |- context [filter _ (events (?m ?w'))] =>
      assert (H : silent isClientActionRound m); [ | rewrite H; reflexivity ]
  end.
  unfold getClientInstructionArtifactId, getTransformationSteps,
    extractClientInstructions, processClientInstructions, sleep.
  along_structure.
Qed.

(** *** One iteration of the poll loop *)

Lemma recordFailureReason_yields response w :
  exists w',
    yields (recordFailureReason C response) w (Returned tt) w' []
    /\ cancelReads w' = cancelReads w
    /\ polledJobStatus (job w') = polledJobStatus (job w).
Proof.
  unfold recordFailureReason.
  destruct (reason response) as [errorMessage|].
  - destruct (includes errorMessage _);
      [ | destruct (includes errorMessage _) ];
      eexists; (split; [ exec | split; reflexivity ]).
  - eexists; split; [ exec | split; reflexivity ].
Qed.

Lemma observeStatus_rejected job_id round w e :
  getTransformation round = Rejects e ->
  yields (observeStatus C job_id round) w (Threw e) w [EGetTransformation job_id].
Proof. intros H. unfold observeStatus. rewrite H. reflexivity. Qed.

Lemma observeStatus_resolved job_id round w response :
  getTransformation round = Resolves response ->
  exists w',
    yields (observeStatus C job_id round) w (Returned response) w'
      ([EGetTransformation job_id; EStatus (status response)]
       ++ (if String.eqb (status response) (polledJobStatus (job w)) then []
           else [EStatusChanged job_id (status response) (polledJobStatus (job w))]))
    /\ polledJobStatus (job w') = status response
    /\ cancelReads w' = cancelReads w
    /\ exists w0, w' = final (recordFailureReason C response w0).
Proof.
  intros H. unfold observeStatus. rewrite H.
  destruct (arrayIncludes (validStatesForBuildSucceeded C) (status response)) eqn:Eb;
    destruct (String.eqb (status response) (polledJobStatus (job w))) eqn:E.
  all: destruct (recordFailureReason_yields response
         (onJob (withPolledJobStatus (status response))
            (if arrayIncludes (validStatesForBuildSucceeded C) (status response)
             then onJob (withBuildCodeProgress Succeeded) w else w)))
      as (w' & Hy & Hc & Hp); rewrite Eb in *.
  all: exists w'; split;
    [ | split; [ rewrite Hp; reflexivity | split; [ rewrite Hc; reflexivity | ] ] ].
  all: try exec.
  all: eexists; symmetry; eapply yields_inj; exact Hy.
Qed.

Lemma silent_actOnStatus p job_id validStates round response timer :
  (forall e, isPollEvent e = false -> p e = false) ->
  silent p (actOnStatus C cancelledAt job_id validStates round response timer).
Proof.
  intros Hp. unfold actOnStatus.
  along_structure;
    solve [ unfold sleep; apply silent_emit; apply Hp; reflexivity
          | apply silent_throwIfCancelled; intros; apply Hp; reflexivity ].
Qed.

Lemma isPollEvent_fetch e : isPollEvent e = false -> isFetch e = false.
Proof. destruct e; auto. Qed.

Lemma isPollEvent_observation e : isPollEvent e = false -> isObservation e = false.
Proof. destruct e; auto. Qed.

Lemma isPollEvent_statusChange e :
  isPollEvent e = false -> isStatusChange e = false.
Proof. destruct e; auto. Qed.

Lemma unblocked_processAwaitingClientActionStatus job_id round :
  unblocked (processAwaitingClientActionStatus C cancelledAt job_id round).
Proof.
  unfold processAwaitingClientActionStatus, getClientInstructionArtifactId,
    getTransformationSteps, extractClientInstructions,
    processClientInstructions, sleep.
  along_structure.
Qed.

Lemma unblocked_actOnStatus job_id validStates round response timer :
  unblocked (actOnStatus C cancelledAt job_id validStates round response timer).
Proof.
  pose proof (unblocked_processAwaitingClientActionStatus job_id
                (clientAction round)) as Hsub.
  unfold actOnStatus, sleep.
  along_structure; assumption.
Qed.

Lemma actOnStatus_clientRounds job_id validStates round response timer w :
  filter isClientActionRound
    (events (actOnStatus C cancelledAt job_id validStates round response timer w))
  = if clientActionDue C validStates (waitingForAuthorization round) (status response)
    then [EProcessAwaitingClientAction job_id] else [].
Proof.
  unfold actOnStatus, clientActionDue.
  destruct (arrayIncludes validStates (status response)); [ reflexivity | ].
  cbn [negb andb].
  rewrite bind_events, filter_app.
  match goal with
  | |- _ ++ filter _ ?tail = _ =>
      assert (Ht : filter isClientActionRound tail = [])
  end.
  { destruct (outcome _); try reflexivity.
    match goal with
    | |- filter _ (events (?m ?w')) = [] =>
        assert (Hm : silent isClientActionRound m); [ | apply Hm ]
    end.
    unfold sleep. along_structure. }
  rewrite Ht, app_nil_r.
  destruct (arrayIncludes (validStatesForPlanGenerated C) (status response) && _);
    [ | reflexivity ].
  unfold when, sleep. rewrite bind_events. cbn.
  apply clientActionRound_counted.
Qed.

Lemma actOnStatus_break job_id validStates round response timer w s :
  outcome (actOnStatus C cancelledAt job_id validStates round response timer w)
  = Returned (Break s) ->
  s = status response
  /\ (arrayIncludes validStates s = true \/ arrayIncludes (pausedStates C) s = true).
Proof.
  unfold actOnStatus.
  destruct (arrayIncludes validStates (status response)) eqn:Ev.
  - cbn. intros [= <-]. auto.
  - rewrite bind_outcome. destruct (outcome _); try discriminate.
    destruct (arrayIncludes (pausedStates C) (status response)) eqn:Ep.
    + cbn. intros [= <-]. auto.
    + destruct (arrayIncludes (failureStates C) (status response)).
      * cbn. discriminate.
      * cbn. destruct (_ >? _); discriminate.
Qed.

Lemma actOnStatus_continue job_id validStates round response timer w t :
  outcome (actOnStatus C cancelledAt job_id validStates round response timer w)
  = Returned (Continue t) ->
  t = timer + transformationJobPollingIntervalSeconds C
  /\ t <= transformationJobTimeoutSeconds C
  /\ polledJobStatus
       (job (final (actOnStatus C cancelledAt job_id validStates round response timer w)))
     = polledJobStatus (job w)
  /\ exists before,
       events (actOnStatus C cancelledAt job_id validStates round response timer w)
       = before ++ [ESleep (pollingIntervalMs C)].
Proof.
  unfold actOnStatus.
  destruct (arrayIncludes validStates (status response)); [ discriminate | ].
  rewrite bind_outcome, bind_final, bind_events.
  match goal with
  | |- context [outcome (?m w)] =>
      assert (Hk : keeps polledJobStatus m)
  end.
  { apply keeps_when. unfold sleep. along_structure. }
  specialize (Hk w).
  destruct (outcome _); try discriminate.
  destruct (arrayIncludes (pausedStates C) (status response)); [ discriminate | ].
  destruct (arrayIncludes (failureStates C) (status response)); [ discriminate | ].
  cbn. destruct (_ >? _) eqn:Et; [ discriminate | ].
  cbn. intros [= <-]. repeat split; auto.
  - rewrite Z.gtb_ltb in Et. apply Z.ltb_ge in Et. lia.
  - eexists. reflexivity.
Qed.

Lemma pollIteration_rejected job_id validStates round timer w e :
  getTransformation round = Rejects e ->
  yields (pollIteration C cancelledAt job_id validStates round timer) w
    (Threw e) w [EGetTransformation job_id; pollErrorLog C e (job w)].
Proof.
  intros H. unfold pollIteration, pollIterationBody.
  pose proof (observeStatus_rejected job_id round w e H) as Ho.
  exec.
Qed.

Lemma pollIteration_resolved job_id validStates round timer w response :
  getTransformation round = Resolves response ->
  exists w',
    polledJobStatus (job w') = status response
    /\ cancelReads w' = cancelReads w
    /\ (exists w0, w' = final (recordFailureReason C response w0))
    /\ let act :=
         actOnStatus C cancelledAt job_id validStates round response timer w' in
       let run := pollIteration C cancelledAt job_id validStates round timer w in
       outcome run = outcome act
       /\ final run = final act
       /\ events run =
          [EGetTransformation job_id; EStatus (status response)]
          ++ (if String.eqb (status response) (polledJobStatus (job w)) then []
              else [EStatusChanged job_id (status response) (polledJobStatus (job w))])
          ++ events act
          ++ match outcome act with
             | Threw e => [pollErrorLog C e (job (final act))]
             | _ => []
             end.
Proof.
  intros H.
  destruct (observeStatus_resolved job_id round w response H)
    as (w' & Ho & Hp & Hc & Hw).
  exists w'. split; [ exact Hp | ]. split; [ exact Hc | ]. split; [ exact Hw | ].
  cbv zeta.
  destruct (outcome (actOnStatus C cancelledAt job_id validStates round
                       response timer w')) eqn:Eo.
  all: eassert (Hy : yields (pollIteration C cancelledAt job_id validStates round timer)
                      w _ _ _)
         by (unfold pollIteration, pollIterationBody; exec).
  all: apply yields_inj in Hy as (Hyo & Hyf & Hye); rewrite Hyo, Hyf, Hye.
  all: repeat split; rewrite <- ?app_assoc; cbn; rewrite ?app_nil_r; reflexivity.
Qed.

Lemma pollIteration_summary job_id validStates round timer w :
  let it := pollIteration C cancelledAt job_id validStates round timer w in
  observedStatuses (events it)
  = match roundStatus round with Some s => [s] | None => [] end
  /\ statusChanges (events it)
     = changes (polledJobStatus (job w)) (observedStatuses (events it))
  /\ count isFetch (events it) = 1%nat
  /\ count isClientActionRound (events it)
     = (if entersClientAction C validStates round then 1 else 0)%nat
  /\ (forall b, paced (pollingIntervalMs C) b (events it)
                = match roundStatus round with Some _ => b | None => true end)
  /\ (forall t, outcome it = Returned (Continue t) ->
        t = timer + transformationJobPollingIntervalSeconds C
        /\ t <= transformationJobTimeoutSeconds C
        /\ roundStatus round = Some (polledJobStatus (job (final it)))
        /\ forall b, sleptAfter (pollingIntervalMs C) b (events it) = true)
  /\ (forall s, outcome it = Returned (Break s) ->
        roundStatus round = Some s
        /\ (arrayIncludes validStates s = true
            \/ arrayIncludes (pausedStates C) s = true))
  /\ outcome it <> Blocked.
Proof.
  cbv zeta. unfold entersClientAction, roundStatus.
  destruct (getTransformation round) as [response|e] eqn:E.
  - destruct (pollIteration_resolved job_id validStates round timer w response E)
      as (w' & Hp & Hc & _ & Ho & Hf & He).
    rewrite Ho, Hf, He.
    set (act := actOnStatus C cancelledAt job_id validStates round response timer w')
      in *.
    assert (Hobs : filter isObservation (events act) = [])
      by (apply silent_actOnStatus, isPollEvent_observation).
    assert (Hchg : filter isStatusChange (events act) = [])
      by (apply silent_actOnStatus, isPollEvent_statusChange).
    assert (Hfetch : filter isFetch (events act) = [])
      by (apply silent_actOnStatus, isPollEvent_fetch).
    pose proof (actOnStatus_clientRounds job_id validStates round response timer w')
      as Hcl. fold act in Hcl.
    assert (Hobs' : observedStatuses
              ([EGetTransformation job_id; EStatus (status response)]
               ++ (if String.eqb (status response) (polledJobStatus (job w)) then []
                   else [EStatusChanged job_id (status response)
                           (polledJobStatus (job w))])
               ++ events act
               ++ match outcome act with
                  | Threw e => [pollErrorLog C e (job (final act))]
                  | _ => []
                  end) = [status response]).
    { rewrite !observedStatuses_app, (observedStatuses_silent _ Hobs).
      destruct (String.eqb _ _); destruct (outcome act); reflexivity. }
    split; [ exact Hobs' | ]. rewrite Hobs'.
    split.
    { rewrite !statusChanges_app, (statusChanges_silent _ Hchg).
      cbn [changes].
      destruct (String.eqb _ _); destruct (outcome act); reflexivity. }
    split.
    { rewrite !count_app, (count_silent _ _ Hfetch).
      destruct (String.eqb _ _); destruct (outcome act); reflexivity. }
    split.
    { rewrite !count_app. unfold count at 3. rewrite Hcl.
      destruct (String.eqb _ _); destruct (outcome act);
        destruct (clientActionDue _ _ _ _); reflexivity. }
    split.
    { intros b. rewrite !paced_app. cbn [paced app sleptAfter].
      rewrite (paced_silent _ _ _ Hobs).
      destruct (String.eqb _ _); destruct (outcome act); cbn;
        rewrite ?andb_true_r; reflexivity. }
    split.
    { intros t Ht.
      destruct (actOnStatus_continue job_id validStates round response timer w' t Ht)
        as (-> & Hle & Hkeep & before & Hev).
      fold act in Hkeep, Hev. rewrite Hkeep, Hp. repeat split; auto.
      intros b. rewrite Ht, app_nil_r, Hev, !app_assoc.
      apply sleptAfter_sleep. }
    split.
    { intros s Hs.
      destruct (actOnStatus_break job_id validStates round response timer w' s Hs)
        as (-> & Hor).
      auto. }
    apply unblocked_actOnStatus.
  - destruct (yields_inj _ _ _ _ _
                (pollIteration_rejected job_id validStates round timer w e E))
      as (Ho & Hf & He).
    rewrite Ho, He. repeat split; try reflexivity; try discriminate.
Qed.

(** *** The loop *)

Lemma pollLoop_events job_id validStates round rest timer w :
  events (pollLoop C cancelledAt job_id validStates (round :: rest) timer w) =
  EIsCancelled (cancelledAt (cancelReads w))
  :: (if cancelledAt (cancelReads w) then []
      else
        let it := pollIteration C cancelledAt job_id validStates round timer
                    (afterCancelRead w) in
        events it
        ++ match outcome it with
           | Returned (Continue t) =>
               events (pollLoop C cancelledAt job_id validStates rest t (final it))
           | _ => []
           end).
Proof.
  cbn [pollLoop]. rewrite bind_events. cbn.
  destruct (cancelledAt (cancelReads w)); [ reflexivity | ].
  rewrite bind_events. fold (afterCancelRead w).
  destruct (outcome _) as [[s|t]| |]; reflexivity.
Qed.

Lemma pollLoop_outcome job_id validStates round rest timer w :
  outcome (pollLoop C cancelledAt job_id validStates (round :: rest) timer w) =
  if cancelledAt (cancelReads w) then Threw TransformByQStoppedError
  else
    let it := pollIteration C cancelledAt job_id validStates round timer
                (afterCancelRead w) in
    match outcome it with
    | Returned (Break s) => Returned s
    | Returned (Continue t) =>
        outcome (pollLoop C cancelledAt job_id validStates rest t (final it))
    | Threw e => Threw e
    | Blocked => Blocked
    end.
Proof.
  cbn [pollLoop]. rewrite bind_outcome. cbn.
  destruct (cancelledAt (cancelReads w)); [ reflexivity | ].
  rewrite bind_outcome. fold (afterCancelRead w).
  destruct (outcome _) as [[s|t]| |]; reflexivity.
Qed.

(** Every run of the loop sleeps the polling interval between two
    observations. *)
Lemma pollLoop_paced job_id validStates rounds timer w :
  paced (pollingIntervalMs C) true
    (events (pollLoop C cancelledAt job_id validStates rounds timer w)) = true.
Proof.
  revert timer w. induction rounds as [|round rest IH]; intros timer w;
    [ reflexivity | ].
  rewrite pollLoop_events. cbn [paced].
  destruct (cancelledAt (cancelReads w)); [ reflexivity | ]. cbv zeta.
  destruct (pollIteration_summary job_id validStates round timer (afterCancelRead w))
    as (_ & _ & _ & _ & Hpaced & Hcont & _).
  rewrite paced_app, Hpaced.
  destruct (outcome _) as [[s|t]| |] eqn:Eo;
    try (destruct (roundStatus round); reflexivity).
  destruct (Hcont t eq_refl) as (_ & _ & _ & Hslept).
  rewrite Hslept, IH. destruct (roundStatus round); reflexivity.
Qed.

Lemma actOnStatus_keepsPolling job_id validStates round response timer w :
  arrayIncludes validStates (status response) = false ->
  arrayIncludes (pausedStates C) (status response) = false ->
  arrayIncludes (failureStates C) (status response) = false ->
  (clientActionDue C validStates (waitingForAuthorization round) (status response)
   = true ->
   forall w', outcome (processAwaitingClientActionStatus C cancelledAt job_id
                         (clientAction round) w') = Returned tt) ->
  outcome (actOnStatus C cancelledAt job_id validStates round response timer w)
  = if timer + transformationJobPollingIntervalSeconds C
       >? transformationJobTimeoutSeconds C
    then Threw (Error "Job timed out")
    else Returned (Continue (timer + transformationJobPollingIntervalSeconds C)).
Proof.
  intros Hv Hp Hf Hsub. unfold actOnStatus, clientActionDue in *.
  rewrite Hv in *. cbn [negb andb] in Hsub.
  rewrite bind_outcome.
  assert (Hw : outcome
            (when (arrayIncludes (validStatesForPlanGenerated C) (status response)
                   && negb (waitingForAuthorization round))
               (sleep (pollingIntervalMs C) ;;
                processAwaitingClientActionStatus C cancelledAt job_id
                  (clientAction round)) w) = Returned tt).
  { destruct (_ && _); [ | reflexivity ].
    unfold when. rewrite bind_outcome. cbn. apply Hsub. reflexivity. }
  rewrite Hw, Hp, Hf. cbn.
  destruct (_ >? _); reflexivity.
Qed.

Section Forward.

Hypothesis notCancelled : forall k, cancelledAt k = false.

Lemma pollLoop_valid job_id validStates round rest timer w s :
  roundStatus round = Some s ->
  arrayIncludes validStates s = true ->
  outcome (pollLoop C cancelledAt job_id validStates (round :: rest) timer w)
  = Returned s
  /\ observedStatuses
       (events (pollLoop C cancelledAt job_id validStates (round :: rest) timer w))
     = [s].
Proof.
  intros Hs Hv. unfold roundStatus in Hs.
  destruct (getTransformation round) as [response|] eqn:E; [ | discriminate ].
  injection Hs as <-.
  rewrite pollLoop_outcome, pollLoop_events, notCancelled. cbv zeta.
  destruct (pollIteration_summary job_id validStates round timer (afterCancelRead w))
    as (Hobs & _).
  destruct (pollIteration_resolved job_id validStates round timer
              (afterCancelRead w) response E) as (w' & _ & _ & _ & Ho & _ & _).
  unfold actOnStatus in Ho. rewrite Hv in Ho. cbn in Ho.
  rewrite Ho. split; [ reflexivity | ].
  change (EIsCancelled false :: ?l) with ([EIsCancelled false] ++ l).
  rewrite !observedStatuses_app, Hobs. unfold roundStatus. rewrite E.
  reflexivity.
Qed.

Lemma pollLoop_keepsPolling job_id validStates round rest timer w :
  keepsPolling C validStates round ->
  clientActionCompletes C cancelledAt job_id validStates round ->
  exists s,
    roundStatus round = Some s
    /\ if timer + transformationJobPollingIntervalSeconds C
          >? transformationJobTimeoutSeconds C
       then
         outcome (pollLoop C cancelledAt job_id validStates (round :: rest) timer w)
         = Threw (Error "Job timed out")
         /\ observedStatuses
              (events (pollLoop C cancelledAt job_id validStates (round :: rest)
                         timer w)) = [s]
       else
         exists w',
           outcome (pollLoop C cancelledAt job_id validStates (round :: rest) timer w)
           = outcome (pollLoop C cancelledAt job_id validStates rest
                        (timer + transformationJobPollingIntervalSeconds C) w')
           /\ observedStatuses
                (events (pollLoop C cancelledAt job_id validStates (round :: rest)
                           timer w))
              = s :: observedStatuses
                       (events (pollLoop C cancelledAt job_id validStates rest
                                  (timer + transformationJobPollingIntervalSeconds C)
                                  w')).
Proof.
  intros (s & Hs & Hv & Hp & Hf) Hsub. exists s. split; [ exact Hs | ].
  unfold clientActionCompletes, entersClientAction in Hsub. rewrite Hs in Hsub.
  unfold roundStatus in Hs.
  destruct (getTransformation round) as [response|] eqn:E; [ | discriminate ].
  injection Hs as <-.
  rewrite pollLoop_outcome, pollLoop_events, notCancelled. cbv zeta.
  destruct (pollIteration_summary job_id validStates round timer (afterCancelRead w))
    as (Hobs & _).
  unfold roundStatus in Hobs. rewrite E in Hobs.
  destruct (pollIteration_resolved job_id validStates round timer
              (afterCancelRead w) response E) as (w' & _ & _ & _ & Ho & _ & _).
  rewrite (actOnStatus_keepsPolling _ _ _ _ _ _ Hv Hp Hf Hsub) in Ho.
  change (EIsCancelled false :: ?l) with ([EIsCancelled false] ++ l).
  rewrite !observedStatuses_app, Hobs, Ho.
  destruct (_ >? _).
  - split; reflexivity.
  - eexists. split; reflexivity.
Qed.

End Forward.

(** *** Status changes and client-side build rounds *)

Lemma changes_differ previous statuses :
  Forall (fun c => fst c <> snd c) (changes previous statuses).
Proof.
  revert previous. induction statuses as [|s rest IH]; intros previous;
    [ constructor | ].
  cbn [changes]. destruct (String.eqb s previous) eqn:E; [ apply IH | ].
  constructor; [ | apply IH ].
  cbn. intros ->. rewrite String.eqb_refl in E. discriminate.
Qed.

Lemma pollLoop_rounds job_id validStates rounds timer w :
  let run := pollLoop C cancelledAt job_id validStates rounds timer w in
  statusChanges (events run)
  = changes (polledJobStatus (job w)) (observedStatuses (events run))
  /\ count isClientActionRound (events run)
     = length (filter (entersClientAction C validStates)
                 (firstn (count isFetch (events run)) rounds))
  /\ (count isClientActionRound (events run)
      <= length (observedStatuses (events run)))%nat.
Proof.
  cbv zeta. revert timer w.
  induction rounds as [|round rest IH]; intros timer w;
    [ repeat split; constructor | ].
  rewrite pollLoop_events.
  change (EIsCancelled ?b :: ?l) with ([EIsCancelled b] ++ l).
  rewrite statusChanges_app, observedStatuses_app, !count_app.
  cbn [statusChanges observedStatuses flat_map count filter isClientActionRound
         isFetch length app Nat.add].
  destruct (cancelledAt (cancelReads w)); [ repeat split; constructor | ].
  cbv zeta.
  destruct (pollIteration_summary job_id validStates round timer (afterCancelRead w))
    as (Hobs & Hchg & Hfetch & Hcl & _ & Hcont & _).
  set (it := pollIteration C cancelledAt job_id validStates round timer
               (afterCancelRead w)) in *.
  rewrite statusChanges_app, observedStatuses_app, !count_app, Hchg, Hfetch, Hcl, Hobs.
  cbn [Nat.add firstn filter].
  assert (Hle : ((if entersClientAction C validStates round then 1 else 0)
                 <= length (match roundStatus round with
                            | Some s => [s]
                            | None => []
                            end))%nat).
  { unfold entersClientAction. destruct (roundStatus round); cbn; [ | lia ].
    destruct (clientActionDue _ _ _ _); lia. }
  destruct (outcome it) as [[s|t]| |] eqn:Eo.
  2: { destruct (Hcont t eq_refl) as (_ & _ & Hs & _).
       destruct (IH t (final it)) as (IHchg & IHcl & IHle).
       rewrite IHchg, IHcl, Hs. cbn [app changes length].
       split; [ | split ].
       - destruct (String.eqb _ _); reflexivity.
       - destruct (entersClientAction C validStates round); reflexivity.
       - rewrite Hs in Hle. cbn [length] in Hle. cbn [length]. lia. }
  all: rewrite !app_nil_r; cbn [count filter length firstn Nat.add];
    rewrite ?Nat.add_0_r; (split; [ | split ]);
    [ destruct (roundStatus round); reflexivity
    | destruct (entersClientAction C validStates round); reflexivity
    | exact Hle ].
Qed.

(** C2, as amended: in every run of the poll loop a status-change event is
    emitted exactly when the observed status differs from the one observed
    before (so never for a repeated status), and the client-side build round
    is entered once in each iteration that observes a plan-generated status
    which is not valid for the caller while no build authorization is
    pending: at most once per observation, and again in a later iteration
    that observes the same status. *)
Theorem poll_status_changes_and_client_rounds job_id validStates rounds w :
  let run := pollTransformationJob C cancelledAt job_id validStates rounds w in
  statusChanges (events run)
  = changes (polledJobStatus (job w)) (observedStatuses (events run))
  /\ Forall (fun c => fst c <> snd c) (statusChanges (events run))
  /\ count isClientActionRound (events run)
     = length (filter (entersClientAction C validStates)
                 (firstn (count isFetch (events run)) rounds))
  /\ (count isClientActionRound (events run)
      <= length (observedStatuses (events run)))%nat.
Proof.
  cbv zeta. unfold pollTransformationJob.
  destruct (pollLoop_rounds job_id validStates rounds 0 w) as (Hchg & Hcl & Hle).
  split; [ exact Hchg | ]. split; [ | split; assumption ].
  rewrite Hchg. apply changes_differ.
Qed.

(** *** The time budget *)

Section Budget.

Local Notation "'interval'" := (transformationJobPollingIntervalSeconds C).
Local Notation "'budget'" := (transformationJobTimeoutSeconds C).

Hypothesis interval_positive : 0 < interval.

Lemma budget_left timer : timer <= budget -> 0 <= (budget - timer) / interval.
Proof. intros H. apply Z.div_pos; lia. Qed.

Lemma budget_spent timer :
  timer <= budget -> budget < timer + interval -> (budget - timer) / interval = 0.
Proof. intros H1 H2. apply Z.div_small. lia. Qed.

Lemma budget_step timer :
  (budget - (timer + interval)) / interval = (budget - timer) / interval - 1.
Proof.
  replace (budget - (timer + interval)) with ((budget - timer) + (-1) * interval)
    by lia.
  rewrite Z.div_add by lia. lia.
Qed.

Lemma pollLoop_throws job_id validStates rounds timer w :
  Forall (keepsPolling C validStates) rounds ->
  timer <= budget ->
  (budget - timer) / interval < Z.of_nat (length rounds) ->
  exists e,
    outcome (pollLoop C cancelledAt job_id validStates rounds timer w) = Threw e.
Proof.
  intros Hall. revert timer w.
  induction Hall as [|round rest Hround Hrest IH]; intros timer w Ht Hlen.
  - pose proof (budget_left timer Ht). cbn in Hlen. lia.
  - rewrite pollLoop_outcome.
    destruct (cancelledAt (cancelReads w)); [ eauto | ]. cbv zeta.
    destruct (pollIteration_summary job_id validStates round timer
                (afterCancelRead w))
      as (_ & _ & _ & _ & _ & Hcont & Hbreak & Hblocked).
    destruct (outcome _) as [[s|t]| |] eqn:Eo.
    + destruct (Hbreak s eq_refl) as (Hs & Hor).
      destruct Hround as (s' & Hs' & Hv & Hp & _).
      rewrite Hs in Hs'. injection Hs' as <-.
      destruct Hor; congruence.
    + destruct (Hcont t eq_refl) as (-> & Hle & _).
      apply IH; [ exact Hle | ].
      rewrite budget_step.
      rewrite length_cons, Nat2Z.inj_succ in Hlen. lia.
    + eauto.
    + contradiction.
Qed.

Lemma pollLoop_times_out job_id validStates rounds timer w :
  (forall k, cancelledAt k = false) ->
  Forall (keepsPolling C validStates) rounds ->
  Forall (clientActionCompletes C cancelledAt job_id validStates) rounds ->
  timer <= budget ->
  (budget - timer) / interval < Z.of_nat (length rounds) ->
  let run := pollLoop C cancelledAt job_id validStates rounds timer w in
  outcome run = Threw (Error "Job timed out")
  /\ Z.of_nat (length (observedStatuses (events run)))
     = (budget - timer) / interval + 1.
Proof.
  intros Hnc Hall. cbv zeta. revert timer w.
  induction Hall as [|round rest Hround Hrest IH]; intros timer w Hsub Ht Hlen.
  - pose proof (budget_left timer Ht). cbn in Hlen. lia.
  - inversion Hsub as [|? ? Hsub1 Hsub2]; subst.
    destruct (pollLoop_keepsPolling Hnc job_id validStates round rest timer w
                Hround Hsub1) as (s & Hs & Hcase).
    destruct (timer + interval >? budget) eqn:E.
    + destruct Hcase as (Ho & Hobs). rewrite Ho, Hobs.
      rewrite Z.gtb_ltb in E. apply Z.ltb_lt in E.
      rewrite (budget_spent timer Ht E). split; reflexivity.
    + destruct Hcase as (w' & Ho & Hobs). rewrite Ho, Hobs.
      rewrite Z.gtb_ltb in E. apply Z.ltb_ge in E.
      rewrite length_cons, Nat2Z.inj_succ in Hlen.
      destruct (IH (timer + interval) w' Hsub2 E) as (IHo & IHobs).
      { rewrite budget_step. lia. }
      split; [ exact IHo | ].
      rewrite length_cons, Nat2Z.inj_succ, IHobs, budget_step. lia.
Qed.

End Budget.

(** C3: when every fetched status is neither valid for the caller, nor a
    failure state, nor a paused state, and the backend answers for more
    iterations than the budget holds, the loop ends by throwing: it neither
    returns nor keeps waiting.  When moreover the job is not cancelled and
    the client-side build rounds the loop enters go through, what it throws
    is the timeout error, at the iteration whose accumulated polling time
    first exceeds the budget. *)
Theorem poll_times_out job_id validStates rounds w :
  0 < transformationJobPollingIntervalSeconds C ->
  0 <= transformationJobTimeoutSeconds C ->
  Forall (keepsPolling C validStates) rounds ->
  transformationJobTimeoutSeconds C / transformationJobPollingIntervalSeconds C
  < Z.of_nat (length rounds) ->
  let run := pollTransformationJob C cancelledAt job_id validStates rounds w in
  (exists e, outcome run = Threw e)
  /\ ((forall k, cancelledAt k = false) ->
      Forall (clientActionCompletes C cancelledAt job_id validStates) rounds ->
      outcome run = Threw (Error "Job timed out")
      /\ Z.of_nat (length (observedStatuses (events run)))
         = transformationJobTimeoutSeconds C
           / transformationJobPollingIntervalSeconds C + 1).
Proof.
  intros Hi Hb Hall Hlen. cbv zeta. unfold pollTransformationJob. split.
  - apply pollLoop_throws; auto. rewrite Z.sub_0_r. exact Hlen.
  - intros Hnc Hsub.
    destruct (pollLoop_times_out Hi job_id validStates rounds 0 w Hnc Hall Hsub Hb)
      as (Ho & Hobs).
    { rewrite Z.sub_0_r. exact Hlen. }
    rewrite Z.sub_0_r in Hobs. auto.
Qed.

(** *** The failure reason *)

Lemma recordFailureReason_messages response txt w :
  reason response = Some txt ->
  let j := job (final (recordFailureReason C response w)) in
  jobFailureErrorNotification j
  = Some (if includes txt "Monthly aggregated Lines of Code limit breached"
          then failedToStartJobMonthlyLimitNotification C
          else if includes txt "Lines of Code limit breached for job"
               then failedToStartJobLinesLimitNotification C
               else failedToCompleteJobGenericNotification C ++ " " ++ txt)%string
  /\ jobFailureErrorChatMessage j
     = Some (if includes txt "Monthly aggregated Lines of Code limit breached"
             then failedToStartJobMonthlyLimitChatMessage C
             else if includes txt "Lines of Code limit breached for job"
                  then failedToStartJobLinesLimitChatMessage C
                  else failedToCompleteJobGenericChatMessage C ++ " " ++ txt)%string.
Proof.
  intros H. cbv zeta. unfold recordFailureReason. rewrite H.
  destruct (includes txt "Monthly aggregated Lines of Code limit breached");
    [ | destruct (includes txt "Lines of Code limit breached for job") ];
    split; reflexivity.
Qed.

Lemma keeps_actOnStatus {X} (f : JobState -> X) job_id validStates round response timer :
  (forall s j, f (withJobFailureMetadata s j) = f j) ->
  (forall s j, f (withPolledJobStatus s j) = f j) ->
  keeps f (actOnStatus C cancelledAt job_id validStates round response timer).
Proof.
  intros Hm Hp. unfold actOnStatus.
  along_structure;
    solve [ apply keeps_modify; intros; auto | unfold sleep; apply keeps_emit ].
Qed.

(** C4: after an iteration whose response carries a failure reason, the
    notification and the chat message kept for the user are the monthly-limit
    ones when the reason contains "Monthly aggregated Lines of Code limit
    breached", and the generic ones, followed by the reason, when the reason
    contains neither that text nor "Lines of Code limit breached for job". *)
Theorem failure_reason_classified job_id validStates round timer w response txt :
  getTransformation round = Resolves response ->
  reason response = Some txt ->
  let j := job (final (pollIteration C cancelledAt job_id validStates round timer w)) in
  (includes txt "Monthly aggregated Lines of Code limit breached" = true ->
   jobFailureErrorNotification j = Some (failedToStartJobMonthlyLimitNotification C)
   /\ jobFailureErrorChatMessage j = Some (failedToStartJobMonthlyLimitChatMessage C))
  /\ (includes txt "Monthly aggregated Lines of Code limit breached" = false ->
      includes txt "Lines of Code limit breached for job" = false ->
      jobFailureErrorNotification j
      = Some (failedToCompleteJobGenericNotification C ++ " " ++ txt)%string
      /\ jobFailureErrorChatMessage j
         = Some (failedToCompleteJobGenericChatMessage C ++ " " ++ txt)%string).
Proof.
  intros Hr Htxt. cbv zeta.
  destruct (pollIteration_resolved job_id validStates round timer w response Hr)
    as (w' & _ & _ & (w0 & ->) & _ & Hf & _).
  rewrite Hf.
  rewrite (keeps_actOnStatus jobFailureErrorNotification job_id validStates round
             response timer (fun _ _ => eq_refl) (fun _ _ => eq_refl)).
  rewrite (keeps_actOnStatus jobFailureErrorChatMessage job_id validStates round
             response timer (fun _ _ => eq_refl) (fun _ _ => eq_refl)).
  destruct (recordFailureReason_messages response txt w0 Htxt) as (Hn & Hc).
  rewrite Hn, Hc.
  split.
  - intros ->. split; reflexivity.
  - intros -> ->. split; reflexivity.
Qed.

(** *** A job that completes *)

(** C1: when the backend answers SUBMITTED, PLANNING, TRANSFORMING and then
    COMPLETED to a poll for [COMPLETED], and nothing stops the loop on the way
    (no cancellation, none of the first three statuses is a paused or a
    failure state, the client-side build rounds entered go through, three
    polling intervals fit in the budget), the poll returns COMPLETED after
    exactly these four observations, with a sleep of the polling interval
    between each two of them. *)
Theorem poll_completes job_id r1 r2 r3 r4 w :
  (forall k, cancelledAt k = false) ->
  map roundStatus [r1; r2; r3; r4]
  = [Some "SUBMITTED"; Some "PLANNING"; Some "TRANSFORMING"; Some "COMPLETED"]%string ->
  Forall (fun s => arrayIncludes (pausedStates C) s = false
                   /\ arrayIncludes (failureStates C) s = false)
    ["SUBMITTED"; "PLANNING"; "TRANSFORMING"]%string ->
  Forall (clientActionCompletes C cancelledAt job_id ["COMPLETED"%string])
    [r1; r2; r3] ->
  0 <= transformationJobPollingIntervalSeconds C ->
  3 * transformationJobPollingIntervalSeconds C <= transformationJobTimeoutSeconds C ->
  let run := pollTransformationJob C cancelledAt job_id ["COMPLETED"%string]
               [r1; r2; r3; r4] w in
  outcome run = Returned "COMPLETED"%string
  /\ observedStatuses (events run)
     = ["SUBMITTED"; "PLANNING"; "TRANSFORMING"; "COMPLETED"]%string
  /\ paced (pollingIntervalMs C) true (events run) = true.
Proof.
  intros Hnc Hst Hstop Hsub Hi Hb. cbv zeta.
  injection Hst as H1 H2 H3 H4.
  inversion Hstop as [|? ? [Hp1 Hf1] Hstop2]; subst.
  inversion Hstop2 as [|? ? [Hp2 Hf2] Hstop3]; subst.
  inversion Hstop3 as [|? ? [Hp3 Hf3] _]; subst.
  inversion Hsub as [|? ? Hs1 Hsub2]; subst.
  inversion Hsub2 as [|? ? Hs2 Hsub3]; subst.
  inversion Hsub3 as [|? ? Hs3 _]; subst.
  split; [ | split; [ | apply pollLoop_paced ] ].
  all: unfold pollTransformationJob.
  all: destruct (pollLoop_keepsPolling Hnc job_id ["COMPLETED"%string] r1 [r2; r3; r4]
                   0 w) as (s1 & Hs1' & Hc1);
    [ exists "SUBMITTED"%string; auto | exact Hs1 | ].
  all: rewrite H1 in Hs1'; injection Hs1' as <-.
  all: destruct (_ >? _) eqn:E1 in Hc1;
    [ rewrite Z.gtb_ltb in E1; apply Z.ltb_lt in E1; lia | ].
  all: destruct Hc1 as (w1 & Ho1 & Hobs1); rewrite ?Ho1, ?Hobs1.
  all: destruct (pollLoop_keepsPolling Hnc job_id ["COMPLETED"%string] r2 [r3; r4]
                   (0 + transformationJobPollingIntervalSeconds C) w1)
      as (s2 & Hs2' & Hc2);
    [ exists "PLANNING"%string; auto | exact Hs2 | ].
  all: rewrite H2 in Hs2'; injection Hs2' as <-.
  all: destruct (_ >? _) eqn:E2 in Hc2;
    [ rewrite Z.gtb_ltb in E2; apply Z.ltb_lt in E2; lia | ].
  all: destruct Hc2 as (w2 & Ho2 & Hobs2); rewrite ?Ho2, ?Hobs2.
  all: destruct (pollLoop_keepsPolling Hnc job_id ["COMPLETED"%string] r3 [r4]
                   (0 + transformationJobPollingIntervalSeconds C
                    + transformationJobPollingIntervalSeconds C) w2)
      as (s3 & Hs3' & Hc3);
    [ exists "TRANSFORMING"%string; auto | exact Hs3 | ].
  all: rewrite H3 in Hs3'; injection Hs3' as <-.
  all: destruct (_ >? _) eqn:E3 in Hc3;
    [ rewrite Z.gtb_ltb in E3; apply Z.ltb_lt in E3; lia | ].
  all: destruct Hc3 as (w3 & Ho3 & Hobs3); rewrite ?Ho3, ?Hobs3.
  all: destruct (pollLoop_valid Hnc job_id ["COMPLETED"%string] r4 []
                   (0 + transformationJobPollingIntervalSeconds C
                    + transformationJobPollingIntervalSeconds C
                    + transformationJobPollingIntervalSeconds C) w3
                   "COMPLETED"%string H4 eq_refl) as (Ho4 & Hobs4).
  all: rewrite ?Ho4, ?Hobs4; reflexivity.
Qed.

(** *** Stopping a job *)

(** C10: with an empty job id [stopJob] returns at once: no call reaches the
    backend and the job state is left as it was; with any other job id the
    stop call is issued, once. *)
Theorem stopJob_empty_job_id answer w :
  stopJob C "" answer w = {| outcome := Returned tt; final := w; events := [] |}
  /\ forall job_id,
       filter isStopCall (events (stopJob C job_id answer w))
       = if String.eqb job_id "" then [] else [EStopTransformation job_id].
Proof.
  split; [ reflexivity | ].
  intros job_id. unfold stopJob, truthy.
  destruct (String.eqb job_id ""); [ reflexivity | ]. cbn [negb].
  rewrite tryCatch_events, bind_events, !filter_app.
  cbn [emit events outcome final filter isStopCall app].
  match goal with
  | |- _ :: filter _ (events (?m w)) ++ _ = _ =>
      assert (Hm : silent isStopCall m) by along_structure; rewrite Hm
  end.
  destruct (outcome _); reflexivity.
Qed.

(** *** Project validation *)

(** C8: when no project holds a .java file, validation fails with
    NoJavaProjectsFoundError whatever build descriptors the projects have:
    the Java files are looked for first, and the no-build-file error is not
    the one raised. *)
Theorem validate_without_java_files env projects onProjectFirstOpen w :
  (forall project, In project projects -> javaFiles env (projectDir project) = []) ->
  validateOpenProjects C env projects onProjectFirstOpen w
  = {| outcome := Threw NoJavaProjectsFoundError; final := w; events := [] |}
  /\ outcome (validateOpenProjects C env projects onProjectFirstOpen w)
     <> Threw NoMavenOrGradleJavaProjectsFoundError.
Proof.
  intros H.
  assert (Hj : getJavaProjects env projects = []).
  { unfold getJavaProjects. induction projects as [|project rest IH];
      [ reflexivity | ].
    cbn [filter]. rewrite (H project (or_introl eq_refl)). cbn.
    apply IH. intros p Hp. apply H. right. exact Hp. }
  unfold validateOpenProjects. rewrite Hj. split; [ reflexivity | discriminate ].
Qed.

(** C9, as amended: the project listing fails with NoOpenProjectsError when
    the list of workspace folders is undefined; for a list of folders, the
    empty one included, it returns one project per folder, and it is the
    validation of an empty list of projects that fails, with
    NoJavaProjectsFoundError. *)
Theorem open_projects_listed env onProjectFirstOpen w :
  outcome (getOpenProjects None w) = Threw NoOpenProjectsError
  /\ (forall folders,
        outcome (getOpenProjects (Some folders) w)
        = Returned (map (fun folder =>
                           {| projectName := workspaceFolderName folder;
                              projectDir := workspaceFolderFsPath folder;
                              projectJDKVersion := None |}) folders))
  /\ outcome (getOpenProjects (Some []) w) = Returned []
  /\ outcome (validateOpenProjects C env [] onProjectFirstOpen w)
     = Threw NoJavaProjectsFoundError.
Proof. repeat split. Qed.

(** *** Packaging *)

Lemma addSourceFiles_returns module_path files w :
  outcome (addSourceFiles C module_path files w) = Returned tt
  /\ final (addSourceFiles C module_path files w) = w
  /\ filter isCancelCheck (events (addSourceFiles C module_path files w)) = [].
Proof.
  induction files as [|file rest IH]; [ repeat split | ].
  cbn [addSourceFiles]. destruct IH as (Ho & Hf & He).
  rewrite bind_outcome, bind_final, bind_events, filter_app.
  destruct (fileStatIsDirectory file); [ | destruct (isExcludedFile (filePath file)) ];
    cbn; auto.
Qed.

Lemma addDependencyFiles_returns dependencies_path files w :
  outcome (addDependencyFiles C dependencies_path files w) = Returned tt
  /\ final (addDependencyFiles C dependencies_path files w) = w
  /\ filter isCancelCheck
       (events (addDependencyFiles C dependencies_path files w)) = [].
Proof.
  induction files as [|file rest IH]; [ repeat split | ].
  cbn [addDependencyFiles]. destruct IH as (Ho & Hf & He).
  rewrite bind_outcome, bind_final, bind_events, filter_app.
  destruct (isExcludedFile (filePath file)); cbn; auto.
Qed.

Lemma zipSources_yields params env w :
  yields (zipSources C params env) w (Returned tt) w
    (events (zipSources C params env w))
  /\ filter isCancelCheck (events (zipSources C params env w)) = [].
Proof.
  unfold zipSources.
  destruct (modulePath params) as [module_path|]; [ | split; reflexivity ].
  destruct (truthy module_path); [ | split; reflexivity ]. cbn [when].
  destruct (addSourceFiles_returns module_path
              (getFilesRecursively C module_path false (sourceEntries env)) w)
    as (Ho & Hf & He).
  split; [ | exact He ].
  pose proof (yields_outcome _ _ _ Ho) as Hy. rewrite Hf in Hy. exact Hy.
Qed.

Lemma zipDependencies_yields params env w :
  exists manifest,
    yields (zipDependencies C params env) w (Returned manifest) w
      (events (zipDependencies C params env w))
    /\ filter isCancelCheck (events (zipDependencies C params env w)) = [].
Proof.
  unfold zipDependencies.
  destruct (dependenciesFolder params) as [folder|];
    [ | eexists; split; reflexivity ].
  cbv zeta.
  destruct (if dependenciesExist env then _ else _) as [|file files] eqn:E;
    [ eexists; split; reflexivity | ].
  destruct (addDependencyFiles_returns (folderPath folder) (file :: files) w)
    as (Ho & Hf & He).
  exists (zipManifest params).
  rewrite bind_events.
  pose proof (yields_outcome _ _ _ Ho) as Hy. rewrite Hf in Hy.
  rewrite Ho, Hf. cbn [ret events].
  split; [ exec | rewrite app_nil_r; exact He ].
Qed.

Lemma zipCode_entries_threw s params env w e :
  outcome (zipEntries C cancelledAt s params env w) = Threw e ->
  outcome (zipCode C cancelledAt s params env w)
  = Threw (Error ("Failed to zip project due to: " ++ message C e)%string)
  /\ events (zipCode C cancelledAt s params env w)
     = events (zipEntries C cancelledAt s params env w).
Proof.
  intros H. pose proof (yields_outcome _ _ _ H) as Hy.
  eassert (Hz : yields (zipCode C cancelledAt s params env) w _ _ _)
    by (unfold zipCode; exec).
  apply yields_inj in Hz as (Ho & _ & He). rewrite Ho, He.
  split; [ reflexivity | ]. rewrite !app_nil_r. reflexivity.
Qed.

Lemma zipCode_entries_returned s params env w :
  outcome (zipEntries C cancelledAt s params env w) = Returned tt ->
  exists rest,
    events (zipCode C cancelledAt s params env w)
    = events (zipEntries C cancelledAt s params env w) ++ rest
    /\ filter isCancelCheck rest = [].
Proof.
  intros H. unfold zipCode.
  rewrite bind_events, tryCatch_events, bind_events, H, <- !app_assoc.
  eexists. split; [ reflexivity | ].
  rewrite !filter_app.
  match goal with
  | |- filter _ (events (?m ?w1)) ++ _ ++ _ = _ =>
      assert (H1 : silent isCancelCheck m)
  end.
  { along_structure. }
  rewrite H1.
  rewrite tryCatch_outcome. cbn [app].
  match goal with
  | |- context [outcome (bind ?a ?b w)] => destruct (outcome (bind a b w))
  end; cbn [throw events outcome filter app]; try reflexivity.
  match goal with
  | |- filter _ (events (?m ?w1)) = _ =>
      assert (H3 : silent isCancelCheck m) by along_structure; apply H3
  end.
Qed.

(** C7, as amended: a packaging reads the cancellation flag at three points
    and no other: before anything is added, after the source files are
    added, and after the manifest is added, which follows the dependencies
    with no check in between.  When one of these reads sees the flag set,
    nothing more is done on the archive, and the failure raised is the
    generic packaging failure carrying the message of the stopped error. *)
Theorem zipCode_cancellation_checks s params env w :
  let n := cancelReads w in
  let run := zipCode C cancelledAt s params env w in
  let sources := events (zipSources C params env (afterCancelRead w)) in
  let dependencies :=
    events (zipDependencies C params env (afterCancelRead (afterCancelRead w))) in
  filter isCancelCheck sources = []
  /\ filter isCancelCheck dependencies = []
  /\ (cancelledAt n = true ->
      outcome run = zipStopped C /\ events run = [EIsCancelled true])
  /\ (cancelledAt n = false -> cancelledAt (S n) = true ->
      outcome run = zipStopped C
      /\ events run = [EIsCancelled false] ++ sources ++ [EIsCancelled true])
  /\ (cancelledAt n = false -> cancelledAt (S n) = false ->
      cancelledAt (S (S n)) = true ->
      outcome run = zipStopped C
      /\ exists manifest,
           events run
           = [EIsCancelled false] ++ sources ++ [EIsCancelled false]
             ++ dependencies ++ [EAddManifest manifest; EIsCancelled true])
  /\ (cancelledAt n = false -> cancelledAt (S n) = false ->
      cancelledAt (S (S n)) = false ->
      exists manifest rest,
        events run
        = [EIsCancelled false] ++ sources ++ [EIsCancelled false]
          ++ dependencies ++ [EAddManifest manifest; EIsCancelled false] ++ rest
        /\ filter isCancelCheck rest = []).
Proof.
  cbv zeta.
  destruct (zipSources_yields params env (afterCancelRead w)) as (Hsrc & Hsrc').
  destruct (zipDependencies_yields params env (afterCancelRead (afterCancelRead w)))
    as (manifest & Hdep & Hdep').
  split; [ exact Hsrc' | ]. split; [ exact Hdep' | ].
  split; [ | split; [ | split ] ].
  - intros H0.
    eassert (Hy : yields (zipEntries C cancelledAt s params env) w _ _ _)
      by (unfold zipEntries; exec).
    apply yields_inj in Hy as (Ho & _ & He).
    destruct (zipCode_entries_threw s params env w _ Ho) as (Hzo & Hze).
    rewrite Hzo, Hze, He. split; reflexivity.
  - intros H0 H1.
    eassert (Hy : yields (zipEntries C cancelledAt s params env) w _ _ _)
      by (unfold zipEntries; exec).
    apply yields_inj in Hy as (Ho & _ & He).
    destruct (zipCode_entries_threw s params env w _ Ho) as (Hzo & Hze).
    rewrite Hzo, Hze, He. split; reflexivity.
  - intros H0 H1 H2.
    eassert (Hy : yields (zipEntries C cancelledAt s params env) w _ _ _)
      by (unfold zipEntries; exec).
    apply yields_inj in Hy as (Ho & _ & He).
    destruct (zipCode_entries_threw s params env w _ Ho) as (Hzo & Hze).
    rewrite Hzo, Hze, He. split; [ reflexivity | ].
    eexists. reflexivity.
  - intros H0 H1 H2.
    eassert (Hy : yields (zipEntries C cancelledAt s params env) w _ _ _)
      by (unfold zipEntries; exec).
    apply yields_inj in Hy as (Ho & _ & He).
    destruct (zipCode_entries_returned s params env w Ho) as (rest & Hze & Hrest).
    rewrite Hze, He. exists (finishManifest s manifest), rest.
    split; [ | exact Hrest ].
    rewrite <- !app_assoc. reflexivity.
Qed.

Lemma zipCode_failure_kinds s params env w e :
  outcome (zipCode C cancelledAt s params env w) = Threw e ->
  (e = ZipExceedsSizeLimitError /\ uploadZipSizeLimitInBytes C < zipSize env)
  \/ exists m, e = Error ("Failed to zip project due to: " ++ m)%string.
Proof.
  unfold zipCode. rewrite bind_outcome, tryCatch_outcome.
  destruct (outcome _) as [[]|e'|]; cbn [throw outcome]; try discriminate.
  - destruct (zipSize env >? uploadZipSizeLimitInBytes C) eqn:E; [ | discriminate ].
    rewrite !bind_outcome. cbn.
    destruct (chatControllers env); cbn; intros [= <-]; left;
      (split; [ reflexivity | ]);
      rewrite Z.gtb_ltb in E; apply Z.ltb_lt in E; exact E.
  - intros [= <-]. right. eexists. reflexivity.
Qed.

(** C6: once the archive is written (no cancellation seen, the logs and the
    archive file written), a size above the upload ceiling makes [zipCode]
    fail with ZipExceedsSizeLimitError, which is not the generic failure of
    the packaging, and a size within the ceiling makes it return the path of
    the archive. *)
Theorem zipCode_size_limit s params env w logFile :
  cancelledAt (cancelReads w) = false ->
  cancelledAt (S (cancelReads w)) = false ->
  cancelledAt (S (S (cancelReads w))) = false ->
  writeLogsAnswer env = Resolves logFile ->
  writeZipAnswer env = Resolves tt ->
  let run := zipCode C cancelledAt s params env w in
  (uploadZipSizeLimitInBytes C < zipSize env ->
   outcome run = Threw ZipExceedsSizeLimitError
   /\ forall m, outcome run <> Threw (Error m))
  /\ (zipSize env <= uploadZipSizeLimitInBytes C ->
      outcome run = Returned (tempFilePath C)).
Proof.
  intros H0 H1 H2 Hlog Hzip. cbv zeta.
  destruct (zipSources_yields params env (afterCancelRead w)) as (Hsrc & _).
  destruct (zipDependencies_yields params env (afterCancelRead (afterCancelRead w)))
    as (manifest & Hdep & _).
  assert (Hrun : exists w' evs,
             yields (zipCode C cancelledAt s params env) w
               (if zipSize env >? uploadZipSizeLimitInBytes C
                then Threw ZipExceedsSizeLimitError
                else Returned (tempFilePath C)) w' evs).
  { unfold zipCode, zipEntries, zipWrite. rewrite Hlog, Hzip.
    destruct (zipSize env >? uploadZipSizeLimitInBytes C) eqn:E;
      destruct (humanInTheLoopFlag params) eqn:Eh;
      destruct (truthy logFile) eqn:Et;
      destruct (chatControllers env) eqn:Ec;
      (destruct (dependenciesFolder params) as [folder|];
       [ destruct (dependenciesExist env) eqn:Ed | ]);
      do 2 eexists; exec. }
  destruct Hrun as (w' & evs & Hrun). apply yields_inj in Hrun as (Ho & _).
  rewrite Ho. split.
  - intros Hgt. apply Z.ltb_lt in Hgt. rewrite <- Z.gtb_ltb in Hgt. rewrite Hgt.
    split; [ reflexivity | discriminate ].
  - intros Hle. apply Z.ltb_ge in Hle. rewrite <- Z.gtb_ltb in Hle. rewrite Hle.
    reflexivity.
Qed.

(** *** The client-side build *)

Lemma performClientSideBuild_spawns s module_path artifact env w :
  filter isSpawn (events (performClientSideBuild C s module_path artifact env w))
  = [ESpawn (buildSystemCommand s) (buildArgs s) module_path (javaTargetPath s)].
Proof.
  unfold performClientSideBuild. cbv zeta.
  rewrite bind_events. cbn [emit events outcome final filter isSpawn app].
  rewrite bind_events. cbn [emit events outcome final filter isSpawn app].
  f_equal.
  match goal with
  | |- filter _ (events (?m ?w1)) = _ =>
      assert (H : silent isSpawn m); [ | apply H ]
  end.
  unfold resumeTransformationJob. along_structure.
Qed.

(** The call of [runClientSideBuild] returns, however the callback ends. *)
Lemma runClientSideBuild_returns s module_path artifact env w :
  outcome (runClientSideBuild C s module_path artifact env w)
  = Returned (outcome (clientSideBuildSpan C s module_path artifact env w)).
Proof. reflexivity. Qed.

(** The authorization step of the callback: when the prompt is shown and the
    user declines, the job stop is requested, no build process is spawned,
    and the callback ends by throwing: the error saying that the verification
    prompt was rejected, once the stop request has returned.  When the user
    accepts, the build process is spawned. *)
Lemma clientSideBuildSpan_authorization s module_path artifact env w :
  clientSideBuildSelection s = "Verify Each Iteration"%string ->
  waitingSeen env = false ->
  let run := clientSideBuildSpan C s module_path artifact env w in
  (promptAnswer env = Some (localizedNo C) ->
   In (EStopTransformByQ (jobId s)) (events run)
   /\ filter isSpawn (events run) = []
   /\ (exists e, outcome run = Threw e)
   /\ (stopAnswer env = Resolves tt ->
       outcome run
       = Threw (Error "Cannot perform intermediate client-side build since intermediate verification prompt was rejected")))
  /\ (promptAnswer env = Some (localizedYes C) ->
      localizedYes C <> localizedNo C ->
      filter isSpawn (events run)
      = [ESpawn (buildSystemCommand s) (buildArgs s) module_path (javaTargetPath s)]).
Proof.
  intros Hsel Hwait. cbv zeta. unfold clientSideBuildSpan.
  rewrite Hsel, Hwait. cbn [String.eqb Ascii.eqb Bool.eqb negb andb]. split.
  - intros ->. rewrite String.eqb_refl.
    destruct (stopAnswer env) as [[]|e]; cbn;
      repeat split; eauto 10; discriminate.
  - intros -> Hne.
    destruct (String.eqb (localizedYes C) (localizedNo C)) eqn:E;
      [ apply String.eqb_eq in E; contradiction | ].
    rewrite !bind_events. cbn [emit events outcome final filter isSpawn app].
    apply performClientSideBuild_spawns.
Qed.

(** C5: when the authorization prompt is shown and the user declines, the
    job stop is requested and no build process is spawned, but no error is
    raised to the caller: the error saying that the verification prompt was
    rejected is thrown inside the callback, which [runClientSideBuild]
    neither awaits nor returns, so the call returns normally with that error
    as the completion of a promise nobody holds.  When the user accepts, the
    build process is spawned. *)
Theorem declined_build_raises_nothing s module_path artifact env w :
  clientSideBuildSelection s = "Verify Each Iteration"%string ->
  waitingSeen env = false ->
  let call := runClientSideBuild C s module_path artifact env w in
  (promptAnswer env = Some (localizedNo C) ->
   In (EStopTransformByQ (jobId s)) (events call)
   /\ filter isSpawn (events call) = []
   /\ (stopAnswer env = Resolves tt ->
       outcome call
       = Returned (Threw (Error "Cannot perform intermediate client-side build since intermediate verification prompt was rejected")))
   /\ (exists completion, outcome call = Returned completion)
   /\ (forall e, outcome call <> Threw e))
  /\ (promptAnswer env = Some (localizedYes C) ->
      localizedYes C <> localizedNo C ->
      filter isSpawn (events call)
      = [ESpawn (buildSystemCommand s) (buildArgs s) module_path (javaTargetPath s)]).
Proof.
  intros Hsel Hwait. cbv zeta.
  destruct (clientSideBuildSpan_authorization s module_path artifact env w Hsel Hwait)
    as (Hno & Hyes).
  rewrite runClientSideBuild_returns.
  change (events (runClientSideBuild C s module_path artifact env w))
    with (events (clientSideBuildSpan C s module_path artifact env w)).
  split.
  - intros Hanswer. destruct (Hno Hanswer) as (Hstop & Hspawn & _ & Hthrow).
    split; [ exact Hstop | ]. split; [ exact Hspawn | ].
    split; [ intros Hs; rewrite (Hthrow Hs); reflexivity | ].
    split; [ eexists; reflexivity | discriminate ].
  - exact Hyes.
Qed.

End Properties.

(** * The properties on the example values *)

(** C1 on four rounds answering SUBMITTED, PLANNING, TRANSFORMING and
    COMPLETED, with a plan in which nothing waits for the client. *)
Lemma poll_completes_witness :
  let rounds := map answering ["SUBMITTED"; "PLANNING"; "TRANSFORMING"; "COMPLETED"]%string in
  let run := pollTransformationJob exampleConstants neverCancelled "job-1"
               ["COMPLETED"%string] rounds exampleWorld in
  (forall k, neverCancelled k = false)
  /\ map roundStatus rounds
     = [Some "SUBMITTED"; Some "PLANNING"; Some "TRANSFORMING"; Some "COMPLETED"]%string
  /\ 3 * transformationJobPollingIntervalSeconds exampleConstants
     <= transformationJobTimeoutSeconds exampleConstants
  /\ outcome run = Returned "COMPLETED"%string
  /\ observedStatuses (events run)
     = ["SUBMITTED"; "PLANNING"; "TRANSFORMING"; "COMPLETED"]%string
  /\ paced 5000 true (events run) = true.
Proof.
  cbv zeta.
  split; [ intros k; reflexivity | ].
  split; [ reflexivity | ].
  split; [ cbn; lia | ].
  apply (poll_completes exampleConstants neverCancelled "job-1"
           (answering "SUBMITTED") (answering "PLANNING")
           (answering "TRANSFORMING") (answering "COMPLETED") exampleWorld).
  - intros k. reflexivity.
  - reflexivity.
  - repeat constructor.
  - repeat constructor; intros _ w; reflexivity.
  - cbn. lia.
  - cbn. lia.
Defined.

(** C2 as stated fails: the backend answers TRANSFORMING twice and then
    COMPLETED; one plan-generated status is observed, in two consecutive
    iterations, and the client-side build round is entered twice. *)
Lemma client_round_repeated_counterexample :
  let run := pollTransformationJob exampleConstants neverCancelled "job-1"
               ["COMPLETED"%string]
               (map answering ["TRANSFORMING"; "TRANSFORMING"; "COMPLETED"]%string)
               exampleWorld in
  observedStatuses (events run)
  = ["TRANSFORMING"; "TRANSFORMING"; "COMPLETED"]%string
  /\ distinctRuns
       (filter (fun s => negb (arrayIncludes ["COMPLETED"%string] s)
                         && arrayIncludes
                              (validStatesForPlanGenerated exampleConstants) s)
          (observedStatuses (events run)))
     = ["TRANSFORMING"%string]
  /\ count isClientActionRound (events run) = 2%nat.
Proof. cbv zeta. repeat split. Qed.

(** C3 on five rounds that keep the loop polling, with a budget of four
    intervals. *)
Lemma poll_times_out_witness :
  let rounds :=
    map answering
      ["SUBMITTED"; "PLANNING"; "TRANSFORMING"; "TRANSFORMING"; "TRANSFORMING"]%string in
  let run := pollTransformationJob exampleConstants neverCancelled "job-1"
               ["COMPLETED"%string] rounds exampleWorld in
  Forall (keepsPolling exampleConstants ["COMPLETED"%string]) rounds
  /\ 20 / 5 < Z.of_nat (length rounds)
  /\ outcome run = Threw (Error "Job timed out")
  /\ Z.of_nat (length (observedStatuses (events run))) = 5.
Proof.
  cbv zeta.
  assert (Hkeep : Forall (keepsPolling exampleConstants ["COMPLETED"%string])
                    (map answering
                       ["SUBMITTED"; "PLANNING"; "TRANSFORMING"; "TRANSFORMING";
                        "TRANSFORMING"]%string)).
  { repeat constructor; eexists; repeat split. }
  split; [ exact Hkeep | ]. split; [ reflexivity | ].
  apply (poll_times_out exampleConstants neverCancelled "job-1" ["COMPLETED"%string]
           (map answering
              ["SUBMITTED"; "PLANNING"; "TRANSFORMING"; "TRANSFORMING";
               "TRANSFORMING"]%string)
           exampleWorld).
  - reflexivity.
  - discriminate.
  - exact Hkeep.
  - reflexivity.
  - intros k. reflexivity.
  - repeat constructor; intros _ w; reflexivity.
Defined.

(** C4 on a reason that contains the monthly-limit text and on one that
    contains no known text. *)
Lemma failure_reason_classified_witness :
  let monthly :=
    "Job failed: Monthly aggregated Lines of Code limit breached for account"%string in
  let other := "Internal error"%string in
  let after txt :=
    job (final (pollIteration exampleConstants neverCancelled "job-1"
                  ["COMPLETED"%string] (failing txt) 0 exampleWorld)) in
  includes monthly "Monthly aggregated Lines of Code limit breached" = true
  /\ jobFailureErrorNotification (after monthly) = Some "monthly limit reached"%string
  /\ jobFailureErrorChatMessage (after monthly)
     = Some "monthly limit reached (chat)"%string
  /\ jobFailureErrorNotification (after other)
     = Some "job failed: Internal error"%string
  /\ jobFailureErrorChatMessage (after other)
     = Some "job failed (chat): Internal error"%string.
Proof.
  cbv zeta.
  split; [ reflexivity | ].
  destruct (failure_reason_classified exampleConstants neverCancelled "job-1"
              ["COMPLETED"%string]
              (failing "Job failed: Monthly aggregated Lines of Code limit breached for account")
              0 exampleWorld
              {| status := "FAILED";
                 reason := Some "Job failed: Monthly aggregated Lines of Code limit breached for account"%string;
                 requestId := "req-2" |}
              "Job failed: Monthly aggregated Lines of Code limit breached for account"
              eq_refl eq_refl) as (Hmonthly & _).
  destruct (failure_reason_classified exampleConstants neverCancelled "job-1"
              ["COMPLETED"%string] (failing "Internal error") 0 exampleWorld
              {| status := "FAILED";
                 reason := Some "Internal error"%string;
                 requestId := "req-2" |}
              "Internal error" eq_refl eq_refl) as (_ & Hother).
  destruct (Hmonthly eq_refl) as (Hn & Hc).
  destruct (Hother eq_refl eq_refl) as (Hn' & Hc').
  repeat split; assumption.
Defined.

(** C5 on a prompt answered No and on a prompt answered Yes. *)
Lemma declined_build_raises_nothing_witness :
  let call choice :=
    runClientSideBuild exampleConstants exampleSettings "/tmp/originalCopy" "a1"
      (exampleBuildEnv (Some choice)) exampleWorld in
  clientSideBuildSelection exampleSettings = "Verify Each Iteration"%string
  /\ waitingSeen (exampleBuildEnv (Some "No"%string)) = false
  /\ In (EStopTransformByQ "job-1") (events (call "No"%string))
  /\ filter isSpawn (events (call "No"%string)) = []
  /\ outcome (call "No"%string)
     = Returned (Threw (Error "Cannot perform intermediate client-side build since intermediate verification prompt was rejected"))
  /\ filter isSpawn (events (call "Yes"%string))
     = [ESpawn "mvn" ["test"%string] "/tmp/originalCopy" "/opt/jdk17"].
Proof.
  cbv zeta.
  split; [ reflexivity | ]. split; [ reflexivity | ].
  destruct (declined_build_raises_nothing exampleConstants exampleSettings
              "/tmp/originalCopy" "a1" (exampleBuildEnv (Some "No"%string))
              exampleWorld eq_refl eq_refl) as (Hno & _).
  destruct (declined_build_raises_nothing exampleConstants exampleSettings
              "/tmp/originalCopy" "a1" (exampleBuildEnv (Some "Yes"%string))
              exampleWorld eq_refl eq_refl) as (_ & Hyes).
  destruct (Hno eq_refl) as (Hstop & Hspawn & Hthrow & _).
  split; [ exact Hstop | ]. split; [ exact Hspawn | ].
  split; [ apply Hthrow; reflexivity | ].
  apply Hyes; [ reflexivity | discriminate ].
Defined.

(** C6 on an archive above the ceiling and on one within it. *)
Lemma zipCode_size_limit_witness :
  neverCancelled 0%nat = false
  /\ writeLogsAnswer (exampleZipEnv 3000000000) = Resolves "/tmp/build-logs.txt"%string
  /\ uploadZipSizeLimitInBytes exampleConstants < 3000000000
  /\ outcome (zipCode exampleConstants neverCancelled exampleSettings exampleZipParams
                (exampleZipEnv 3000000000) exampleWorld)
     = Threw ZipExceedsSizeLimitError
  /\ outcome (zipCode exampleConstants neverCancelled exampleSettings exampleZipParams
                (exampleZipEnv 1000000) exampleWorld)
     = Returned "/tmp/zipped-code.zip"%string.
Proof.
  split; [ reflexivity | ]. split; [ reflexivity | ]. split; [ reflexivity | ].
  split.
  - apply (zipCode_size_limit exampleConstants neverCancelled exampleSettings
             exampleZipParams (exampleZipEnv 3000000000) exampleWorld
             "/tmp/build-logs.txt" eq_refl eq_refl eq_refl eq_refl eq_refl).
    reflexivity.
  - apply (zipCode_size_limit exampleConstants neverCancelled exampleSettings
             exampleZipParams (exampleZipEnv 1000000) exampleWorld
             "/tmp/build-logs.txt" eq_refl eq_refl eq_refl eq_refl eq_refl).
    discriminate.
Defined.

(** C7 as stated fails: a packaging that is not cancelled reads the flag
    three times, not four, and a cancelled one does not throw the stopped
    error itself. *)
Lemma zipCode_cancellation_counterexample :
  count isCancelCheck
    (events (zipCode exampleConstants neverCancelled exampleSettings
               exampleZipParams (exampleZipEnv 1000000) exampleWorld)) = 3%nat
  /\ outcome (zipCode exampleConstants (fun _ => true) exampleSettings
                exampleZipParams (exampleZipEnv 1000000) exampleWorld)
     = Threw (Error "Failed to zip project due to: Transform by Q stopped by user.")
  /\ outcome (zipCode exampleConstants (fun _ => true) exampleSettings
                exampleZipParams (exampleZipEnv 1000000) exampleWorld)
     <> Threw TransformByQStoppedError.
Proof. split; [ reflexivity | ]. split; [ reflexivity | discriminate ]. Qed.

(** C8 on two folders without Java files, one of them with a Maven
    descriptor. *)
Lemma validate_without_java_files_witness :
  (forall project, In project exampleProjects ->
                   javaFiles exampleWorkspace (projectDir project) = [])
  /\ outcome (validateOpenProjects exampleConstants exampleWorkspace exampleProjects
                false exampleWorld)
     = Threw NoJavaProjectsFoundError.
Proof.
  split; [ intros project _; reflexivity | ].
  destruct (validate_without_java_files exampleConstants exampleWorkspace
              exampleProjects false exampleWorld) as (H & _).
  - intros project _. reflexivity.
  - rewrite H. reflexivity.
Defined.

(** C9 as stated fails: an empty list of folders is listed as an empty list
    of projects. *)
Lemma open_projects_empty_counterexample :
  outcome (getOpenProjects (Some []) exampleWorld) = Returned []
  /\ outcome (getOpenProjects (Some []) exampleWorld) <> Threw NoOpenProjectsError.
Proof. split; [ reflexivity | discriminate ]. Qed.

(** * Further properties *)

(** ** Lists and strings *)

Lemma find_first {A} (p : A -> bool) l x :
  find p l = Some x ->
  exists earlier later,
    l = earlier ++ x :: later
    /\ forallb (fun y => negb (p y)) earlier = true
    /\ p x = true.
Proof.
  induction l as [|y l IH]; [ discriminate | ].
  simpl. destruct (p y) eqn:E.
  - intros [= <-]. exists [], l. auto.
  - intros H. destruct (IH H) as (earlier & later & -> & Hn & Hx).
    exists (y :: earlier), later. simpl. rewrite E. auto.
Qed.

Lemma find_nowhere {A} (p : A -> bool) l :
  find p l = None -> forallb (fun y => negb (p y)) l = true.
Proof.
  induction l as [|y l IH]; [ reflexivity | ].
  simpl. destruct (p y); [ discriminate | auto ].
Qed.

Lemma upToFirst_found (works : string -> bool) l x :
  find works l = Some x ->
  exists earlier later,
    l = earlier ++ x :: later
    /\ works x = true
    /\ forallb (fun e => negb (works e)) earlier = true
    /\ upToFirst works l = earlier ++ [x].
Proof.
  induction l as [|e rest IH]; [ discriminate | ].
  cbn [find upToFirst]. destruct (works e) eqn:E.
  - intros [= <-]. exists [], rest. auto.
  - intros H. destruct (IH H) as (earlier & later & -> & Hw & Hn & Hu).
    exists (e :: earlier), later. cbn. rewrite E, Hu. auto.
Qed.

Lemma includes_app_r a b sub :
  includes b sub = true -> includes (a ++ b)%string sub = true.
Proof.
  intros H. induction a as [|c a IH]; [ exact H | ].
  cbn [String.append includes]. rewrite IH.
  destruct (String.prefix sub _); reflexivity.
Qed.

Lemma lookup_assign {V} key (value : V) object :
  lookup key (assign key value object) = Some value.
Proof.
  induction object as [|[k v] rest IH]; cbn.
  - rewrite String.eqb_refl. reflexivity.
  - destruct (String.eqb k key) eqn:E; cbn.
    + rewrite String.eqb_refl. reflexivity.
    + rewrite E. exact IH.
Qed.

Lemma clientInstructions_match {A} (t : option string) (a b : A) :
  match t with
  | Some "CLIENT_INSTRUCTIONS" => a
  | _ => b
  end = if isClientInstructions t then a else b.
Proof.
  destruct t as [s|]; [ | reflexivity ].
  unfold isClientInstructions.
  destruct (String.eqb_spec s "CLIENT_INSTRUCTIONS") as [->|Hn]; [ reflexivity | ].
  repeat (destruct s as [|[[] [] [] [] [] [] [] []] s]; try reflexivity).
  congruence.
Qed.

(** ** Running a computation, each part once *)

Lemma yields_bind_cases {A B} (m : M A) (k : A -> M B) w o1 w1 e1 o w2 evs :
  yields m w o1 w1 e1 ->
  match o1 with
  | Returned a => exists e2, yields (k a) w1 o w2 e2 /\ evs = e1 ++ e2
  | Threw e => o = Threw e /\ w2 = w1 /\ evs = e1
  | Blocked => o = Blocked /\ w2 = w1 /\ evs = e1
  end ->
  yields (bind m k) w o w2 evs.
Proof.
  unfold yields, bind. intros ->. cbn.
  destruct o1 as [a|e|].
  - intros (e2 & -> & ->). reflexivity.
  - intros (-> & -> & ->). reflexivity.
  - intros (-> & -> & ->). reflexivity.
Qed.

Lemma yields_tryCatch_cases {A} (m : M A) (h : Err -> M A) w o1 w1 e1 o w2 evs :
  yields m w o1 w1 e1 ->
  match o1 with
  | Threw e => exists e2, yields (h e) w1 o w2 e2 /\ evs = e1 ++ e2
  | _ => o = o1 /\ w2 = w1 /\ evs = e1
  end ->
  yields (tryCatch m h) w o w2 evs.
Proof.
  unfold yields, tryCatch. intros ->. cbn.
  destruct o1 as [a|e|].
  - intros (-> & -> & ->). reflexivity.
  - intros (e2 & -> & ->). reflexivity.
  - intros (-> & -> & ->). reflexivity.
Qed.

Lemma recordFailureReason_outcome C response w :
  outcome (recordFailureReason C response w) = Returned tt.
Proof.
  destruct (recordFailureReason_yields C response w) as (w' & Hy & _).
  apply yields_inj in Hy. apply Hy.
Qed.

Create HintDb runs.
Create Rewrite HintDb outcomes.
Hint Rewrite recordFailureReason_outcome : outcomes.

(** Rewrites a computation with the equations at hand. *)
Ltac use_equations :=
  repeat match goal with
         | H : ?l = _ |- yields ?m _ _ _ _ =>
             match m with context [l] => rewrite H end
         end.

Ltac simpl_projections :=
  cbn [fst snd IsWaitingForClientAction IsTransformationCompleted
       ClientInstructionArtifactId].

(** Decides the tests of a goal with the equations at hand. *)
Ltac decide_tests :=
  cbv beta iota zeta;
  repeat (progress
            (repeat match goal with
                    | H : ?l = _ |- ?g => match g with context [l] => rewrite H end
                    end;
             autorewrite with outcomes;
             simpl_projections; cbv beta iota zeta)).

(** Runs a computation step by step; what a part yields decides how the
    run goes on. *)
Ltac run :=
  lazymatch goal with
  | |- yields (ret _) _ _ _ _ => apply yields_ret
  | |- yields (throw _) _ _ _ _ => apply yields_throw
  | |- yields (emit _) _ _ _ _ => apply yields_emit
  | |- yields (sleep _) _ _ _ _ => apply yields_emit
  | |- yields (modify _) _ _ _ _ => apply yields_modify
  | |- yields getJob _ _ _ _ => apply yields_getJob
  | |- yields (await (Resolves _)) _ _ _ _ => apply yields_await_resolves
  | |- yields (await (Rejects _)) _ _ _ _ => apply yields_await_rejects
  | |- yields (await ?a) _ _ _ _ =>
      match goal with H : a = _ |- _ => rewrite H end; run
  | |- yields (throwIfCancelled _) _ _ _ _ =>
      first [ apply yields_throwIfCancelled_false;
              cbn [cancelReads afterCancelRead onJob]; assumption
            | apply yields_throwIfCancelled_true;
              cbn [cancelReads afterCancelRead onJob]; assumption ]
  | |- yields (tryFinally _ _) _ _ _ _ =>
      eapply yields_tryFinally; [ run | run | reflexivity ]
  | |- yields (when false _) _ _ _ _ => apply yields_when_false
  | |- yields (when true _) _ _ _ _ => apply yields_when_true; run
  | |- yields (when ?b _) _ _ _ _ =>
      first [ progress use_tests
            | let b' := eval cbn in b in progress (change b with b'; use_tests) ];
      cbn [negb andb orb]; run
  | |- yields (bind _ _) _ _ _ _ =>
      eapply yields_bind_cases;
      [ run
      | decide_tests;
        lazymatch goal with
        | |- exists _, _ => eexists; split; [ run | reflexivity ]
        | |- _ /\ _ => split; [ reflexivity | split; reflexivity ]
        end ]
  | |- yields (tryCatch _ _) _ _ _ _ =>
      eapply yields_tryCatch_cases;
      [ run
      | decide_tests;
        lazymatch goal with
        | |- exists _, _ => eexists; split; [ run | reflexivity ]
        | |- _ /\ _ => split; [ reflexivity | split; reflexivity ]
        end ]
  | |- yields (if true then _ else _) _ _ _ _ => cbv iota; run
  | |- yields (if false then _ else _) _ _ _ _ => cbv iota; run
  | |- yields (if ?b then _ else _) _ _ _ _ =>
      first [ progress use_tests | progress simpl_projections ];
      cbv iota; run
  | |- yields (let _ := _ in _) _ _ _ _ => cbv zeta; run
  | |- yields (match ?x with _ => _ end) _ _ _ _ =>
      progress (use_equations; simpl_projections; cbv iota beta);
      run
  | |- _ =>
      use_equations;
      first [ eassumption
            | eapply yields_outcome; eassumption
            | solve [ eauto with runs ]
            | apply yields_run ]
  end.

(** Runs the computation whose events the goal mentions, after [unfolding],
    and keeps what it yields as [Ho], [Hf] and [He]. *)
Ltac run_goal unfolding :=
  match goal with
  | |- context [events (?m ?w)] =>
      let H := fresh "Hrun" in
      eassert (H : yields m w _ _ _) by (unfolding; run);
      apply yields_inj in H;
      destruct H as (Ho & Hf & He)
  | |- context [outcome (?m ?w)] =>
      let H := fresh "Hrun" in
      eassert (H : yields m w _ _ _) by (unfolding; run);
      apply yields_inj in H;
      destruct H as (Ho & Hf & He)
  end.

(** ** What follows a cancellation *)

Section Cancellation.

Lemma stops_silent {A} (m : M A) : silent isCancelCheck m -> stopsWhenCancelled m.
Proof.
  intros Hs w before after He. specialize (Hs w).
  rewrite He, filter_app in Hs. cbn in Hs.
  apply app_eq_nil in Hs as (_ & Hs). discriminate.
Qed.

Lemma stops_throwIfCancelled cancelledAt :
  stopsWhenCancelled (throwIfCancelled cancelledAt).
Proof.
  intros w before after. cbn.
  destruct before as [|e [|e' before]]; cbn; intros [= H1 H2]; try discriminate.
  subst. rewrite H1. auto.
Qed.

Lemma stops_bind {A B} (m : M A) (k : A -> M B) :
  stopsWhenCancelled m -> (forall a, stopsWhenCancelled (k a)) ->
  stopsWhenCancelled (bind m k).
Proof.
  intros Hm Hk w before after. rewrite bind_events, bind_outcome.
  destruct (outcome (m w)) as [a|e|] eqn:Eo.
  - intros He. apply app_eq_app in He as (l & [(H1 & H2)|(H1 & H2)]).
    + destruct l as [|x l].
      * cbn in H2. apply (Hk a (final (m w)) [] after). symmetry. exact H2.
      * cbn in H2. injection H2 as <- ->.
        destruct (Hm w _ _ H1) as (Ho & _). congruence.
    + apply (Hk a (final (m w)) l after). exact H2.
  - rewrite app_nil_r. intros He. destruct (Hm w _ _ He) as (Ho & Ha).
    rewrite Eo in Ho. injection Ho as ->. split; [ reflexivity | exact Ha ].
  - rewrite app_nil_r. intros He. destruct (Hm w _ _ He) as (Ho & Ha).
    rewrite Eo in Ho. discriminate.
Qed.

Lemma stops_when b (m : M unit) :
  stopsWhenCancelled m -> stopsWhenCancelled (when b m).
Proof.
  destruct b; [ auto | ]. intros _. apply stops_silent, silent_ret.
Qed.

(** A handler that logs and throws the error again. *)
Lemma stops_tryCatch {A} (m : M A) (h : Err -> M A) :
  stopsWhenCancelled m ->
  (forall e w, outcome (h e w) = Threw e
               /\ forallb isErrorLog (events (h e w)) = true) ->
  stopsWhenCancelled (tryCatch m h).
Proof.
  intros Hm Hh w before after. rewrite tryCatch_events, tryCatch_outcome.
  destruct (outcome (m w)) as [a|e|] eqn:Eo.
  - rewrite app_nil_r. intros He. destruct (Hm w _ _ He) as (Ho & Ha).
    rewrite Eo in Ho. discriminate.
  - destruct (Hh e (final (m w))) as (Hho & Hhe). rewrite Hho.
    intros He. apply app_eq_app in He as (l & [(H1 & H2)|(H1 & H2)]).
    + destruct l as [|x l].
      * cbn in H2. rewrite <- H2 in Hhe. discriminate.
      * cbn in H2. injection H2 as <- ->.
        destruct (Hm w _ _ H1) as (Ho & Ha). rewrite Eo in Ho.
        split; [ exact Ho | ]. rewrite forallb_app, Ha, Hhe. reflexivity.
    + rewrite H2, forallb_app in Hhe. cbn in Hhe.
      rewrite andb_false_r in Hhe. discriminate.
  - rewrite app_nil_r. intros He. destruct (Hm w _ _ He) as (Ho & Ha).
    rewrite Eo in Ho. discriminate.
Qed.

End Cancellation.

(** ** The artifact a plan offers *)

(** X1: [findDownloadArtifactStep] answers with the first progress update,
    in the order of the steps and of their updates, that carries an artifact
    type or, while it awaits a client action, an artifact id, together with
    the step that holds it; it answers with neither a step nor an update
    exactly when no update of any step passes this test, and never with one
    of the two alone. *)
Theorem findDownloadArtifactStep_first steps :
  match findDownloadArtifactStep steps with
  | (Some step, Some update) =>
      exists before after earlier later,
        steps = before ++ step :: after
        /\ forallb offersNoArtifact before = true
        /\ progressUpdates step = Some (earlier ++ update :: later)
        /\ forallb (fun u => negb (hasDownloadArtifact u)) earlier = true
        /\ hasDownloadArtifact update = true
  | (None, None) => forallb offersNoArtifact steps = true
  | _ => False
  end.
Proof.
  induction steps as [|step steps IH]; [ reflexivity | ].
  simpl. unfold offersNoArtifact at 2. unfold updatesOf.
  destruct (progressUpdates step) as [updates|] eqn:Eu.
  - destruct (find hasDownloadArtifact updates) as [u|] eqn:Ef.
    + destruct (find_first _ _ _ Ef) as (earlier & later & -> & Hn & Hx).
      exists [], steps, earlier, later. auto.
    + apply find_nowhere in Ef.
      destruct (findDownloadArtifactStep steps) as [[s|] [u|]]; auto.
      * destruct IH as (before & after & earlier & later & -> & Hb & Hs & He & Hu).
        exists (step :: before), after, earlier, later.
        simpl. unfold offersNoArtifact at 1. unfold updatesOf. rewrite Eu, Ef. auto.
      * simpl. rewrite Ef. exact IH.
  - destruct (findDownloadArtifactStep steps) as [[s|] [u|]]; auto.
    destruct IH as (before & after & earlier & later & -> & Hb & Hs & He & Hu).
    exists (step :: before), after, earlier, later.
    simpl. unfold offersNoArtifact at 1. unfold updatesOf. rewrite Eu. auto.
Qed.

Section Further.

Variable C : Constants.
Variable cancelledAt : nat -> bool.

(** ** The client-side build round *)

Lemma getClientInstructionArtifactId_rejected job_id e w :
  yields (getClientInstructionArtifactId C job_id (Rejects e)) w (Threw e) w
    [ESleep (pollingIntervalMs C); EGetTransformationPlan job_id;
     ELogError ("CodeTransformation: GetTransformationPlan error = " ++ message C e)].
Proof. reflexivity. Qed.

Lemma getClientInstructionArtifactId_resolved job_id plan w :
  yields (getClientInstructionArtifactId C job_id (Resolves plan)) w
    match snd (findDownloadArtifactStep (transformationSteps plan)) with
    | Some update =>
        if String.eqb (updateStatus update) "AWAITING_CLIENT_ACTION" then
          if isClientInstructions (artifactType (firstArtifact update)) then
            Returned (Some {| IsTransformationCompleted := false;
                              IsWaitingForClientAction := true;
                              ClientInstructionArtifactId :=
                                artifactId (firstArtifact update) |})
          else
            Threw (Error ("Received unexpected downloadArtifactType: "
                          ++ showOpt (artifactType (firstArtifact update))
                          ++ "for jobId: " ++ job_id))
        else Returned None
    | None => Returned None
    end
    (if truthy (planRequestId plan)
     then onJob (withJobFailureMetadata (requestIdMetadata (planRequestId plan))) w
     else w)
    [ESleep (pollingIntervalMs C); EGetTransformationPlan job_id].
Proof.
  unfold getClientInstructionArtifactId.
  destruct (truthy (planRequestId plan)) eqn:Er.
  all: eapply yields_bind; [ run | | reflexivity ].
  all: eapply yields_bind_cases; [ unfold getTransformationSteps; run | ].
  all: cbv beta iota; exists []; split; [ | reflexivity ].
  all: destruct (snd (findDownloadArtifactStep (transformationSteps plan)))
         as [update|]; [ | reflexivity ].
  all: destruct (String.eqb (updateStatus update) "AWAITING_CLIENT_ACTION");
         [ | reflexivity ].
  all: cbv zeta; rewrite clientInstructions_match.
  all: destruct (isClientInstructions _); reflexivity.
Qed.

Hint Resolve getClientInstructionArtifactId_rejected
  getClientInstructionArtifactId_resolved : runs.

Lemma silent_getClientInstructionArtifactId p job_id answer :
  (forall ms, p (ESleep ms) = false) ->
  (forall id, p (EGetTransformationPlan id) = false) ->
  (forall msg, p (ELogError msg) = false) ->
  silent p (getClientInstructionArtifactId C job_id answer).
Proof.
  intros Hs Hg Hl w. destruct answer as [plan|e].
  - pose proof (getClientInstructionArtifactId_resolved job_id plan w) as Hy.
    apply yields_inj in Hy as (_ & _ & ->). cbn. rewrite Hs, Hg. reflexivity.
  - pose proof (getClientInstructionArtifactId_rejected job_id e w) as Hy.
    apply yields_inj in Hy as (_ & _ & ->). cbn. rewrite Hs, Hg, Hl. reflexivity.
Qed.

Ltac client_round :=
  unfold processAwaitingClientActionStatus,
    extractClientInstructions, processClientInstructions.

(** X2: a client-side build round downloads client instructions only when
    the cancellation flag is clear, the plan could be fetched, and the first
    progress update of the plan that offers an artifact awaits a client
    action with an artifact of type CLIENT_INSTRUCTIONS and a non-empty id;
    the instructions requested are those of that artifact, for the job of
    the round. *)
Theorem client_instructions_requested job_id round w job_id' artifact :
  In (EExtractClientInstructions job_id' artifact)
     (events (processAwaitingClientActionStatus C cancelledAt job_id round w)) ->
  cancelledAt (cancelReads w) = false
  /\ exists plan update,
       planAnswer round = Resolves plan
       /\ snd (findDownloadArtifactStep (transformationSteps plan)) = Some update
       /\ updateStatus update = "AWAITING_CLIENT_ACTION"%string
       /\ artifactType (firstArtifact update) = Some "CLIENT_INSTRUCTIONS"%string
       /\ artifactId (firstArtifact update) = Some artifact
       /\ artifact <> ""%string
       /\ job_id' = job_id.
Proof.
  destruct (cancelledAt (cancelReads w)) eqn:Ec.
  { run_goal ltac:(client_round). rewrite He. simpl. intuition discriminate. }
  destruct (planAnswer round) as [plan|e] eqn:Ep.
  2:{ run_goal ltac:(client_round). rewrite He. simpl. intuition discriminate. }
  destruct (snd (findDownloadArtifactStep (transformationSteps plan)))
    as [update|] eqn:Ef.
  2:{ run_goal ltac:(client_round). rewrite He. simpl. intuition discriminate. }
  destruct (String.eqb (updateStatus update) "AWAITING_CLIENT_ACTION") eqn:Es.
  2:{ run_goal ltac:(client_round). rewrite He. simpl. intuition discriminate. }
  destruct (isClientInstructions (artifactType (firstArtifact update))) eqn:Et.
  2:{ run_goal ltac:(client_round). rewrite He. simpl. intuition discriminate. }
  destruct (artifactId (firstArtifact update)) as [a|] eqn:Ea.
  2:{ run_goal ltac:(client_round). rewrite He. simpl. intuition discriminate. }
  destruct (truthy a) eqn:Eta.
  2:{ run_goal ltac:(client_round). rewrite He. simpl. intuition discriminate. }
  destruct (extractAnswer round) as [instructions|e] eqn:Ex.
  all: destruct (patchAnswer round) as [[]|e'] eqn:Epa.
  all: run_goal ltac:(client_round); rewrite He; simpl.
  all: intros H; split; [ reflexivity | ].
  all: exists plan, update.
  all: assert (Hx : EExtractClientInstructions job_id a
                    = EExtractClientInstructions job_id' artifact)
         by intuition discriminate.
  all: injection Hx as <- <-.
  all: apply String.eqb_eq in Es.
  all: unfold isClientInstructions in Et.
  all: destruct (artifactType (firstArtifact update)) as [t|]; [ | discriminate ].
  all: apply String.eqb_eq in Et; subst t.
  all: repeat (split; [ reflexivity || assumption | ]).
  all: split; [ | reflexivity ].
  all: intros ->; discriminate.
Qed.

(** X3: a client-side build round fails in six ways and no other: with the
    stopped error when the cancellation flag is set at its start; with the
    error of the plan request, unchanged; with the error for an unexpected
    artifact type; with the error for a missing artifact id; with the error
    of the download of the instructions, unchanged; and, when the patch
    cannot be copied, applied or shown, with "process client instructions
    failed: " followed by that error as a string. *)
Theorem client_round_failures job_id round w e :
  outcome (processAwaitingClientActionStatus C cancelledAt job_id round w) = Threw e ->
  (e = TransformByQStoppedError /\ cancelledAt (cancelReads w) = true)
  \/ planAnswer round = Rejects e
  \/ (exists t, e = Error ("Received unexpected downloadArtifactType: " ++ t
                           ++ "for jobId: " ++ job_id)%string)
  \/ e = Error "Failed to get client instruction artifact ID"
  \/ extractAnswer round = Rejects e
  \/ (exists e', patchAnswer round = Rejects e'
                 /\ e = Error ("process client instructions failed: "
                               ++ render C e')%string).
Proof.
  destruct (cancelledAt (cancelReads w)) eqn:Ec.
  { run_goal ltac:(client_round). rewrite Ho. intros [= <-]. auto. }
  destruct (planAnswer round) as [plan|e0] eqn:Ep.
  2:{ run_goal ltac:(client_round). rewrite Ho. intros [= <-]. auto. }
  destruct (snd (findDownloadArtifactStep (transformationSteps plan)))
    as [update|] eqn:Ef.
  2:{ run_goal ltac:(client_round). rewrite Ho. discriminate. }
  destruct (String.eqb (updateStatus update) "AWAITING_CLIENT_ACTION") eqn:Es.
  2:{ run_goal ltac:(client_round). rewrite Ho. discriminate. }
  destruct (isClientInstructions (artifactType (firstArtifact update))) eqn:Et.
  2:{ run_goal ltac:(client_round). rewrite Ho. intros [= <-].
      right. right. left. eexists. reflexivity. }
  destruct (artifactId (firstArtifact update)) as [a|] eqn:Ea.
  2:{ run_goal ltac:(client_round). rewrite Ho. intros [= <-]. auto 10. }
  destruct (truthy a) eqn:Eta.
  2:{ run_goal ltac:(client_round). rewrite Ho. intros [= <-]. auto 10. }
  destruct (extractAnswer round) as [instructions|e1] eqn:Ex.
  2:{ run_goal ltac:(client_round). rewrite Ho. intros [= <-]. auto 10. }
  destruct (patchAnswer round) as [[]|e2] eqn:Epa.
  { run_goal ltac:(client_round). rewrite Ho. discriminate. }
  run_goal ltac:(client_round). rewrite Ho. intros [= <-].
  right. right. right. right. right. exists e2. auto.
Qed.

(** ** The poll loop *)

Lemma stops_processAwaitingClientActionStatus job_id round :
  stopsWhenCancelled (processAwaitingClientActionStatus C cancelledAt job_id round).
Proof.
  unfold processAwaitingClientActionStatus.
  apply stops_bind; [ apply stops_silent, silent_emit; reflexivity | intros _ ].
  apply stops_bind; [ apply stops_throwIfCancelled | intros _ ].
  apply stops_silent.
  apply silent_bind; [ apply silent_emit; reflexivity | intros _ ].
  apply silent_bind;
    [ apply silent_getClientInstructionArtifactId; reflexivity | intros ts ].
  unfold extractClientInstructions, processClientInstructions, sleep.
  along_structure.
Qed.

Lemma stops_actOnStatus job_id validStates round response timer :
  stopsWhenCancelled (actOnStatus C cancelledAt job_id validStates round response timer).
Proof.
  unfold actOnStatus.
  destruct (arrayIncludes validStates (status response));
    [ apply stops_silent, silent_ret | ].
  apply stops_bind.
  - apply stops_when, stops_bind;
      [ apply stops_silent, silent_emit; reflexivity | intros _ ].
    apply stops_processAwaitingClientActionStatus.
  - intros _. apply stops_silent. unfold sleep. along_structure.
Qed.

Lemma stops_pollIteration job_id validStates round timer :
  stopsWhenCancelled (pollIteration C cancelledAt job_id validStates round timer).
Proof.
  unfold pollIteration, pollIterationBody.
  apply stops_tryCatch; [ | intros e w; split; reflexivity ].
  apply stops_bind; [ | intros response; apply stops_actOnStatus ].
  apply stops_silent. unfold observeStatus, recordFailureReason.
  along_structure.
Qed.

Lemma stops_pollLoop job_id validStates rounds timer :
  stopsWhenCancelled (pollLoop C cancelledAt job_id validStates rounds timer).
Proof.
  revert timer. induction rounds as [|round rest IH]; intros timer.
  - apply stops_silent, silent_blocked.
  - cbn [pollLoop].
    apply stops_bind; [ apply stops_throwIfCancelled | intros _ ].
    apply stops_bind; [ apply stops_pollIteration | intros [s|t] ].
    + apply stops_silent, silent_ret.
    + apply IH.
Qed.

(** X4: in every run of the poll, once a read of the cancellation flag sees
    it set, the run ends with the stopped error and nothing follows the read
    but error logs: no status is fetched, no plan, no sleep, no client-side
    build step. *)
Theorem poll_stops_when_cancelled job_id validStates rounds w before after :
  events (pollTransformationJob C cancelledAt job_id validStates rounds w)
  = before ++ EIsCancelled true :: after ->
  outcome (pollTransformationJob C cancelledAt job_id validStates rounds w)
  = Threw TransformByQStoppedError
  /\ forallb isErrorLog after = true.
Proof. apply stops_pollLoop. Qed.


(** *** How the loop returns *)

Lemma pollLoop_final job_id validStates round rest timer w :
  final (pollLoop C cancelledAt job_id validStates (round :: rest) timer w) =
  if cancelledAt (cancelReads w) then afterCancelRead w
  else
    let it := pollIteration C cancelledAt job_id validStates round timer
                (afterCancelRead w) in
    match outcome it with
    | Returned (Continue t) =>
        final (pollLoop C cancelledAt job_id validStates rest t (final it))
    | _ => final it
    end.
Proof.
  cbn [pollLoop]. rewrite bind_final. cbn.
  destruct (cancelledAt (cancelReads w)); [ reflexivity | ].
  rewrite bind_final. fold (afterCancelRead w).
  destruct (outcome _) as [[s|t]| |]; reflexivity.
Qed.

Lemma actOnStatus_break_state job_id validStates round response timer w s :
  outcome (actOnStatus C cancelledAt job_id validStates round response timer w)
  = Returned (Break s) ->
  (arrayIncludes validStates s = true
   /\ final (actOnStatus C cancelledAt job_id validStates round response timer w) = w)
  \/ (arrayIncludes validStates s = false
      /\ arrayIncludes (pausedStates C) s = true
      /\ polledJobStatus
           (job (final (actOnStatus C cancelledAt job_id validStates round
                          response timer w)))
         = waitingUserInput C).
Proof.
  unfold actOnStatus.
  destruct (arrayIncludes validStates (status response)) eqn:Ev.
  - cbn. intros [= <-]. auto.
  - rewrite bind_outcome, bind_final. destruct (outcome _); try discriminate.
    destruct (arrayIncludes (pausedStates C) (status response)) eqn:Ep.
    + cbn. intros [= <-]. auto.
    + destruct (arrayIncludes (failureStates C) (status response)).
      * cbn. discriminate.
      * cbn. destruct (_ >? _); discriminate.
Qed.

Lemma pollLoop_returns job_id validStates rounds timer w s :
  let run := pollLoop C cancelledAt job_id validStates rounds timer w in
  outcome run = Returned s ->
  (exists earlier, observedStatuses (events run) = earlier ++ [s])
  /\ ((arrayIncludes validStates s = true
       /\ polledJobStatus (job (final run)) = s)
      \/ (arrayIncludes validStates s = false
          /\ arrayIncludes (pausedStates C) s = true
          /\ polledJobStatus (job (final run)) = waitingUserInput C)).
Proof.
  cbv zeta. revert timer w.
  induction rounds as [|round rest IH]; intros timer w; [ discriminate | ].
  rewrite pollLoop_outcome, pollLoop_final, pollLoop_events.
  destruct (cancelledAt (cancelReads w)); [ discriminate | ]. cbv zeta.
  destruct (pollIteration_summary C cancelledAt job_id validStates round timer
              (afterCancelRead w)) as (Hobs & _).
  change (EIsCancelled false :: ?l) with ([EIsCancelled false] ++ l).
  rewrite !observedStatuses_app, Hobs. cbn [observedStatuses flat_map app].
  destruct (outcome (pollIteration C cancelledAt job_id validStates round timer
                       (afterCancelRead w))) as [[s'|t]| |] eqn:Eo;
    try discriminate.
  - intros [= ->].
    unfold roundStatus.
    destruct (getTransformation round) as [response|e] eqn:E.
    + destruct (pollIteration_resolved C cancelledAt job_id validStates round timer
                  (afterCancelRead w) response E)
        as (w' & Hp & _ & _ & Ho & Hf & _).
      rewrite Eo in Ho. symmetry in Ho.
      destruct (actOnStatus_break _ _ _ _ _ _ _ _ _ Ho) as (-> & _).
      split; [ exists []; rewrite app_nil_r; reflexivity | ].
      rewrite Hf.
      destruct (actOnStatus_break_state _ _ _ _ _ _ _ Ho) as [(Hv & ->)|(Hv & Hpa & Hw)];
        auto.
    + pose proof (pollIteration_rejected C cancelledAt job_id validStates round timer
                    (afterCancelRead w) e E) as Hy.
      apply yields_inj in Hy as (Hy & _). congruence.
  - intros H. destruct (IH _ _ H) as ((earlier & He) & Hor).
    split; [ | exact Hor ].
    rewrite He. eexists. rewrite app_assoc. reflexivity.
Qed.

(** X5: when the poll returns a status, that status is the last one
    observed, and either it is one of the caller's valid states, and the
    polled status kept in the session is this status, or it is a paused
    state that is not valid for the caller, and the polled status kept in
    the session is the waiting-for-user-input status. *)
Theorem poll_returns job_id validStates rounds w s :
  let run := pollTransformationJob C cancelledAt job_id validStates rounds w in
  outcome run = Returned s ->
  (exists earlier, observedStatuses (events run) = earlier ++ [s])
  /\ ((arrayIncludes validStates s = true
       /\ polledJobStatus (job (final run)) = s)
      \/ (arrayIncludes validStates s = false
          /\ arrayIncludes (pausedStates C) s = true
          /\ polledJobStatus (job (final run)) = waitingUserInput C)).
Proof. apply pollLoop_returns. Qed.

(** *** How the loop fails *)

(** X6: when the request for the job status fails in the first iteration,
    the poll throws the error of the request, unchanged, after logging it
    once; the request is not repeated and the job state is left as it
    was. *)
Theorem poll_fetch_rejected job_id validStates round rest w e :
  cancelledAt (cancelReads w) = false ->
  getTransformation round = Rejects e ->
  pollTransformationJob C cancelledAt job_id validStates (round :: rest) w
  = {| outcome := Threw e;
       final := afterCancelRead w;
       events := [EIsCancelled false; EGetTransformation job_id;
                  pollErrorLog C e (job w)] |}.
Proof.
  intros Hc Hr.
  pose proof (pollIteration_rejected C cancelledAt job_id validStates round 0
                (afterCancelRead w) e Hr) as Hit.
  unfold pollTransformationJob. cbn [pollLoop].
  change (yields (throwIfCancelled cancelledAt ;;
                  step <- pollIteration C cancelledAt job_id validStates round 0 ;;
                  match step with
                  | Break status => ret status
                  | Continue timer => pollLoop C cancelledAt job_id validStates rest timer
                  end) w (Threw e) (afterCancelRead w)
            [EIsCancelled false; EGetTransformation job_id;
             pollErrorLog C e (job w)]).
  run.
Qed.

(** X7: when the status fetched is a failure state that is neither valid
    for the caller nor a paused state (and the client-side build round, if
    the status opens one, goes through), the poll throws [JobStoppedError]
    with the request id of the response, the failure metadata of the session
    is that request id, no further status is fetched, and the last call is
    the log of the error together with this metadata. *)
Theorem poll_failure_status job_id validStates round rest w response :
  cancelledAt (cancelReads w) = false ->
  getTransformation round = Resolves response ->
  arrayIncludes validStates (status response) = false ->
  arrayIncludes (pausedStates C) (status response) = false ->
  arrayIncludes (failureStates C) (status response) = true ->
  clientActionCompletes C cancelledAt job_id validStates round ->
  let run := pollTransformationJob C cancelledAt job_id validStates (round :: rest) w in
  outcome run = Threw (JobStoppedError (requestId response))
  /\ jobFailureMetadata (job (final run)) = requestIdMetadata (requestId response)
  /\ count isFetch (events run) = 1%nat
  /\ exists before,
       events run
       = before
         ++ [ELogError ("CodeTransformation: GetTransformation error = "
                        ++ "Job was rejected, stopped, or failed" ++ " -- "
                        ++ requestIdMetadata (requestId response))].
Proof.
  intros Hc Hr Hv Hp Hf Hsub. cbv zeta. unfold pollTransformationJob.
  rewrite pollLoop_outcome, pollLoop_final, pollLoop_events, Hc. cbv zeta.
  destruct (pollIteration_summary C cancelledAt job_id validStates round 0
              (afterCancelRead w)) as (_ & _ & Hfetch & _).
  destruct (pollIteration_resolved C cancelledAt job_id validStates round 0
              (afterCancelRead w) response Hr)
    as (w' & _ & _ & _ & Ho & Hfin & He).
  set (sub := when (arrayIncludes (validStatesForPlanGenerated C) (status response)
                    && negb (waitingForAuthorization round))
                (sleep (pollingIntervalMs C) ;;
                 processAwaitingClientActionStatus C cancelledAt job_id
                   (clientAction round))).
  assert (Hsubo : outcome (sub w') = Returned tt).
  { unfold sub.
    destruct (arrayIncludes (validStatesForPlanGenerated C) (status response)
              && negb (waitingForAuthorization round)) eqn:E; [ | reflexivity ].
    unfold when. rewrite bind_outcome. cbn. apply Hsub.
    unfold entersClientAction, roundStatus, clientActionDue.
    rewrite Hr, Hv. exact E. }
  eassert (Hact : yields (actOnStatus C cancelledAt job_id validStates round response 0)
                    w' _ _ _).
  { unfold actOnStatus. fold sub. run. }
  apply yields_inj in Hact as (Hao & Haf & Hae).
  rewrite Hao in Ho, He. rewrite Haf in Hfin, He.
  rewrite Ho, Hfin.
  split; [ reflexivity | ]. split; [ reflexivity | ].
  split.
  - change (EIsCancelled false :: ?l) with ([EIsCancelled false] ++ l).
    rewrite !count_app, Hfetch. reflexivity.
  - rewrite He. eexists.
    change (EIsCancelled false :: ?l) with ([EIsCancelled false] ++ l).
    rewrite app_nil_r, !app_assoc. reflexivity.
Qed.

(** *** The build step of the plan *)

Lemma observeStatus_buildCodeProgress job_id round w :
  buildCodeProgress (job (final (observeStatus C job_id round w)))
  = match roundStatus round with
    | Some s =>
        if arrayIncludes (validStatesForBuildSucceeded C) s then Succeeded
        else buildCodeProgress (job w)
    | None => buildCodeProgress (job w)
    end.
Proof.
  unfold roundStatus.
  destruct (getTransformation round) as [response|e] eqn:E.
  - assert (Hk : forall w0, buildCodeProgress
                              (job (final (recordFailureReason C response w0)))
                            = buildCodeProgress (job w0)).
    { intros w0. unfold recordFailureReason.
      match goal with
      | |- context [final (?m w0)] =>
          assert (Hm : keeps buildCodeProgress m); [ | apply Hm ]
      end.
      along_structure. }
    destruct (arrayIncludes (validStatesForBuildSucceeded C) (status response))
      eqn:Eb.
    all: destruct (String.eqb (status response) (polledJobStatus (job w))) eqn:Es.
    all: eassert (Hy : yields (observeStatus C job_id round) w _ _ _)
           by (unfold observeStatus; run).
    all: apply yields_inj in Hy as (_ & -> & _).
    all: rewrite Hk; reflexivity.
  - pose proof (observeStatus_rejected C job_id round w e E) as Hy.
    apply yields_inj in Hy as (_ & -> & _). reflexivity.
Qed.

Lemma pollIteration_buildCodeProgress job_id validStates round timer w :
  buildCodeProgress
    (job (final (pollIteration C cancelledAt job_id validStates round timer w)))
  = match roundStatus round with
    | Some s =>
        if arrayIncludes (validStatesForBuildSucceeded C) s then Succeeded
        else buildCodeProgress (job w)
    | None => buildCodeProgress (job w)
    end.
Proof.
  rewrite <- observeStatus_buildCodeProgress with (job_id := job_id).
  unfold pollIteration, pollIterationBody.
  rewrite tryCatch_final, bind_outcome, bind_final.
  destruct (outcome (observeStatus C job_id round w)) as [response|e|] eqn:Eo.
  - pose proof (keeps_actOnStatus C cancelledAt buildCodeProgress job_id validStates
                  round response timer (fun _ _ => eq_refl) (fun _ _ => eq_refl)
                  (final (observeStatus C job_id round w))) as Hk.
    destruct (outcome (actOnStatus _ _ _ _ _ _ _ _)); cbn; exact Hk.
  - reflexivity.
  - reflexivity.
Qed.

(** X8: after any run of the poll, the build step of the plan progress is
    [Succeeded] when one of the statuses observed is a build-succeeded
    status, and is what it was before otherwise: the poll never resets
    it. *)
Theorem poll_build_progress job_id validStates rounds w :
  let run := pollTransformationJob C cancelledAt job_id validStates rounds w in
  buildCodeProgress (job (final run))
  = if existsb (arrayIncludes (validStatesForBuildSucceeded C))
         (observedStatuses (events run))
    then Succeeded
    else buildCodeProgress (job w).
Proof.
  cbv zeta. unfold pollTransformationJob. generalize 0 as timer. revert w.
  induction rounds as [|round rest IH]; intros w timer; [ reflexivity | ].
  rewrite pollLoop_final, pollLoop_events.
  change (EIsCancelled ?b :: ?l) with ([EIsCancelled b] ++ l).
  rewrite observedStatuses_app. cbn [observedStatuses flat_map app].
  destruct (cancelledAt (cancelReads w)); [ reflexivity | ]. cbv zeta.
  destruct (pollIteration_summary C cancelledAt job_id validStates round timer
              (afterCancelRead w)) as (Hobs & _).
  pose proof (pollIteration_buildCodeProgress job_id validStates round timer
                (afterCancelRead w)) as Hb.
  rewrite observedStatuses_app, Hobs, existsb_app.
  destruct (outcome _) as [[s|t]| |].
  2: rewrite IH, Hb.
  all: try rewrite Hb.
  all: destruct (roundStatus round) as [s0|]; cbn [existsb orb app observedStatuses flat_map];
    try reflexivity.
  all: destruct (arrayIncludes (validStatesForBuildSucceeded C) s0); cbn;
    try reflexivity.
  all: destruct (existsb _ _); reflexivity.
Qed.

(** ** Packaging *)

Lemma silent_addSourceFiles p module_path files :
  (forall file dir, isExcludedFile file = false -> p (EAddLocalFile file dir) = false) ->
  silent p (addSourceFiles C module_path files).
Proof.
  intros Hp. induction files as [|file rest IH]; [ apply silent_ret | ].
  cbn [addSourceFiles]. apply silent_bind; [ | intros _; exact IH ].
  destruct (fileStatIsDirectory file); [ apply silent_ret | ].
  destruct (isExcludedFile (filePath file)) eqn:E; [ apply silent_ret | ].
  apply silent_emit, Hp, E.
Qed.

Lemma silent_addDependencyFiles p dependencies_path files :
  (forall file dir, isExcludedFile file = false -> p (EAddLocalFile file dir) = false) ->
  silent p (addDependencyFiles C dependencies_path files).
Proof.
  intros Hp. induction files as [|file rest IH]; [ apply silent_ret | ].
  cbn [addDependencyFiles]. apply silent_bind; [ | intros _; exact IH ].
  destruct (isExcludedFile (filePath file)) eqn:E; [ apply silent_ret | ].
  apply silent_emit, Hp, E.
Qed.

Lemma silent_zipSources p params env :
  (forall file dir, isExcludedFile file = false -> p (EAddLocalFile file dir) = false) ->
  silent p (zipSources C params env).
Proof.
  intros Hp. unfold zipSources.
  destruct (modulePath params); [ | apply silent_ret ].
  apply silent_when, silent_addSourceFiles, Hp.
Qed.

Lemma silent_zipDependencies p params env :
  (forall file dir, isExcludedFile file = false -> p (EAddLocalFile file dir) = false) ->
  silent p (zipDependencies C params env).
Proof.
  intros Hp. unfold zipDependencies.
  destruct (dependenciesFolder params); [ | apply silent_ret ]. cbv zeta.
  destruct (if dependenciesExist env then _ else _); [ apply silent_ret | ].
  apply silent_bind; [ | intros _; apply silent_ret ].
  apply silent_addDependencyFiles, Hp.
Qed.

Lemma zipSources_run params env w :
  yields (zipSources C params env) w (Returned tt) w
    (events (zipSources C params env w)).
Proof. apply zipSources_yields. Qed.

Lemma zipDependencies_run params env w :
  yields (zipDependencies C params env) w
    (Returned (match dependenciesFolder params with
               | Some _ =>
                   if listsDependencies C params env then zipManifest params
                   else clearDependenciesRoot (zipManifest params)
               | None => zipManifest params
               end))
    w (events (zipDependencies C params env w)).
Proof.
  destruct (zipDependencies_yields C params env w) as (manifest & Hy & _).
  assert (Hm : outcome (zipDependencies C params env w)
               = Returned (match dependenciesFolder params with
                           | Some _ =>
                               if listsDependencies C params env then zipManifest params
                               else clearDependenciesRoot (zipManifest params)
                           | None => zipManifest params
                           end)).
  { unfold zipDependencies, listsDependencies.
    destruct (dependenciesFolder params) as [folder|]; [ | reflexivity ]. cbv zeta.
    destruct (dependenciesExist env); [ | reflexivity ]. cbn [andb].
    destruct (getFilesRecursively C (folderPath folder) true (dependencyEntries env))
      as [|file files]; [ reflexivity | ].
    rewrite bind_outcome.
    destruct (addDependencyFiles_returns C (folderPath folder) (file :: files) w)
      as (-> & _). reflexivity. }
  apply yields_inj in Hy as (Ho & Hf & He).
  unfold yields. destruct (zipDependencies C params env w) as [o f e].
  cbn in *. subst. injection Hm as <-. reflexivity.
Qed.

Hint Resolve zipSources_run zipDependencies_run : runs.

Ltac packaging := unfold zipCode, zipEntries, zipWrite.

(** X9: no file whose name ends in one of the excluded suffixes
    (.repositories, .sha1, .lock, gc.properties, .dll) is ever handed to the
    archive, whether it comes from the sources or from the dependencies. *)
Theorem zipCode_never_adds_excluded s params env w file dir :
  In (EAddLocalFile file dir) (events (zipCode C cancelledAt s params env w)) ->
  isExcludedFile file = false.
Proof.
  intros Hin.
  assert (Hs : silent addsExcludedFile (zipCode C cancelledAt s params env)).
  { packaging.
    along_structure;
      solve [ apply silent_zipSources; intros; assumption
            | apply silent_zipDependencies; intros; assumption ]. }
  specialize (Hs w).
  assert (Hall : forall e, In e (events (zipCode C cancelledAt s params env w)) ->
                           addsExcludedFile e = false).
  { intros e He. destruct (addsExcludedFile e) eqn:E; [ | reflexivity ].
    assert (Hf : In e (filter addsExcludedFile
                         (events (zipCode C cancelledAt s params env w))))
      by (apply filter_In; auto).
    rewrite Hs in Hf. destruct Hf. }
  apply (Hall _ Hin).
Qed.


Lemma filter_events_zipSources p params env w :
  (forall file dir, p (EAddLocalFile file dir) = false) ->
  filter p (events (zipSources C params env w)) = [].
Proof. intros Hp. apply silent_zipSources. intros; apply Hp. Qed.

Lemma filter_events_zipDependencies p params env w :
  (forall file dir, p (EAddLocalFile file dir) = false) ->
  filter p (events (zipDependencies C params env w)) = [].
Proof. intros Hp. apply silent_zipDependencies. intros; apply Hp. Qed.

(** Splits on everything a packaging depends on, and runs it. *)
Ltac zip_cases s params env w :=
  destruct (cancelledAt (cancelReads w)) eqn:Ec0;
  [ | destruct (cancelledAt (S (cancelReads w))) eqn:Ec1;
      [ | destruct (cancelledAt (S (S (cancelReads w)))) eqn:Ec2;
          [ | destruct (writeLogsAnswer env) as [logFile|logError] eqn:El;
              [ destruct (humanInTheLoopFlag params) eqn:Eh;
                destruct (truthy logFile) eqn:Et;
                (destruct (writeZipAnswer env) as [[]|writeError] eqn:Ew;
                 [ destruct (zipSize env >? uploadZipSizeLimitInBytes C) eqn:Ez;
                   [ destruct (chatControllers env) eqn:Ech | ] | ]);
                (destruct (dependenciesFolder params) as [folder|] eqn:Ed;
                 [ destruct (dependenciesExist env) eqn:Ee | ])
              | ] ] ] ];
  run_goal ltac:(packaging).



(** X11: an archive that [zipCode] returns is written once, at the path of
    the temporary archive; it holds the file of the build logs exactly when
    the packaging is not human-in-the-loop; and it holds one manifest.  A
    plain manifest names the build system of the session; for Gradle it has
    neither a dependencies root nor human-in-the-loop capabilities;
    otherwise it keeps the capabilities given, and keeps the dependencies
    root given unless a dependencies folder is passed that lists no file.  A
    human-in-the-loop manifest is written as given. *)
Theorem zipCode_archive_metadata s params env w archive :
  let run := zipCode C cancelledAt s params env w in
  outcome run = Returned archive ->
  archive = tempFilePath C
  /\ (exists logFile,
        writeLogsAnswer env = Resolves logFile
        /\ filter isBuildLogEntry (events run)
           = if humanInTheLoopFlag params then [] else [EAddBuildLog logFile])
  /\ filter isArchiveWrite (events run) = [EWriteZip (tempFilePath C)]
  /\ exists manifest,
       filter isManifestEntry (events run) = [EAddManifest manifest]
       /\ match zipManifest params, manifest with
          | PlainManifest given, PlainManifest written =>
              buildTool written = Some (buildSystem s)
              /\ (buildSystem s = Gradle ->
                  dependenciesRoot written = None /\ hilCapabilities written = None)
              /\ (buildSystem s <> Gradle ->
                  hilCapabilities written = hilCapabilities given
                  /\ dependenciesRoot written
                     = match dependenciesFolder params with
                       | Some _ =>
                           if listsDependencies C params env
                           then dependenciesRoot given else None
                       | None => dependenciesRoot given
                       end)
          | HilManifest given, HilManifest written => written = given
          | _, _ => False
          end.
Proof.
  cbv zeta.
  zip_cases s params env w; rewrite Ho, He; try discriminate.
  all: intros [= <-]; split; [ reflexivity | ].
  all: split; [ exists logFile; split; [ reflexivity | ] | ].
  all: rewrite ?filter_app, ?filter_events_zipSources, ?filter_events_zipDependencies
         by reflexivity.
  all: try reflexivity.
  all: split; [ reflexivity | ].
  all: eexists; split; [ reflexivity | ].
  all: destruct (zipManifest params) as [given|given]; cbn [finishManifest].
  all: try (destruct (listsDependencies C params env); reflexivity).
  all: try reflexivity.
  all: try (destruct (listsDependencies C params env));
         cbn [clearDependenciesRoot finishManifest];
         destruct (buildSystem s); cbn;
         (split; [ reflexivity | split; [ intros; try discriminate; auto | ] ]);
         intros; try congruence; auto.
Qed.

(** ** The client-side build, the stop request, the validation *)

Ltac client_build :=
  unfold clientSideBuildSpan, performClientSideBuild, resumeTransformationJob.

(** X12: how the client-side build reports its result.  When the build
    process exits, with whatever code, and the build logs are written, the
    manifest of the result records that code, the result is uploaded as a
    ClientBuildResult, and, once the upload is through, the job is resumed
    with COMPLETED.  When the process did not exit, nothing is recorded,
    uploaded or resumed, and the callback fails with the exit-code-is-null
    error (or with the error of the build logs). *)
Theorem build_result_reported s module_path artifact env w :
  let run := performClientSideBuild C s module_path artifact env w in
  filter isManifestUpdate (events run)
  = match spawnStatus (spawned env), buildLogsAnswer env with
    | Some exitCode, Resolves dir =>
        [EUpdateManifestFile exitCode "build-output.log" (pathJoin C dir "manifest.json")]
    | _, _ => []
    end
  /\ filter isUpload (events run)
     = match spawnStatus (spawned env), buildLogsAnswer env with
       | Some _, Resolves dir => [EUploadPayload (dir ++ ".zip") "ClientBuildResult"]
       | _, _ => []
       end
  /\ filter isResume (events run)
     = match spawnStatus (spawned env), buildLogsAnswer env, uploadAnswer env with
       | Some _, Resolves _, Resolves _ => [EResumeTransformation (jobId s) "COMPLETED"]
       | _, _, _ => []
       end
  /\ (spawnStatus (spawned env) = None ->
      outcome run
      = match buildLogsAnswer env with
        | Resolves _ =>
            Threw (Error (buildSystemCommand s ++ " " ++ joinArgs (buildArgs s)
                          ++ "  exit code is null"))
        | Rejects e => Threw e
        end).
Proof.
  cbv zeta.
  destruct (spawnStatus (spawned env)) as [exitCode|] eqn:Es.
  1: destruct (exitCode =? 0) eqn:Ez.
  all: destruct (buildLogsAnswer env) as [dir|e] eqn:Eb.
  all: try (destruct (uploadAnswer env) as [uploadId|e] eqn:Eu;
            [ destruct (resumeAnswer env) as [resumed|e] eqn:Er | ]).
  all: run_goal ltac:(client_build); rewrite ?Ho, He.
  all: repeat split; try reflexivity; try discriminate.
Qed.


(** X13: the authorization prompt is shown exactly when the selection is
    'Verify Each Iteration' and no authorization is pending.  When it is
    shown and dismissed, the callback returns normally without spawning the
    build and without stopping the job, and both writes of the
    waiting-for-authorization flag set it.  When it is not shown, the
    callback is the build itself. *)
Theorem build_prompt_dismissed s module_path artifact env w :
  let span := clientSideBuildSpan C s module_path artifact env w in
  filter isPrompt (events span)
  = (if asksAuthorization s env then [EAuthorizationPrompt] else [])
  /\ (asksAuthorization s env = true ->
      promptAnswer env = None ->
      outcome span = Returned tt
      /\ filter isSpawn (events span) = []
      /\ filter isStopRequest (events span) = []
      /\ filter isAuthorizationWrite (events span)
         = [ESetWaitingForClientSideBuildAuthorization true;
            ESetWaitingForClientSideBuildAuthorization true])
  /\ (asksAuthorization s env = false ->
      outcome span = outcome (performClientSideBuild C s module_path artifact env w)
      /\ events span
         = EAppendToLocalBuildErrorLog
             ("Running local build with " ++ buildSystemCommand s)
           :: events (performClientSideBuild C s module_path artifact env w)).
Proof.
  cbv zeta.
  assert (Hp : silent isPrompt (performClientSideBuild C s module_path artifact env)).
  { unfold performClientSideBuild, resumeTransformationJob. along_structure. }
  unfold asksAuthorization.
  destruct (String.eqb (clientSideBuildSelection s) "Verify Each Iteration"
            && negb (waitingSeen env)) eqn:Ea.
  1: destruct (promptAnswer env) as [choice|] eqn:Ep.
  1: destruct (String.eqb choice (localizedNo C)) eqn:En.
  1: destruct (stopAnswer env) as [[]|e] eqn:Est.
  all: eassert (Hy : yields (clientSideBuildSpan C s module_path artifact env) w _ _ _)
         by (unfold clientSideBuildSpan; run).
  all: apply yields_inj in Hy as (Ho & Hf & He); rewrite Ho, He.
  all: rewrite ?filter_app, ?Hp.
  all: repeat split; try reflexivity; try discriminate.
Qed.

(** X14: for a job id that is not empty, a stop request that fails makes
    [stopJob] throw Error('Stop job failed'), whatever the failure, after
    logging its message, with the job state unchanged; a stop request that
    succeeds makes it return, and the failure metadata becomes the request id
    of the response when the response has one, and is unchanged
    otherwise. *)
Theorem stopJob_outcomes job_id answer w :
  truthy job_id = true ->
  match answer with
  | Rejects e =>
      stopJob C job_id answer w
      = {| outcome := Threw (Error "Stop job failed");
           final := w;
           events := [EStopTransformation job_id;
                      ELogError ("CodeTransformation: StopTransformation error = "
                                 ++ message C e)] |}
  | Resolves response =>
      outcome (stopJob C job_id answer w) = Returned tt
      /\ events (stopJob C job_id answer w) = [EStopTransformation job_id]
      /\ jobFailureMetadata (job (final (stopJob C job_id answer w)))
         = match response with
           | Some rid =>
               if truthy rid then requestIdMetadata rid
               else jobFailureMetadata (job w)
           | None => jobFailureMetadata (job w)
           end
  end.
Proof.
  intros Hid. unfold stopJob. rewrite Hid. cbn [negb].
  destruct answer as [[rid|]|e]; try reflexivity.
  - destruct (truthy rid) eqn:Er.
    all: match goal with
         | |- context [outcome (?m ?w0)] => eassert (Hy : yields m w0 _ _ _) by run
         end.
    all: apply yields_inj in Hy as (Ho & Hf & He); rewrite Ho, Hf, He.
    all: repeat split.
  - repeat split.
Qed.

(** *** Project validation *)

Lemma detectedVersion_supported stdout : detectedVersion C stdout <> JDK17.
Proof.
  unfold detectedVersion. cbv zeta.
  destruct (String.eqb _ (JDK8VersionNumber C)); [ discriminate | ].
  destruct (String.eqb _ (JDK11VersionNumber C)); discriminate.
Qed.

Lemma detectJavaVersion_run env project w :
  let run := detectJavaVersion C env project w in
  final run = w
  /\ filter isValidationNotice (events run) = []
  /\ filter isSpawnSync (events run) = javapCalls env (projectDir project)
  /\ forall v, outcome run = Returned v ->
               v = versionReadByJavap C env (projectDir project)
               /\ v <> Some JDK17.
Proof.
  cbv zeta. unfold detectJavaVersion, versionReadByJavap, javapCalls.
  destruct (compiledJavaFiles env (projectDir project)) as [|classFilePath others].
  - cbn. repeat split; congruence.
  - cbv zeta. destruct (exitedWithError (javapResult env classFilePath)).
    + cbn. repeat split; congruence.
    + destruct (processStdout (javapResult env classFilePath)) as [stdout|]; cbn.
      * repeat split; try congruence.
        match goal with H : Returned _ = Returned _ |- _ => injection H as <- end.
        intros [= H]. exact (detectedVersion_supported _ H).
      * repeat split; congruence.
Qed.

Lemma getProjectsValidToTransform_run env candidates : forall w result,
  outcome (getProjectsValidToTransform C env candidates w) = Returned result ->
  map (fun p => (projectName p, projectDir p)) result
  = map (fun p => (projectName p, projectDir p)) candidates
  /\ Forall (fun p => projectJDKVersion p = versionReadByJavap C env (projectDir p)
                      /\ projectJDKVersion p <> Some JDK17) result
  /\ filter isValidationNotice (events (getProjectsValidToTransform C env candidates w)) = []
  /\ filter isSpawnSync (events (getProjectsValidToTransform C env candidates w))
     = flat_map (fun p => javapCalls env (projectDir p)) result.
Proof.
  induction candidates as [|project rest IH]; intros w result.
  - cbn. intros [= <-]. repeat split. constructor.
  - cbn [getProjectsValidToTransform].
    destruct (detectJavaVersion_run env project w) as (Hf & Hn & Hs & Hv).
    rewrite bind_outcome, bind_events, !filter_app, Hn, Hs.
    destruct (outcome (detectJavaVersion C env project w)) as [v| |];
      [ | discriminate | discriminate ].
    rewrite Hf. destruct (Hv v eq_refl) as (Hread & H17).
    rewrite bind_outcome, bind_events, !filter_app.
    destruct (outcome (getProjectsValidToTransform C env rest w)) as [valid| |] eqn:Er;
      [ | discriminate | discriminate ].
    destruct (IH w valid Er) as (Hm & Hall & Hnotice & Hspawn).
    cbn. intros [= <-]. rewrite Hnotice, Hspawn. cbn. rewrite Hm.
    repeat split; try reflexivity.
    + constructor; [ split; assumption | exact Hall ].
    + rewrite app_nil_r. reflexivity.
Qed.

(** X15: when the validation of the open projects returns, the projects
    returned are the open projects that hold a Java file and a Maven or
    Gradle build file, in the order of the workspace, with their names and
    paths, and there is at least one.  [javap -v] is run once for each of
    them that has a compiled class, on the first such class, in that order.
    Each project carries no JDK version when it has no compiled class or
    [javap] exits with an error, and otherwise what [detectedVersion] makes
    of the output (the two characters that follow the first
    'major version: ', trimmed and compared with the version numbers of
    Java 8 and 11): JDK8, JDK11 or UNSUPPORTED, never JDK17.  Neither the
    error notification nor the telemetry of a failed validation is
    emitted. *)
Theorem validate_returns_buildable_java_projects env projects onProjectFirstOpen w result :
  outcome (validateOpenProjects C env projects onProjectFirstOpen w) = Returned result ->
  result <> []
  /\ map (fun p => (projectName p, projectDir p)) result
     = map (fun p => (projectName p, projectDir p))
         (filter (fun p =>
                    (0 <? length (javaFiles env (projectDir p)))%nat
                    && existsb isMavenOrGradle (buildSystems env (projectDir p)))
            projects)
  /\ Forall (fun p =>
               projectJDKVersion p = versionReadByJavap C env (projectDir p)
               /\ projectJDKVersion p <> Some JDK17) result
  /\ filter isValidationNotice
       (events (validateOpenProjects C env projects onProjectFirstOpen w)) = []
  /\ filter isSpawnSync
       (events (validateOpenProjects C env projects onProjectFirstOpen w))
     = flat_map (fun p => javapCalls env (projectDir p)) result.
Proof.
  unfold validateOpenProjects. cbv zeta.
  assert (Hf : getMavenOrGradleJavaProjects env (getJavaProjects env projects)
               = filter (fun p =>
                           (0 <? length (javaFiles env (projectDir p)))%nat
                           && existsb isMavenOrGradle (buildSystems env (projectDir p)))
                   projects).
  { unfold getMavenOrGradleJavaProjects, getJavaProjects.
    induction projects as [|p rest IH]; [ reflexivity | ].
    cbn [filter]. destruct (0 <? _)%nat; cbn [filter andb]; rewrite IH; reflexivity. }
  destruct (getJavaProjects env projects) as [|j js] eqn:Ej; [ discriminate | ].
  rewrite Hf.
  destruct (filter _ projects) as [|v vs] eqn:Ev.
  - rewrite bind_outcome. destruct (outcome _); discriminate.
  - intros Hr.
    destruct (getProjectsValidToTransform_run env (v :: vs) w result Hr)
      as (Hm & Hall & Hnotice & Hspawn).
    split; [ | auto ].
    intros ->. discriminate Hm.
Qed.

(** X16: when some open project holds a Java file but no project with a
    Java file holds a Maven or Gradle build file, the validation throws
    [NoMavenOrGradleJavaProjectsFoundError]; the error notification and the
    telemetry of the failure are emitted unless the validation runs on the
    first opening of the project. *)
Theorem validate_without_build_file env projects onProjectFirstOpen w :
  (exists p, In p projects /\ javaFiles env (projectDir p) <> []) ->
  (forall p, In p projects -> javaFiles env (projectDir p) <> [] ->
             existsb isMavenOrGradle (buildSystems env (projectDir p)) = false) ->
  outcome (validateOpenProjects C env projects onProjectFirstOpen w)
  = Threw NoMavenOrGradleJavaProjectsFoundError
  /\ events (validateOpenProjects C env projects onProjectFirstOpen w)
     = if onProjectFirstOpen then []
       else [EShowErrorMessage (noPomXmlOrBuildGradleFoundNotification C);
             EValidateProjectFailed "NoMavenOrGradleBuildFileFound"].
Proof.
  intros (p & Hin & Hj) Hnone. unfold validateOpenProjects. cbv zeta.
  assert (Hjava : In p (getJavaProjects env projects)).
  { apply filter_In. split; [ exact Hin | ].
    destruct (javaFiles env (projectDir p)); [ congruence | reflexivity ]. }
  assert (Hb : getMavenOrGradleJavaProjects env (getJavaProjects env projects) = []).
  { unfold getMavenOrGradleJavaProjects, getJavaProjects.
    clear Hjava Hin Hj p.
    induction projects as [|q rest IH]; [ reflexivity | ].
    cbn [filter]. destruct (0 <? length (javaFiles env (projectDir q)))%nat eqn:E.
    - cbn [filter]. rewrite (Hnone q); [ | left; reflexivity | ].
      + apply IH. intros p Hp. apply Hnone. right. exact Hp.
      + intros H0. rewrite H0 in E. discriminate.
    - apply IH. intros p Hp. apply Hnone. right. exact Hp. }
  destruct (getJavaProjects env projects) as [|j js] eqn:Ej; [ destruct Hjava | ].
  rewrite Hb.
  destruct onProjectFirstOpen; split; reflexivity.
Qed.

End Further.

(** ** Upload *)

Section UploadProperties.

Variable C : Constants.
Variable U : UploadImports.
Variable cancelledAt : nat -> bool.

Ltac upload_steps :=
  unfold uploadPayload, uploadArtifactToS3, updateJobHistory, uploadThrowIfCancelled,
    andThen, catch, perform, awaiting, pure, raise, whenever, modifyState, getState.

(** X17: [uploadPayload] reads the cancellation flag twice.  When the first
    read, made once the payload is read, sees the flag set, the upload
    throws the stopped error itself and calls neither the backend nor S3.
    When the second read, made after the upload URL is created, sees it set,
    the upload throws a plain Error carrying the message of the stopped
    error, nothing is sent to S3, and the job id, the upload step and the
    job history of the session are left as they were. *)
Theorem uploadPayload_cancelled file context env s buffer :
  readFileAnswer env = Ok buffer ->
  let run := uploadPayload C U cancelledAt file context env s in
  (cancelledAt (sessionCancelReads s) = true ->
   result run = Fails TransformByQStoppedError
   /\ calls run = [UReadFile file; UIsCancelled true]
   /\ state run = afterUploadCancelRead s)
  /\ (cancelledAt (sessionCancelReads s) = false ->
      cancelledAt (S (sessionCancelReads s)) = true ->
      forall response,
        createUploadUrlAnswer env = Ok response ->
        result run = Fails (Error (stoppedErrorMessage C))
        /\ filter isS3Call (calls run) = []
        /\ sessionJobId (state run) = sessionJobId s
        /\ uploadCodeProgress (state run) = uploadCodeProgress s
        /\ sessionJobHistory (state run) = sessionJobHistory s).
Proof.
  intros Hfile. cbv zeta. split.
  - intros Hc. upload_steps. rewrite Hfile. cbn. rewrite Hc. auto.
  - intros Hc0 Hc1 response Hurl. upload_steps. rewrite Hfile, Hurl. cbn.
    rewrite Hc0. cbn. destruct (truthy (uploadRequestId response)); cbn.
    all: rewrite Hc1; cbn; auto.
Qed.

(** X18: when the payload cannot be sent to S3 (the size of the file cannot
    be read, or the PUT fails), [uploadPayload] throws a plain Error whose
    message is chosen from the message of the failure: the expired-URL text
    when it contains 'Request has expired', else the socket text when it
    contains 'Failed to establish a socket connection', else the certificate
    text when it contains 'self signed certificate in certificate chain',
    and else 'The upload failed due to: ' followed by the message. *)
Theorem uploadPayload_s3_failure file context env s buffer response e :
  readFileAnswer env = Ok buffer ->
  createUploadUrlAnswer env = Ok response ->
  cancelledAt (sessionCancelReads s) = false ->
  cancelledAt (S (sessionCancelReads s)) = false ->
  statAnswer env = Fails e
  \/ ((exists size, statAnswer env = Ok size) /\ putAnswer env = Fails e) ->
  let run := uploadPayload C U cancelledAt file context env s in
  let raw := ("The upload failed due to: " ++ message C e)%string in
  result run = Fails (Error (uploadErrorMessage C U e))
  /\ (includes (message C e) "Request has expired" = true ->
      uploadErrorMessage C U e = errorUploadingWithExpiredUrl U)
  /\ (includes raw "Request has expired" = false ->
      includes (message C e) "Failed to establish a socket connection" = true ->
      uploadErrorMessage C U e = socketConnectionFailed U)
  /\ (includes raw "Request has expired" = false ->
      includes raw "Failed to establish a socket connection" = false ->
      includes (message C e) "self signed certificate in certificate chain" = true ->
      uploadErrorMessage C U e = selfSignedCertificateError U)
  /\ (includes raw "Request has expired" = false ->
      includes raw "Failed to establish a socket connection" = false ->
      includes raw "self signed certificate in certificate chain" = false ->
      uploadErrorMessage C U e = raw).
Proof.
  intros Hfile Hurl Hc0 Hc1 Hfail. cbv zeta.
  split; [ | split; [ | split; [ | split ] ] ].
  2:{ intros H. unfold uploadErrorMessage. cbv zeta.
      rewrite (includes_app_r _ _ _ H). reflexivity. }
  2:{ intros H1 H2. unfold uploadErrorMessage. cbv zeta.
      rewrite H1, (includes_app_r _ _ _ H2). reflexivity. }
  2:{ intros H1 H2 H3. unfold uploadErrorMessage. cbv zeta.
      rewrite H1, H2, (includes_app_r _ _ _ H3). reflexivity. }
  2:{ intros H1 H2 H3. unfold uploadErrorMessage. cbv zeta.
      rewrite H1, H2, H3. reflexivity. }
  upload_steps; rewrite Hfile, Hurl; cbn; rewrite Hc0; cbn.
  destruct (truthy (uploadRequestId response)); cbn; rewrite Hc1; cbn.
  all: destruct Hfail as [Hstat|((size & Hstat) & Hput)]; rewrite Hstat; cbn;
    try rewrite Hput; cbn; reflexivity.
Qed.

(** X19: whatever makes [uploadPayload] fail, the job id, the upload step
    of the plan progress and the job history of the session are left as they
    were. *)
Theorem uploadPayload_failure_keeps_job file context env s x :
  let run := uploadPayload C U cancelledAt file context env s in
  result run = Fails x ->
  sessionJobId (state run) = sessionJobId s
  /\ uploadCodeProgress (state run) = uploadCodeProgress s
  /\ sessionJobHistory (state run) = sessionJobHistory s.
Proof.
  cbv zeta. upload_steps.
  destruct (readFileAnswer env) as [buffer|e0]; cbn; [ | auto ].
  destruct (cancelledAt (sessionCancelReads s)); cbn; [ auto | ].
  destruct (createUploadUrlAnswer env) as [response|e1]; cbn; [ | auto ].
  destruct (truthy (uploadRequestId response)); cbn.
  all: destruct (cancelledAt (S (sessionCancelReads s))); cbn; [ auto | ].
  all: destruct (statAnswer env) as [size|e2]; cbn; [ | auto ].
  all: destruct (putAnswer env) as [status|e3]; cbn; [ | auto ].
  all: destruct context; cbn.
  all: match goal with
       | |- context [String.eqb ?a ""] => destruct (String.eqb a ""); cbn
       end.
  all: discriminate.
Qed.

(** X20: when nothing fails and the cancellation flag is clear at both
    reads, [uploadPayload] returns the upload id; the job id of the session
    becomes the HTML-encoded upload id when no upload context is passed, and
    is unchanged when one is; the upload step is marked succeeded; the job
    history maps the job id, unless it is empty, to the start time, project
    name and polled status of the session; and the calls are the read of the
    payload, the creation of the URL with the digest of the payload, and one
    PUT of the payload to that URL with the headers of [getHeadersObj]. *)
Theorem uploadPayload_succeeds file context env s buffer response size status :
  readFileAnswer env = Ok buffer ->
  createUploadUrlAnswer env = Ok response ->
  statAnswer env = Ok size ->
  putAnswer env = Ok status ->
  cancelledAt (sessionCancelReads s) = false ->
  cancelledAt (S (sessionCancelReads s)) = false ->
  let run := uploadPayload C U cancelledAt file context env s in
  let job_id := match context with
                | None => encodeHTML U (uploadId response)
                | Some _ => sessionJobId s
                end in
  result run = Ok (uploadId response)
  /\ sessionJobId (state run) = job_id
  /\ uploadCodeProgress (state run) = Succeeded
  /\ (job_id <> ""%string ->
      lookup job_id (sessionJobHistory (state run))
      = Some {| historyStartTime := sessionStartTime s;
                historyProjectName := sessionProjectName s;
                historyStatus := sessionPolledJobStatus s;
                historyDuration := elapsedTime env |})
  /\ (job_id = ""%string -> sessionJobHistory (state run) = sessionJobHistory s)
  /\ calls run
     = [UReadFile file; UIsCancelled false;
        UCreateUploadUrl (getSha256 U buffer) (contentChecksumType U) (uploadIntent U)
          context;
        UIsCancelled false; UStat file;
        UPut (uploadUrl response)
          (getHeadersObj (getSha256 U buffer) (kmsKeyArn response)) buffer].
Proof.
  intros Hfile Hurl Hstat Hput Hc0 Hc1. cbv zeta.
  upload_steps. rewrite Hfile, Hurl, Hstat, Hput. cbn. rewrite Hc0. cbn.
  destruct (truthy (uploadRequestId response)); cbn; rewrite Hc1; cbn.
  all: destruct context as [ctx|]; cbn.
  all: match goal with
       | |- context [String.eqb ?a ""] => destruct (String.eqb_spec a "") as [E|E]; cbn
       end.
  all: repeat split; try reflexivity; try congruence.
  all: intros _; apply lookup_assign.
Qed.

End UploadProperties.

(** ** The copy of the project *)

Lemma andThen_result {S E X A B} (m : Program S E X A) (k : A -> Program S E X B) s :
  result (andThen m k s)
  = match result (m s) with
    | Ok a => result (k a (state (m s)))
    | Fails x => Fails x
    end.
Proof.
  unfold andThen. destruct (m s) as [[a|x] s1 c1]; cbn; [ | reflexivity ].
  destruct (k a s1); reflexivity.
Qed.

Lemma andThen_calls {S E X A B} (m : Program S E X A) (k : A -> Program S E X B) s :
  calls (andThen m k s)
  = calls (m s)
    ++ match result (m s) with
       | Ok a => calls (k a (state (m s)))
       | Fails _ => []
       end.
Proof.
  unfold andThen. destruct (m s) as [[a|x] s1 c1]; cbn;
    [ destruct (k a s1); reflexivity | rewrite app_nil_r; reflexivity ].
Qed.

Section CopyProperties.

Variable C : Constants.
Variable env : CopyEnv.

Lemma copied_state {A} (m : CopyProgram A) : state (m tt) = tt.
Proof. destruct (state (m tt)). reflexivity. Qed.

(** What the call of [copyDirectory] on a directory listed as [children]
    does after the creation of its destination. *)
Lemma copyEntry_directory sourcePath destinationPath name children :
  let sourceFilePath := pathJoin C sourcePath name in
  let destinationFilePath :=
    pathJoin C destinationPath (pathRelative C sourcePath sourceFilePath) in
  isHidden name = false ->
  forall s,
    copyEntry C env sourcePath destinationPath (FsDirectory name children) s
    = andThen (perform (Stat sourceFilePath))
        (fun _ => copyDirectory C env sourceFilePath destinationFilePath (Ok children)) s.
Proof.
  cbv zeta. intros Hh [].
  cbn [copyEntry nodeName]. rewrite Hh. unfold copyDirectory.
  set (src := pathJoin C sourcePath name).
  set (dst := pathJoin C destinationPath (pathRelative C sourcePath src)).
  assert (Hturns : forall l s,
             (fix turns (files : list FsNode) : CopyProgram unit :=
                match files with
                | [] => pure tt
                | child :: rest =>
                    andThen (copyEntry C env src dst child) (fun _ => turns rest)
                end) l s
             = copyEntries C env src dst l s).
  { induction l as [|child rest IH]; intros s; [ reflexivity | ].
    cbn [copyEntries]. unfold andThen at 1 3.
    destruct (copyEntry C env src dst child s) as [[a|x] s1 c1]; [ | reflexivity ].
    rewrite IH. reflexivity. }
  unfold andThen at 1 2 3 4. unfold andThen at 2 3 4 5. cbn.
  destruct (mkdirSyncAnswer env dst) as [[]|e]; cbn; [ | reflexivity ].
  rewrite Hturns. destruct (copyEntries C env src dst children tt); reflexivity.
Qed.

Lemma copyEntries_cons sourcePath destinationPath entry rest :
  result (copyEntries C env sourcePath destinationPath (entry :: rest) tt)
  = match result (copyEntry C env sourcePath destinationPath entry tt) with
    | Ok _ => result (copyEntries C env sourcePath destinationPath rest tt)
    | Fails x => Fails x
    end
  /\ calls (copyEntries C env sourcePath destinationPath (entry :: rest) tt)
     = calls (copyEntry C env sourcePath destinationPath entry tt)
       ++ match result (copyEntry C env sourcePath destinationPath entry tt) with
          | Ok _ => calls (copyEntries C env sourcePath destinationPath rest tt)
          | Fails _ => []
          end.
Proof.
  cbn [copyEntries]. rewrite andThen_result, andThen_calls, copied_state. auto.
Qed.

Lemma copyEntries_app sourcePath destinationPath first second :
  result (copyEntries C env sourcePath destinationPath (first ++ second) tt)
  = match result (copyEntries C env sourcePath destinationPath first tt) with
    | Ok _ => result (copyEntries C env sourcePath destinationPath second tt)
    | Fails x => Fails x
    end
  /\ calls (copyEntries C env sourcePath destinationPath (first ++ second) tt)
     = calls (copyEntries C env sourcePath destinationPath first tt)
       ++ match result (copyEntries C env sourcePath destinationPath first tt) with
          | Ok _ => calls (copyEntries C env sourcePath destinationPath second tt)
          | Fails _ => []
          end.
Proof.
  induction first as [|entry rest (IHr & IHc)]; [ split; reflexivity | ].
  rewrite <- app_comm_cons.
  destruct (copyEntries_cons sourcePath destinationPath entry (rest ++ second))
    as (-> & ->).
  destruct (copyEntries_cons sourcePath destinationPath entry rest) as (-> & ->).
  destruct (result (copyEntry C env sourcePath destinationPath entry tt)).
  - rewrite IHr, IHc. split; [ reflexivity | ].
    destruct (result (copyEntries C env sourcePath destinationPath rest tt));
      rewrite ?app_nil_r, ?app_assoc; reflexivity.
  - rewrite !app_nil_r. split; reflexivity.
Qed.

Lemma outline_cons sourcePath destinationPath entry rest :
  outline (copyEntries C env sourcePath destinationPath (entry :: rest) tt)
  = match outline (copyEntry C env sourcePath destinationPath entry tt) with
    | (Ok _, c) =>
        (fst (outline (copyEntries C env sourcePath destinationPath rest tt)),
         c ++ snd (outline (copyEntries C env sourcePath destinationPath rest tt)))
    | (Fails x, c) => (Fails x, c)
    end.
Proof.
  unfold outline.
  destruct (copyEntries_cons sourcePath destinationPath entry rest) as (-> & ->).
  rewrite filter_app.
  destruct (result (copyEntry C env sourcePath destinationPath entry tt));
    cbn; rewrite ?app_nil_r; reflexivity.
Qed.

Lemma outline_app sourcePath destinationPath first second :
  outline (copyEntries C env sourcePath destinationPath (first ++ second) tt)
  = match outline (copyEntries C env sourcePath destinationPath first tt) with
    | (Ok _, c) =>
        (fst (outline (copyEntries C env sourcePath destinationPath second tt)),
         c ++ snd (outline (copyEntries C env sourcePath destinationPath second tt)))
    | (Fails x, c) => (Fails x, c)
    end.
Proof.
  unfold outline.
  destruct (copyEntries_app sourcePath destinationPath first second) as (-> & ->).
  rewrite filter_app.
  destruct (result (copyEntries C env sourcePath destinationPath first tt));
    cbn; rewrite ?app_nil_r; reflexivity.
Qed.

Lemma outline_copyDirectory sourcePath destinationPath entries :
  outline (copyDirectory C env sourcePath destinationPath (Ok entries) tt)
  = match mkdirSyncAnswer env destinationPath with
    | Ok _ =>
        (fst (outline (copyEntries C env sourcePath destinationPath entries tt)),
         Mkdir destinationPath :: Readdir sourcePath
         :: snd (outline (copyEntries C env sourcePath destinationPath entries tt)))
    | Fails x => (Fails x, [Mkdir destinationPath])
    end.
Proof.
  unfold outline, copyDirectory.
  rewrite !andThen_result, !andThen_calls.
  destruct (mkdirSyncAnswer env destinationPath) as [[]|x]; cbn; reflexivity.
Qed.

(** An entry is copied as the entries that count in it are. *)
Lemma copyEntry_visible entry :
  forall sourcePath destinationPath,
    outline (copyEntry C env sourcePath destinationPath entry tt)
    = outline (copyEntries C env sourcePath destinationPath (visibleEntry entry) tt).
Proof.
  induction entry as [name|name children IH|name e|name e] using FsNode_induction;
    intros sourcePath destinationPath.
  - cbn [visibleEntry]. destruct (isHidden name) eqn:Hh.
    + unfold outline. cbn [copyEntry nodeName copyEntries]. rewrite Hh. reflexivity.
    + rewrite outline_cons. cbn [copyEntries].
      destruct (outline (copyEntry C env sourcePath destinationPath (FsFile name) tt))
        as [[[]|x] c]; cbn; rewrite ?app_nil_r; reflexivity.
  - cbn [visibleEntry]. destruct (isHidden name) eqn:Hh.
    + unfold outline. cbn [copyEntry nodeName copyEntries]. rewrite Hh. reflexivity.
    + rewrite outline_cons. cbn [copyEntries].
      assert (Hd : forall l,
                 outline (copyEntry C env sourcePath destinationPath
                            (FsDirectory name l) tt)
                 = outline (copyDirectory C env (pathJoin C sourcePath name)
                              (pathJoin C destinationPath
                                 (pathRelative C sourcePath (pathJoin C sourcePath name)))
                              (Ok l) tt)).
      { intros l. unfold outline.
        rewrite (copyEntry_directory sourcePath destinationPath name l Hh tt).
        rewrite andThen_result, andThen_calls. reflexivity. }
      rewrite !Hd, !outline_copyDirectory.
      set (src := pathJoin C sourcePath name).
      set (dst := pathJoin C destinationPath (pathRelative C sourcePath src)).
      assert (Hall : outline (copyEntries C env src dst children tt)
                     = outline (copyEntries C env src dst
                                  (flat_map visibleEntry children) tt)).
      { clear Hd. induction IH as [|child rest Hchild _ IHrest]; [ reflexivity | ].
        cbn [flat_map]. rewrite outline_cons, outline_app, Hchild, IHrest.
        reflexivity. }
      rewrite Hall.
      destruct (mkdirSyncAnswer env dst) as [[]|x]; [ | reflexivity ].
      unfold outline. cbn [fst snd].
      destruct (result (copyEntries C env src dst (flat_map visibleEntry children) tt))
        as [[]|x]; cbn; rewrite ?app_nil_r; reflexivity.
  - cbn [visibleEntry]. destruct (isHidden name) eqn:Hh.
    + unfold outline. cbn [copyEntry nodeName copyEntries]. rewrite Hh. reflexivity.
    + rewrite outline_cons. cbn [copyEntries].
      destruct (outline (copyEntry C env sourcePath destinationPath
                           (FsUnreadableDirectory name e) tt))
        as [[[]|x] c]; cbn; rewrite ?app_nil_r; reflexivity.
  - cbn [visibleEntry]. rewrite outline_cons. cbn [copyEntries].
    destruct (outline (copyEntry C env sourcePath destinationPath (FsBroken name e) tt))
      as [[[]|x] c]; cbn; rewrite ?app_nil_r; reflexivity.
Qed.

Lemma copyEntries_visible entries sourcePath destinationPath :
  outline (copyEntries C env sourcePath destinationPath entries tt)
  = outline (copyEntries C env sourcePath destinationPath (visibleEntries entries) tt).
Proof.
  induction entries as [|entry rest IH]; [ reflexivity | ].
  unfold visibleEntries. cbn [flat_map].
  rewrite outline_cons, outline_app, <- copyEntry_visible.
  fold (visibleEntries rest). rewrite <- IH. reflexivity.
Qed.

Lemma list_sum_one n : list_sum [n] = n.
Proof. cbn. apply Nat.add_0_r. Qed.

Lemma copyEntries_counts sourcePath destinationPath entries :
  Forall (fun entry =>
            forall sourcePath destinationPath,
              result (copyEntry C env sourcePath destinationPath entry tt) = Ok tt ->
              length (filter isCopy
                        (calls (copyEntry C env sourcePath destinationPath entry tt)))
              = list_sum (map countFiles (visibleEntry entry))
              /\ length (filter isDirectoryCreated
                           (calls (copyEntry C env sourcePath destinationPath entry tt)))
                 = list_sum (map countDirectories (visibleEntry entry)))
    entries ->
  result (copyEntries C env sourcePath destinationPath entries tt) = Ok tt ->
  length (filter isCopy (calls (copyEntries C env sourcePath destinationPath entries tt)))
  = list_sum (map countFiles (visibleEntries entries))
  /\ length (filter isDirectoryCreated
               (calls (copyEntries C env sourcePath destinationPath entries tt)))
     = list_sum (map countDirectories (visibleEntries entries)).
Proof.
  induction 1 as [|entry rest Hentry _ IH]; [ split; reflexivity | ].
  destruct (copyEntries_cons sourcePath destinationPath entry rest) as (-> & ->).
  specialize (Hentry sourcePath destinationPath).
  destruct (result (copyEntry C env sourcePath destinationPath entry tt)) as [[]|x];
    [ | discriminate ].
  intros Hrest. destruct (Hentry eq_refl) as (Hf & Hd). destruct (IH Hrest) as (Hf' & Hd').
  unfold visibleEntries. cbn [flat_map].
  rewrite !filter_app, !length_app, !map_app, !list_sum_app, Hf, Hd.
  fold (visibleEntries rest). rewrite Hf', Hd'. split; reflexivity.
Qed.

Lemma copyEntry_counts entry :
  forall sourcePath destinationPath,
    result (copyEntry C env sourcePath destinationPath entry tt) = Ok tt ->
    length (filter isCopy (calls (copyEntry C env sourcePath destinationPath entry tt)))
    = list_sum (map countFiles (visibleEntry entry))
    /\ length (filter isDirectoryCreated
                 (calls (copyEntry C env sourcePath destinationPath entry tt)))
       = list_sum (map countDirectories (visibleEntry entry)).
Proof.
  induction entry as [name|name children IH|name e|name e] using FsNode_induction;
    intros sourcePath destinationPath.
  - cbn [visibleEntry copyEntry nodeName]. destruct (isHidden name).
    + intros _. split; reflexivity.
    + rewrite !andThen_calls. intros _. cbn.
      destruct (copyFileSyncAnswer env _ _); split; reflexivity.
  - cbn [visibleEntry]. destruct (isHidden name) eqn:Hh.
    + cbn [copyEntry nodeName]. rewrite Hh. intros _. split; reflexivity.
    + rewrite (copyEntry_directory sourcePath destinationPath name children Hh tt).
      set (src := pathJoin C sourcePath name).
      set (dst := pathJoin C destinationPath (pathRelative C sourcePath src)).
      unfold copyDirectory. rewrite !andThen_result, !andThen_calls.
      destruct (mkdirSyncAnswer env dst) as [[]|x];
        cbn [perform pure raise result calls state awaiting]; [ | discriminate ].
      intros Hr.
      destruct (copyEntries_counts src dst children IH Hr) as (Hf & Hd).
      cbn [map countFiles countDirectories app filter isCopy
             isDirectoryCreated length].
      fold (visibleEntries children).
      rewrite Hf, Hd, !list_sum_one. split; reflexivity.
  - cbn [visibleEntry copyEntry nodeName]. destruct (isHidden name).
    + intros _. split; reflexivity.
    + rewrite !andThen_result. cbn.
      destruct (mkdirSyncAnswer env _) as [[]|x]; discriminate.
  - cbn [copyEntry nodeName]. rewrite !andThen_result. cbn. discriminate.
Qed.

Lemma copyEntries_broken sourcePath destinationPath before name e after :
  result (copyEntries C env sourcePath destinationPath before tt) = Ok tt ->
  result (copyEntries C env sourcePath destinationPath
            (before ++ FsBroken name e :: after) tt) = Fails e
  /\ calls (copyEntries C env sourcePath destinationPath
              (before ++ FsBroken name e :: after) tt)
     = calls (copyEntries C env sourcePath destinationPath before tt)
       ++ [Stat (pathJoin C sourcePath name)].
Proof.
  intros Hb.
  destruct (copyEntries_app sourcePath destinationPath before (FsBroken name e :: after))
    as (-> & ->).
  rewrite Hb.
  destruct (copyEntries_cons sourcePath destinationPath (FsBroken name e) after)
    as (-> & ->).
  cbn. split; reflexivity.
Qed.

(** X21: [copyDirectory] asks [fs.statSync] about every entry and then
    skips the entries whose name starts with a dot.  Its result and its
    calls other than the stats are those of the copy of the entries that are
    not hidden, at every depth, an entry whose stat throws counting as not
    hidden.  A copy that succeeds copies each file that is not hidden once
    and creates the destination and one directory for each directory that is
    not hidden.  An entry whose stat throws, hidden or not, ends the copy
    with that error once the entries before it are copied, and nothing is
    done after that stat. *)
Theorem copyDirectory_skips_hidden sourcePath destinationPath entries :
  let run := copyDirectory C env sourcePath destinationPath (Ok entries) tt in
  let run' :=
    copyDirectory C env sourcePath destinationPath (Ok (visibleEntries entries)) tt in
  result run = result run'
  /\ filter notStat (calls run) = filter notStat (calls run')
  /\ (result run = Ok tt ->
      length (filter isCopy (calls run))
      = list_sum (map countFiles (visibleEntries entries))
      /\ length (filter isDirectoryCreated (calls run))
         = S (list_sum (map countDirectories (visibleEntries entries))))
  /\ (forall before name e after,
        entries = before ++ FsBroken name e :: after ->
        mkdirSyncAnswer env destinationPath = Ok tt ->
        result (copyEntries C env sourcePath destinationPath before tt) = Ok tt ->
        result run = Fails e
        /\ calls run
           = Mkdir destinationPath :: Readdir sourcePath
             :: calls (copyEntries C env sourcePath destinationPath before tt)
                ++ [Stat (pathJoin C sourcePath name)]).
Proof.
  cbv zeta.
  assert (Ho : outline (copyDirectory C env sourcePath destinationPath (Ok entries) tt)
               = outline (copyDirectory C env sourcePath destinationPath
                            (Ok (visibleEntries entries)) tt)).
  { rewrite !outline_copyDirectory, <- copyEntries_visible. reflexivity. }
  unfold outline in Ho. injection Ho as Hr Hc.
  split; [ exact Hr | ]. split; [ exact Hc | ].
  unfold copyDirectory. rewrite !andThen_result, !andThen_calls.
  split.
  - destruct (mkdirSyncAnswer env destinationPath) as [[]|x];
      cbn [perform pure raise result calls state awaiting]; [ | discriminate ].
    intros Hok.
    assert (Hall : Forall (fun entry =>
              forall sourcePath destinationPath,
                result (copyEntry C env sourcePath destinationPath entry tt) = Ok tt ->
                length (filter isCopy
                          (calls (copyEntry C env sourcePath destinationPath entry tt)))
                = list_sum (map countFiles (visibleEntry entry))
                /\ length (filter isDirectoryCreated
                             (calls (copyEntry C env sourcePath destinationPath entry tt)))
                   = list_sum (map countDirectories (visibleEntry entry))) entries).
    { apply Forall_forall. intros entry _. apply copyEntry_counts. }
    destruct (copyEntries_counts sourcePath destinationPath entries Hall Hok) as (Hf & Hd).
    cbn [app filter isCopy isDirectoryCreated length]. rewrite Hf, Hd.
    split; reflexivity.
  - intros before name e after -> -> Hb.
    cbn [perform pure raise result calls state awaiting app].
    destruct (copyEntries_broken sourcePath destinationPath before name e after Hb)
      as (-> & ->).
    split; reflexivity.
Qed.

End CopyProperties.

(** ** Download *)

Section DownloadProperties.

Variable C : Constants.

Lemma receiveChunks_run stream buffer locals :
  receiveChunks stream buffer locals
  = {| result := Ok (buffer ++ payloads stream);
       state := {| totalDownloadBytes :=
                     totalDownloadBytes locals + length (concat (payloads stream));
                   statusMessage := statusMessage locals;
                   exportResult := exportResult locals |};
       calls := [] |}.
Proof.
  revert buffer locals. induction stream as [|chunk rest IH]; intros buffer locals.
  - cbn. rewrite app_nil_r, Nat.add_0_r. destruct locals; reflexivity.
  - cbn [receiveChunks payloads flat_map].
    destruct chunk as [[bytes|]|]; cbn [app]; fold (payloads rest).
    + unfold andThen, modifyState. rewrite IH. cbn.
      rewrite <- app_assoc, length_app, Nat.add_assoc. reflexivity.
    + apply IH.
    + apply IH.
Qed.

Ltac download_steps :=
  unfold downloadExportResultArchive, finally, catch, andThen, perform, awaiting, pure,
    raise, modifyState, getState.

(** X22: when the export answers with a body whose stream does not break,
    [downloadExportResultArchive] writes to the given path the bytes of the
    binary payloads received, in the order received, and completes as the
    write does; the latency metric that follows carries the number of bytes
    written and the request id of the response, and reports [Pass] only when
    the write fails with an empty message, so [Fail] for a download that
    succeeds. *)
Theorem download_writes_payload args toPath env response stream :
  exportAnswer env = Ok response ->
  body response = Some stream ->
  streamError stream = None ->
  let run := downloadExportResultArchive C args toPath env freshDownloadLocals in
  let content := concat (payloads (chunks stream)) in
  result run = writeFileAnswer env
  /\ exists status,
       calls run
       = [DExportResultArchive args;
          DWriteFile toPath content;
          DLogApiLatency (length content) (metadataRequestId response) status]
       /\ (status = Pass <->
           exists e, writeFileAnswer env = Fails e /\ raisedMessage C e = ""%string).
Proof.
  intros Hexport Hbody Hstream. cbv zeta.
  download_steps. rewrite Hexport. cbn. rewrite Hbody, receiveChunks_run. cbn.
  rewrite Hstream.
  destruct (writeFileAnswer env) as [[]|e] eqn:Ew; cbn.
  - split; [ reflexivity | ]. eexists. split; [ reflexivity | ].
    split; [ discriminate | intros (e & He & _); discriminate ].
  - split; [ reflexivity | ]. eexists. split; [ reflexivity | ].
    unfold truthy. destruct (String.eqb_spec (raisedMessage C e) "") as [E|E]; cbn.
    + split; [ intros _; exists e; auto | reflexivity ].
    + split; [ discriminate | intros (e' & [= <-] & He'); contradiction ].
Qed.


(** X23: every run of [downloadExportResultArchive] ends with the latency
    metric, emitted once; it carries the request id of the response, or the
    empty string when the export itself failed.  A failure of the download
    is the error of the export, of the stream or of the write, unchanged, or
    the empty-response error when the response has no body; the metric then
    reports [Fail] unless the message of the error is empty. *)
Theorem download_reports_once args toPath env :
  let run := downloadExportResultArchive C args toPath env freshDownloadLocals in
  exists before total status,
    calls run
    = before
      ++ [DLogApiLatency total
            (match exportAnswer env with
             | Ok response => metadataRequestId response
             | Fails _ => ""
             end) status]
    /\ filter isLatencyMetric before = []
    /\ match result run with
       | Ok _ => status = Fail
       | Fails e =>
           status = (if truthy (raisedMessage C e) then Fail else Pass)
           /\ (exportAnswer env = Fails e
               \/ (exists response stream,
                      exportAnswer env = Ok response
                      /\ body response = Some stream
                      /\ (streamError stream = Some e
                          \/ (streamError stream = None
                              /\ writeFileAnswer env = Fails e)))
               \/ (exists response,
                      exportAnswer env = Ok response
                      /\ body response = None
                      /\ e = ToolkitError
                               "Empty response from Amazon Q inline suggestions streaming service"
                               None))
       end.
Proof.
  cbv zeta. download_steps.
  destruct (exportAnswer env) as [response|e] eqn:Ee; cbn.
  - destruct (body response) as [stream|] eqn:Eb.
    + rewrite receiveChunks_run. cbn.
      destruct (streamError stream) as [e|] eqn:Es; cbn.
      * exists [DExportResultArchive args]. do 2 eexists.
        split; [ reflexivity | ]. split; [ reflexivity | ].
        split; [ reflexivity | ]. right. left. exists response, stream. auto.
      * destruct (writeFileAnswer env) as [[]|e] eqn:Ew; cbn.
        -- eexists [_; _]. do 2 eexists.
           split; [ reflexivity | ]. split; reflexivity.
        -- eexists [_; _]. do 2 eexists.
           split; [ reflexivity | ]. split; [ reflexivity | ].
           split; [ reflexivity | ]. right. left. exists response, stream. auto.
    + cbn. exists [DExportResultArchive args]. do 2 eexists.
      split; [ reflexivity | ]. split; [ reflexivity | ].
      split; [ reflexivity | ]. right. right. exists response. auto.
  - exists [DExportResultArchive args]. do 2 eexists.
    split; [ reflexivity | ]. split; [ reflexivity | ].
    split; [ reflexivity | ]. left. reflexivity.
Qed.

Lemma download_calls args toPath env locals :
  let run := downloadExportResultArchive C args toPath env locals in
  filter isClientDestroyed (calls run) = []
  /\ filter isDirectoryCreation (calls run) = []
  /\ filter isExtraction (calls run) = [].
Proof.
  cbv zeta. download_steps.
  destruct (exportAnswer env) as [response|e]; cbn; [ | auto ].
  destruct (body response) as [stream|]; cbn; [ | auto ].
  rewrite receiveChunks_run. cbn.
  destruct (streamError stream); cbn; [ auto | ].
  destruct (writeFileAnswer env) as [[]|e]; cbn; auto.
Qed.

(** X24: [downloadResultArchive] destroys the streaming client once, as its
    last call, whenever the client could be created, and completes as the
    download does, a failure being logged and thrown unchanged; when the
    client cannot be created it throws that error and makes no other
    call. *)
Theorem downloadResultArchive_destroys_client job_id artifact toPath type env :
  let args :=
    {| exportId := job_id;
       exportIntent := TRANSFORMATION;
       exportContext :=
         match artifact with
         | Some id => Some {| exportDownloadArtifactId := id;
                              exportDownloadArtifactType := type |}
         | None => None
         end |} in
  let inner := downloadExportResultArchive C args toPath env freshDownloadLocals in
  let run := downloadResultArchive C job_id artifact toPath type env tt in
  match clientAnswer env with
  | Fails e => result run = Fails e /\ calls run = [DCreateClient]
  | Ok _ =>
      result run = result inner
      /\ calls run
         = DCreateClient :: calls inner
           ++ match result inner with
              | Fails e =>
                  [DLogError ("CodeTransformation: ExportResultArchive error = "
                              ++ raisedMessage C e)]
              | Ok _ => []
              end
           ++ [DDestroyClient]
      /\ filter isClientDestroyed (calls run) = [DDestroyClient]
  end.
Proof.
  cbv zeta. unfold downloadResultArchive.
  destruct (download_calls
              {| exportId := job_id;
                 exportIntent := TRANSFORMATION;
                 exportContext :=
                   match artifact with
                   | Some id => Some {| exportDownloadArtifactId := id;
                                        exportDownloadArtifactType := type |}
                   | None => None
                   end |} toPath env freshDownloadLocals) as (Hd & _).
  unfold finally, catch, scoped, andThen, perform, awaiting, pure, raise in *.
  destruct (clientAnswer env) as [[]|e]; cbn; [ | auto ].
  destruct (downloadExportResultArchive C _ toPath env freshDownloadLocals)
    as [[[]|e] locals inner_calls]; cbn in *.
  - split; [ reflexivity | ]. split; [ reflexivity | ].
    rewrite filter_app, Hd. reflexivity.
  - split; [ reflexivity | ]. split; [ rewrite <- ?app_assoc; reflexivity | ].
    rewrite !filter_app, Hd. reflexivity.
Qed.

Local Arguments downloadResultArchive : simpl never.

(** X25: [downloadAndExtractResultArchive] fails either with the error of
    the check or of the creation of the archive directory, unchanged, or
    with Error('Error downloading transformation result artifacts: ...')
    carrying the message of what failed in the download or in the
    extraction. *)
Theorem downloadAndExtract_failures job_id artifact directory type env x :
  let run := downloadAndExtractResultArchive C job_id artifact directory type env tt in
  result run = Fails x ->
  existsDirAnswer env = Fails x
  \/ (existsDirAnswer env = Ok false /\ mkdirAnswer env = Fails x)
  \/ exists e,
       x = Known (Error ("Error downloading transformation result artifacts: "
                         ++ raisedMessage C e))
       /\ (result (downloadResultArchive C job_id artifact
                     (pathJoin C directory "ExportResultsArchive.zip") type env tt)
           = Fails e
           \/ unzipAnswer env = Fails e).
Proof.
  cbv zeta. unfold downloadAndExtractResultArchive.
  unfold catch, andThen, perform, awaiting, pure, raise, whenever.
  destruct (existsDirAnswer env) as [[|]|e0]; cbn.
  3:{ intros [= <-]. auto. }
  2: destruct (mkdirAnswer env) as [[]|e1]; cbn.
  3:{ intros [= <-]. auto. }
  all: destruct (downloadResultArchive C job_id artifact
                   (pathJoin C directory "ExportResultsArchive.zip") type env tt)
         as [[[]|e2] [] archive_calls]; cbn.
  all: try solve [ intros [= <-]; right; right; exists e2; split;
                   [ reflexivity | left; reflexivity ] ].
  all: destruct (unzipAnswer env) as [[]|e3]; cbn; try discriminate.
  all: intros [= <-]; right; right; exists e3; split;
    [ reflexivity | right; reflexivity ].
Qed.

End DownloadProperties.

(** ** Dependencies of the project *)

Section DependencyProperties.

Variable C : Constants.
Variable D : DependencyImports.
Variable cancelledAt : nat -> bool.

Ltac dependency_steps :=
  unfold prepareMavenProjectDependencies, installMavenProjectDependencies,
    copyMavenProjectDependencies, showBuildLogsAndRethrow, dependencyThrowIfCancelled,
    rethrownAfterLogs,
    catch, andThen, perform, awaiting, pure, raise, whenever.

(** X26: what copy-dependencies does has no bearing on how
    [prepareMavenProjectDependencies] completes: with any other result for
    it the handler completes in the same way, in the same state and with the
    same notifications; and the install is always started, in the project,
    with the dependencies folder as local repository. *)
Theorem maven_copy_failure_not_fatal s javaHome folder project env r reads :
  let run := prepareMavenProjectDependencies D cancelledAt s javaHome folder project
               env reads in
  let run' := prepareMavenProjectDependencies D cancelledAt s javaHome folder project
                (withCopyDependenciesResult r env) reads in
  result run' = result run
  /\ state run' = state run
  /\ filter isNotification (calls run') = filter isNotification (calls run)
  /\ In (PSpawn (buildSystemCommand s) (installArgs folder) (Some project) javaHome true)
        (calls run).
Proof.
  cbv zeta. dependency_steps. cbn [copyDependenciesResult installResult logsAnswer
    openDocumentAnswer showDocumentAnswer withCopyDependenciesResult].
  destruct (exitedWithError r); destruct (exitedWithError (copyDependenciesResult env));
    cbn.
  all: destruct (exitedWithError (installResult env)); cbn.
  all: try (destruct (logsAnswer env) as [logFile|e1]; cbn;
            [ destruct (openDocumentAnswer env) as [[]|e2]; cbn;
              [ destruct (showDocumentAnswer env) as [[]|e3]; cbn | ] | ]).
  all: try (destruct (cancelledAt reads); cbn).
  all: repeat split; auto 20.
Qed.

(** X27: the install decides how [prepareMavenProjectDependencies]
    completes.  When it exits with an error, the error notification is the
    only notification, the cancellation flag is not read, and the handler
    throws the Maven execution error, unless writing or showing the build
    logs fails first.  When it succeeds, the cancellation flag is read once:
    if it is set the handler throws the stopped error and shows nothing,
    otherwise it returns after the build-succeeded notification. *)
Theorem maven_install_decides s javaHome folder project env reads :
  let run := prepareMavenProjectDependencies D cancelledAt s javaHome folder project
               env reads in
  if exitedWithError (installResult env) then
    result run
    = Fails (rethrownAfterLogs env
               (ToolkitError ("Maven " ++ joinArgs (installArgs folder) ++ " error")
                  (Some "MavenExecutionError"%string)))
    /\ filter isNotification (calls run)
       = [PShowErrorMessage (cleanInstallErrorNotification D)]
    /\ filter isDependencyCancelRead (calls run) = []
  else
    filter isDependencyCancelRead (calls run) = [PIsCancelled (cancelledAt reads)]
    /\ if cancelledAt reads then
         result run = Fails (Known TransformByQStoppedError)
         /\ filter isNotification (calls run) = []
       else
         result run = Ok tt
         /\ filter isNotification (calls run)
            = [PShowInformationMessage (buildSucceededNotification D)].
Proof.
  cbv zeta. dependency_steps.
  destruct (exitedWithError (copyDependenciesResult env)); cbn.
  all: destruct (exitedWithError (installResult env)); cbn.
  all: try (destruct (logsAnswer env) as [logFile|e1]; cbn;
            [ destruct (openDocumentAnswer env) as [[]|e2]; cbn;
              [ destruct (showDocumentAnswer env) as [[]|e3]; cbn | ] | ]).
  all: try (destruct (cancelledAt reads); cbn).
  all: repeat split; reflexivity.
Qed.

Lemma tryPythonExecutables_run executables env reads :
  tryPythonExecutables executables env reads
  = {| result := Ok (find (pythonWorks env) executables);
       state := reads;
       calls := map (fun e => PSpawn e ["--version"%string] None None false)
                  (upToFirst (pythonWorks env) executables) |}.
Proof.
  induction executables as [|e rest IH]; [ reflexivity | ].
  cbn [tryPythonExecutables find upToFirst map].
  unfold andThen, catch, perform, awaiting, pure, raise, pythonWorks in *.
  destruct (pythonVersion env e) as [r|x]; cbn.
  - destruct (exitedWithError r); cbn; [ rewrite IH | ]; reflexivity.
  - rewrite IH. reflexivity.
Qed.

(** X28: [getPythonExecutable] answers with the first of python, python3,
    py and py3 whose version command exits with 0, a probe that throws
    counting as a failure, and with nothing when there is none; it probes
    the executables in this order and no further than the one it answers
    with. *)
Theorem getPythonExecutable_first env reads :
  let run := getPythonExecutable env reads in
  result run = Ok (find (pythonWorks env) pythonExecutables)
  /\ calls run
     = map (fun e => PSpawn e ["--version"%string] None None false)
         (upToFirst (pythonWorks env) pythonExecutables)
  /\ (forall python,
        result run = Ok (Some python) ->
        exists earlier later,
          pythonExecutables = earlier ++ python :: later
          /\ pythonWorks env python = true
          /\ forallb (fun e => negb (pythonWorks env e)) earlier = true
          /\ upToFirst (pythonWorks env) pythonExecutables = earlier ++ [python]).
Proof.
  cbv zeta. unfold getPythonExecutable. rewrite tryPythonExecutables_run. cbn [result calls].
  split; [ reflexivity | ]. split; [ reflexivity | ].
  intros python H. apply upToFirst_found. injection H as H. exact H.
Qed.

Local Arguments tryPythonExecutables : simpl never.

(** X29: the processes [prepareGradleProjectDependencies] starts are the
    probes for Python and then, when a Python is found, the creation of the
    Gradle wrapper exactly when the build command is plain 'gradle',
    followed by the copy script, run by that Python without a shell, unless
    the creation of the wrapper failed.  When no Python is found nothing
    else is started and the handler throws the no-Python error, unless
    writing or showing the build logs fails first. *)
Theorem gradle_processes s javaHome env reads :
  let run := prepareGradleProjectDependencies D cancelledAt s javaHome env reads in
  let usesPlainGradle := String.eqb (buildSystemCommand s) "gradle" in
  filter isProcess (calls run)
  = map (fun e => PSpawn e ["--version"%string] None None false)
      (upToFirst (pythonWorks env) pythonExecutables)
    ++ match find (pythonWorks env) pythonExecutables with
       | None => []
       | Some python =>
           (if usesPlainGradle
            then [PSpawn "gradle" ["wrapper"%string] (Some (projectPath s)) javaHome true]
            else [])
           ++ (if usesPlainGradle && exitedWithError (wrapperResult env) then []
               else [PSpawn python (gradleScriptArgs D s) (Some (projectPath s))
                       javaHome false])
       end
  /\ (find (pythonWorks env) pythonExecutables = None ->
      result run
      = Fails (rethrownAfterLogs env
                 (Known (Error "No Python executable found (checked python, python3, py, and py3). Please install Python and try again.")))).
Proof.
  cbv zeta.
  unfold prepareGradleProjectDependencies, getPythonExecutable,
    showBuildLogsAndRethrow, dependencyThrowIfCancelled, rethrownAfterLogs.
  unfold catch, andThen, perform, awaiting, pure, raise, whenever.
  rewrite tryPythonExecutables_run. cbn [result state calls].
  set (probes := map _ (upToFirst _ _)).
  assert (Hprobes : filter isProcess probes = probes).
  { unfold probes. generalize (upToFirst (pythonWorks env) pythonExecutables) as l.
    induction l as [|e l IH]; [ reflexivity | ]. cbn. rewrite IH. reflexivity. }
  clearbody probes.
  destruct (find (pythonWorks env) pythonExecutables) as [python|].
  - split; [ | discriminate ].
    destruct (String.eqb (buildSystemCommand s) "gradle"); cbn.
    1: destruct (exitedWithError (wrapperResult env)); cbn.
    all: try (destruct (exitedWithError (scriptResult env)); cbn).
    all: try (destruct (logsAnswer env) as [logFile|e1]; cbn;
              [ destruct (openDocumentAnswer env) as [[]|e2]; cbn;
                [ destruct (showDocumentAnswer env) as [[]|e3]; cbn | ] | ]).
    all: try (destruct (cancelledAt reads); cbn).
    all: rewrite ?filter_app, Hprobes; cbn; rewrite ?app_nil_r; reflexivity.
  - cbn.
    destruct (logsAnswer env) as [logFile|e1]; cbn;
      [ destruct (openDocumentAnswer env) as [[]|e2]; cbn;
        [ destruct (showDocumentAnswer env) as [[]|e3]; cbn | ] | ].
    all: rewrite ?filter_app, Hprobes; cbn; rewrite ?app_nil_r.
    all: split; [ reflexivity | intros _; reflexivity ].
Qed.

End DependencyProperties.

(** * The further properties on the example values *)

(** X2 on a round whose plan waits for the client with the artifact
    artifact-7. *)
Lemma client_instructions_requested_witness :
  In (EExtractClientInstructions "job-1" "artifact-7")
     (events (processAwaitingClientActionStatus exampleConstants neverCancelled
                "job-1" (exampleClientRound (Resolves tt)) exampleWorld))
  /\ exists plan update,
       planAnswer (exampleClientRound (Resolves tt)) = Resolves plan
       /\ snd (findDownloadArtifactStep (transformationSteps plan)) = Some update
       /\ artifactId (firstArtifact update) = Some "artifact-7"%string.
Proof.
  assert (H : In (EExtractClientInstructions "job-1" "artifact-7")
                (events (processAwaitingClientActionStatus exampleConstants
                           neverCancelled "job-1" (exampleClientRound (Resolves tt))
                           exampleWorld))).
  { vm_compute. tauto. }
  split; [ exact H | ].
  destruct (client_instructions_requested exampleConstants neverCancelled
              "job-1" (exampleClientRound (Resolves tt)) exampleWorld
              "job-1" "artifact-7" H)
    as (_ & plan & update & Hp & Hf & _ & _ & Ha & _).
  exists plan, update. auto.
Defined.

(** X3 on the same round with a patch that does not apply. *)
Lemma client_round_failures_witness :
  let round := exampleClientRound (Rejects (Error "patch does not apply")) in
  let e := Error "process client instructions failed: Error: patch does not apply" in
  outcome (processAwaitingClientActionStatus exampleConstants neverCancelled
             "job-1" round exampleWorld) = Threw e
  /\ exists e', patchAnswer round = Rejects e'
                /\ e = Error ("process client instructions failed: "
                              ++ render exampleConstants e')%string.
Proof.
  cbv zeta. split; [ reflexivity | ].
  destruct (client_round_failures exampleConstants neverCancelled "job-1"
              (exampleClientRound (Rejects (Error "patch does not apply")))
              exampleWorld
              (Error "process client instructions failed: Error: patch does not apply")
              eq_refl)
    as [(H & _)|[H|[(t & H)|[H|[H|H]]]]];
    try discriminate H.
  exact H.
Defined.

(** X4 on a poll cancelled during the first sleep. *)
Lemma poll_stops_when_cancelled_witness :
  let run := pollTransformationJob exampleConstants (cancelledFrom 1) "job-1"
               ["COMPLETED"%string] (map answering ["SUBMITTED"; "PLANNING"]%string)
               exampleWorld in
  events run
  = [EIsCancelled false; EGetTransformation "job-1"; EStatus "SUBMITTED";
     EStatusChanged "job-1" "SUBMITTED" ""; ESleep 5000]
    ++ EIsCancelled true :: []
  /\ outcome run = Threw TransformByQStoppedError
  /\ forallb isErrorLog [] = true.
Proof.
  cbv zeta. split; [ reflexivity | ].
  apply (poll_stops_when_cancelled exampleConstants (cancelledFrom 1) "job-1"
           ["COMPLETED"%string] (map answering ["SUBMITTED"; "PLANNING"]%string)
           exampleWorld
           [EIsCancelled false; EGetTransformation "job-1"; EStatus "SUBMITTED";
            EStatusChanged "job-1" "SUBMITTED" ""; ESleep 5000] []).
  reflexivity.
Defined.

(** X5 on a job that is paused. *)
Lemma poll_returns_witness :
  let run := pollTransformationJob exampleConstants neverCancelled "job-1"
               ["COMPLETED"%string] (map answering ["SUBMITTED"; "PAUSED"]%string)
               exampleWorld in
  outcome run = Returned "PAUSED"%string
  /\ polledJobStatus (job (final run)) = "WaitingUserInput"%string.
Proof.
  cbv zeta. split; [ reflexivity | ].
  destruct (poll_returns exampleConstants neverCancelled "job-1" ["COMPLETED"%string]
              (map answering ["SUBMITTED"; "PAUSED"]%string) exampleWorld "PAUSED"
              eq_refl)
    as (_ & [(Hv & _)|(_ & _ & Hp)]); [ discriminate Hv | exact Hp ].
Defined.

(** X6 on a request that is throttled. *)
Lemma poll_fetch_rejected_witness :
  neverCancelled (cancelReads exampleWorld) = false
  /\ pollTransformationJob exampleConstants neverCancelled "job-1" ["COMPLETED"%string]
       [rejecting (Error "ThrottlingException")] exampleWorld
     = {| outcome := Threw (Error "ThrottlingException");
          final := afterCancelRead exampleWorld;
          events := [EIsCancelled false; EGetTransformation "job-1";
                     pollErrorLog exampleConstants (Error "ThrottlingException")
                       (job exampleWorld)] |}.
Proof.
  split; [ reflexivity | ].
  apply (poll_fetch_rejected exampleConstants neverCancelled "job-1"
           ["COMPLETED"%string] (rejecting (Error "ThrottlingException")) []
           exampleWorld (Error "ThrottlingException"));
    reflexivity.
Defined.

(** X7 on a job that failed. *)
Lemma poll_failure_status_witness :
  let response :=
    {| status := "FAILED"; reason := Some "Internal error"%string;
       requestId := "req-2" |} in
  let run := pollTransformationJob exampleConstants neverCancelled "job-1"
               ["COMPLETED"%string] [failing "Internal error"] exampleWorld in
  getTransformation (failing "Internal error") = Resolves response
  /\ arrayIncludes (failureStates exampleConstants) (status response) = true
  /\ outcome run = Threw (JobStoppedError "req-2")
  /\ jobFailureMetadata (job (final run)) = " (request ID: req-2)"%string
  /\ count isFetch (events run) = 1%nat.
Proof.
  cbv zeta. split; [ reflexivity | ]. split; [ reflexivity | ].
  destruct (poll_failure_status exampleConstants neverCancelled "job-1"
              ["COMPLETED"%string] (failing "Internal error") [] exampleWorld
              {| status := "FAILED"; reason := Some "Internal error"%string;
                 requestId := "req-2" |}
              eq_refl eq_refl eq_refl eq_refl eq_refl)
    as (Ho & Hm & Hf & _).
  - intros H. discriminate H.
  - split; [ exact Ho | ]. split; [ exact Hm | exact Hf ].
Defined.

(** X9 on the build descriptor of the example module. *)
Lemma zipCode_never_adds_excluded_witness :
  In (EAddLocalFile "/work/app/pom.xml" "sources")
     (events (zipCode exampleConstants neverCancelled exampleSettings exampleZipParams
                (exampleZipEnv 1000) exampleWorld))
  /\ isExcludedFile "/work/app/pom.xml" = false.
Proof.
  assert (H : In (EAddLocalFile "/work/app/pom.xml" "sources")
                (events (zipCode exampleConstants neverCancelled exampleSettings
                           exampleZipParams (exampleZipEnv 1000) exampleWorld))).
  { vm_compute. tauto. }
  split; [ exact H | ].
  apply (zipCode_never_adds_excluded exampleConstants neverCancelled exampleSettings
           exampleZipParams (exampleZipEnv 1000) exampleWorld
           "/work/app/pom.xml" "sources" H).
Defined.

(** X11 on the example module. *)
Lemma zipCode_archive_metadata_witness :
  let run := zipCode exampleConstants neverCancelled exampleSettings exampleZipParams
               (exampleZipEnv 1000) exampleWorld in
  outcome run = Returned "/tmp/zipped-code.zip"%string
  /\ filter isArchiveWrite (events run) = [EWriteZip "/tmp/zipped-code.zip"]
  /\ filter isBuildLogEntry (events run) = [EAddBuildLog "/tmp/build-logs.txt"].
Proof.
  cbv zeta.
  destruct (zipCode_archive_metadata exampleConstants neverCancelled exampleSettings
              exampleZipParams (exampleZipEnv 1000) exampleWorld
              "/tmp/zipped-code.zip" eq_refl)
    as (_ & (logFile & Hl & Hb) & Hw & _).
  split; [ reflexivity | ]. split; [ exact Hw | ].
  injection Hl as <-. exact Hb.
Defined.

(** X14 on a stop request that is denied. *)
Lemma stopJob_outcomes_witness :
  truthy "job-1" = true
  /\ stopJob exampleConstants "job-1" (Rejects (Error "AccessDenied")) exampleWorld
     = {| outcome := Threw (Error "Stop job failed");
          final := exampleWorld;
          events := [EStopTransformation "job-1";
                     ELogError "CodeTransformation: StopTransformation error = AccessDenied"] |}.
Proof.
  split; [ reflexivity | ].
  exact (stopJob_outcomes exampleConstants "job-1" (Rejects (Error "AccessDenied"))
           exampleWorld eq_refl).
Defined.

(** X15 on a workspace of five folders: a Maven project compiled for Java 8
    and a Gradle project whose class file [javap] cannot read are valid. *)
Lemma validate_returns_buildable_java_projects_witness :
  let projects := exampleProjects ++ [exampleApp; exampleLib; exampleScratch] in
  let run := validateOpenProjects exampleConstants exampleJavaWorkspace projects false
               exampleWorld in
  let valid :=
    [{| projectName := "app"; projectDir := "/work/app";
        projectJDKVersion := Some JDK8 |};
     {| projectName := "lib"; projectDir := "/work/lib";
        projectJDKVersion := None |}] in
  outcome run = Returned valid
  /\ map (fun p => (projectName p, projectDir p)) valid
     = [("app", "/work/app"); ("lib", "/work/lib")]%string
  /\ filter isSpawnSync (events run)
     = [ESpawnSync "javap" ["-v"; "/work/app/target/App.class"]%string;
        ESpawnSync "javap" ["-v"; "/work/lib/build/Lib.class"]%string]
  /\ filter isValidationNotice (events run) = [].
Proof.
  cbv zeta. split; [ vm_compute; reflexivity | ].
  destruct (validate_returns_buildable_java_projects exampleConstants
              exampleJavaWorkspace
              (exampleProjects ++ [exampleApp; exampleLib; exampleScratch])
              false exampleWorld
              [{| projectName := "app"; projectDir := "/work/app";
                  projectJDKVersion := Some JDK8 |};
               {| projectName := "lib"; projectDir := "/work/lib";
                  projectJDKVersion := None |}]
              ltac:(vm_compute; reflexivity))
    as (_ & Hm & _ & Hn & Hs).
  split; [ exact Hm | ]. split; [ exact Hs | exact Hn ].
Defined.

(** X16 on a workspace whose only Java sources have no build file. *)
Lemma validate_without_build_file_witness :
  let projects := exampleProjects ++ [exampleScratch] in
  (exists p, In p projects /\ javaFiles exampleJavaWorkspace (projectDir p) <> [])
  /\ outcome (validateOpenProjects exampleConstants exampleJavaWorkspace projects false
                exampleWorld)
     = Threw NoMavenOrGradleJavaProjectsFoundError
  /\ events (validateOpenProjects exampleConstants exampleJavaWorkspace projects false
               exampleWorld)
     = [EShowErrorMessage "no build file";
        EValidateProjectFailed "NoMavenOrGradleBuildFileFound"].
Proof.
  cbv zeta.
  assert (Hjava : exists p,
             In p (exampleProjects ++ [exampleScratch])
             /\ javaFiles exampleJavaWorkspace (projectDir p) <> []).
  { exists exampleScratch. split; [ simpl; tauto | discriminate ]. }
  split; [ exact Hjava | ].
  apply (validate_without_build_file exampleConstants exampleJavaWorkspace
           (exampleProjects ++ [exampleScratch]) false exampleWorld Hjava).
  intros p [<-|[<-|[<-|[]]]] _; reflexivity.
Defined.

(** X17 on an upload cancelled before the URL is requested. *)
Lemma uploadPayload_cancelled_witness :
  let env := exampleUploadEnv (Ok 200) in
  let run := uploadPayload exampleConstants exampleUploadImports (cancelledFrom 0)
               "/tmp/zipped-code.zip" None env exampleUploadSession in
  readFileAnswer env = Ok "zipped bytes"%string
  /\ result run = Fails TransformByQStoppedError
  /\ calls run = [UReadFile "/tmp/zipped-code.zip"; UIsCancelled true].
Proof.
  cbv zeta. split; [ reflexivity | ].
  destruct (uploadPayload_cancelled exampleConstants exampleUploadImports
              (cancelledFrom 0) "/tmp/zipped-code.zip" None (exampleUploadEnv (Ok 200))
              exampleUploadSession "zipped bytes" eq_refl)
    as (Hfirst & _).
  destruct (Hfirst eq_refl) as (Hr & Hc & _).
  split; [ exact Hr | exact Hc ].
Defined.

(** X18 on a PUT refused because the URL expired. *)
Lemma uploadPayload_s3_failure_witness :
  let env := exampleUploadEnv (Fails (Error "403: Request has expired")) in
  let run := uploadPayload exampleConstants exampleUploadImports neverCancelled
               "/tmp/zipped-code.zip" None env exampleUploadSession in
  putAnswer env = Fails (Error "403: Request has expired")
  /\ result run = Fails (Error "the upload URL expired").
Proof.
  cbv zeta. split; [ reflexivity | ].
  destruct (uploadPayload_s3_failure exampleConstants exampleUploadImports
              neverCancelled "/tmp/zipped-code.zip" None
              (exampleUploadEnv (Fails (Error "403: Request has expired")))
              exampleUploadSession "zipped bytes"
              {| uploadId := "upload-1";
                 uploadUrl := "https://bucket.example/upload-1";
                 kmsKeyArn := Some "arn:aws:kms:key-1"%string;
                 uploadRequestId := "req-3" |}
              (Error "403: Request has expired")
              eq_refl eq_refl eq_refl eq_refl
              (or_intror (conj (ex_intro _ 12 eq_refl) eq_refl)))
    as (Hr & Hexpired & _).
  rewrite Hr, (Hexpired eq_refl). reflexivity.
Defined.

(** X19 on the same upload. *)
Lemma uploadPayload_failure_keeps_job_witness :
  let env := exampleUploadEnv (Fails (Error "403: Request has expired")) in
  let run := uploadPayload exampleConstants exampleUploadImports neverCancelled
               "/tmp/zipped-code.zip" None env exampleUploadSession in
  result run = Fails (Error "the upload URL expired")
  /\ sessionJobId (state run) = ""%string
  /\ uploadCodeProgress (state run) = StepPending
  /\ sessionJobHistory (state run) = [].
Proof.
  cbv zeta. split; [ reflexivity | ].
  apply (uploadPayload_failure_keeps_job exampleConstants exampleUploadImports
           neverCancelled "/tmp/zipped-code.zip" None
           (exampleUploadEnv (Fails (Error "403: Request has expired")))
           exampleUploadSession (Error "the upload URL expired")).
  reflexivity.
Defined.

(** X20 on a first upload that goes through. *)
Lemma uploadPayload_succeeds_witness :
  let env := exampleUploadEnv (Ok 200) in
  let run := uploadPayload exampleConstants exampleUploadImports neverCancelled
               "/tmp/zipped-code.zip" None env exampleUploadSession in
  putAnswer env = Ok 200
  /\ result run = Ok "upload-1"%string
  /\ sessionJobId (state run) = "upload-1"%string
  /\ uploadCodeProgress (state run) = Succeeded.
Proof.
  cbv zeta. split; [ reflexivity | ].
  destruct (uploadPayload_succeeds exampleConstants exampleUploadImports
              neverCancelled "/tmp/zipped-code.zip" None (exampleUploadEnv (Ok 200))
              exampleUploadSession "zipped bytes"
              {| uploadId := "upload-1";
                 uploadUrl := "https://bucket.example/upload-1";
                 kmsKeyArn := Some "arn:aws:kms:key-1"%string;
                 uploadRequestId := "req-3" |}
              12 200 eq_refl eq_refl eq_refl eq_refl eq_refl eq_refl)
    as (Hr & Hj & Hp & _).
  split; [ exact Hr | ]. split; [ exact Hj | exact Hp ].
Defined.

(** X22 on a stream of two payloads. *)
Lemma download_writes_payload_witness :
  let env := exampleDownloadEnv (Ok tt) in
  let args := {| exportId := "job-1"; exportIntent := TRANSFORMATION;
                 exportContext := None |} in
  let run := downloadExportResultArchive exampleConstants args "/tmp/result.zip" env
               freshDownloadLocals in
  streamError exampleStream = None
  /\ result run = Ok tt
  /\ exists status,
       calls run
       = [DExportResultArchive args;
          DWriteFile "/tmp/result.zip" [Byte.x50; Byte.x4b; Byte.x03; Byte.x04];
          DLogApiLatency 4 "req-4" status].
Proof.
  cbv zeta. split; [ reflexivity | ].
  destruct (download_writes_payload exampleConstants
              {| exportId := "job-1"; exportIntent := TRANSFORMATION;
                 exportContext := None |}
              "/tmp/result.zip" (exampleDownloadEnv (Ok tt))
              {| body := Some exampleStream; metadataRequestId := "req-4" |}
              exampleStream eq_refl eq_refl eq_refl)
    as (Hr & status & Hc & _).
  split; [ exact Hr | ]. exists status. exact Hc.
Defined.

(** X25 on an archive that cannot be extracted. *)
Lemma downloadAndExtract_failures_witness :
  let env := exampleDownloadEnv (Fails (Known (Error "Invalid or unsupported zip format"))) in
  let x := Known (Error "Error downloading transformation result artifacts: Invalid or unsupported zip format") in
  result (downloadAndExtractResultArchive exampleConstants "job-1" (Some "artifact-7"%string)
            "/tmp/client_instructions_artifact-7.zip" "CLIENT_INSTRUCTIONS" env tt)
  = Fails x
  /\ exists e,
       x = Known (Error ("Error downloading transformation result artifacts: "
                         ++ raisedMessage exampleConstants e)%string).
Proof.
  cbv zeta. split; [ reflexivity | ].
  destruct (downloadAndExtract_failures exampleConstants "job-1"
              (Some "artifact-7"%string) "/tmp/client_instructions_artifact-7.zip"
              "CLIENT_INSTRUCTIONS"
              (exampleDownloadEnv
                 (Fails (Known (Error "Invalid or unsupported zip format"))))
              (Known (Error "Error downloading transformation result artifacts: Invalid or unsupported zip format"))
              eq_refl)
    as [H|[(H & _)|(e & He & _)]]; try discriminate H.
  exists e. exact He.
Defined.
